(** * Faculty-Research-Match: similarity, ranking, fallback and network graph

    A shallow embedding of the similarity core of the repository:

    - [src/lib/similarity.ts]              (module [Lexical]: TF-IDF ranking),
    - [src/lib/transformers-embedding.ts]  (module [Embedding]: cosine
      similarity, [findSimilar], padding/extraction, batch embedding),
    - [src/lib/advanced-similarity.ts]     (module [Advanced]: dense ranking
      with fallback to the lexical path),
    - [src/app/api/network/route.ts]       (module [Network]: graph builder),
    - [src/lib/openai.ts]                  (module [Keywords]: keyword
      preparation; module [Legacy]: the strict padding functions),
    - [src/lib/database.ts]                (module [Database]: query builder),
    - [scripts/generate-embeddings.js]     (module [Script]: batch update),
    - [src/app/api/ingest/route.ts]        (module [Ingest]: validation and
      pairing of an upload),
    - [src/app/api/faculty/[id]/route.ts]  (module [FacultyRoute]).

    JavaScript numbers are IEEE-754 binary64 values, which is exactly Rocq's
    primitive [float]; arithmetic, comparisons and [Math.sqrt] are the
    primitive operations.  [Math.log] is implementation-approximated, so it
    is a field of the environment of a call.  Strings are sequences of
    code units below 256.  Exceptions are explicit: a function that may throw
    returns an [outcome]. *)

From Stdlib Require Import List ZArith Bool String Ascii Lia Sorting.Sorted Permutation.
From Stdlib Require Import Floats.
From Stdlib Require Import DecimalString.
Import ListNotations.

Set Warnings "-inexact-float".

Local Open Scope float_scope.

(* ================================================================== *)
(** * Exceptions *)

(** The [Error]s the modelled code throws, one constructor per message. *)
Inductive exn : Type :=
| DimensionMismatch (la lb : nat)      (* "Embedding dimensions don't match: la vs lb" *)
| ExpectedDimensions (want got : nat)  (* "Expected 384 dimensions, got n" *)
| UnexpectedEmbeddingSize (n : nat)    (* "Unexpected embedding size: n" *)
| NoEmbeddingsAvailable                (* "No embeddings available - fallback to TF-IDF" *)
| DatabaseQueryFailed                  (* "Database query failed" *)
| JSONSyntaxError                      (* JSON.parse on malformed text *)
| InvalidArrayLength                   (* RangeError of new Array(n), n < 0 *)
| ProviderError.                       (* the embedding pipeline rejected *)

Inductive outcome (A : Type) : Type :=
| Returned (a : A)
| Thrown (e : exn).
Arguments Returned {A} a.
Arguments Thrown {A} e.

Definition bind {A B} (m : outcome A) (k : A -> outcome B) : outcome B :=
  match m with
  | Returned a => k a
  | Thrown e => Thrown e
  end.

Notation "x <- m ;; k" := (bind m (fun x => k))
  (at level 61, m at next level, right associativity).

(** [try { body } catch (error) { handler }] *)
Definition try_catch {A} (body : outcome A) (handler : exn -> outcome A) : outcome A :=
  match body with
  | Returned a => Returned a
  | Thrown e => handler e
  end.

(** [xs.map(f)] where [f] may throw: the first exception aborts the map. *)
Fixpoint mapM {A B} (f : A -> outcome B) (l : list A) : outcome (list B) :=
  match l with
  | [] => Returned []
  | x :: l' => y <- f x ;; ys <- mapM f l' ;; Returned (y :: ys)
  end.

(* ================================================================== *)
(** * JavaScript arrays and numbers *)

(** [a[i]]: reading past the end gives [undefined], which arithmetic turns
    into NaN. *)
Definition get (a : list float) (i : nat) : float := nth i a nan.

(** An array length or a count as a number. *)
Definition of_nat (n : nat) : float := of_uint63 (Uint63.of_Z (Z.of_nat n)).

(** [x || 0] on numbers: 0, -0 and NaN are falsy. *)
Definition or_zero (x : float) : float :=
  if (x =? 0) || negb (x =? x) then 0 else x.

(** [for (let i = 0; i < n; i++) acc = body(acc, i)] *)
Definition for_range {S} (n : nat) (body : S -> nat -> S) (init : S) : S :=
  fold_left body (seq 0 n) init.

(** [l.slice(0, e)].  [e] is the integer the engine makes of the argument
    (NaN counts as 0); a negative [e] counts from the end. *)
Definition slice0 {A} (l : list A) (e : Z) : list A :=
  if (e <? 0)%Z
  then firstn (Z.to_nat (Z.max (Z.of_nat (List.length l) + e) 0)) l
  else firstn (Z.to_nat e) l.

(** [l.sort(cmp)].  ECMAScript requires the sort to be stable; with a
    consistent comparator every conforming engine returns the list computed
    here, a stable insertion sort that moves [y] before [x] only when
    [cmp(x, y) > 0]. *)
Fixpoint insert_by {A} (cmp : A -> A -> float) (x : A) (l : list A) : list A :=
  match l with
  | [] => [x]
  | y :: l' => if 0 <? cmp x y then y :: insert_by cmp x l' else x :: l
  end.

Definition Array_sort {A} (cmp : A -> A -> float) (l : list A) : list A :=
  fold_right (insert_by cmp) [] l.

(** [[...new Set(l)]]: distinct elements in order of first occurrence. *)
Fixpoint add_new (eqb : string -> string -> bool) (x : string) (seen : list string) : list string :=
  match seen with
  | [] => [x]
  | y :: seen' => if eqb y x then seen else y :: add_new eqb x seen'
  end.

Definition Set_of (l : list string) : list string :=
  fold_left (fun seen x => add_new String.eqb x seen) l [].

(** [arr.indexOf(x)] on strings; -1 when absent. *)
Fixpoint indexOf_from (x : string) (l : list string) (i : Z) : Z :=
  match l with
  | [] => (-1)%Z
  | y :: l' => if String.eqb y x then i else indexOf_from x l' (i + 1)%Z
  end.

Definition indexOf (l : list string) (x : string) : Z := indexOf_from x l 0%Z.

(* ================================================================== *)
(** * Records *)

(** The text of the [embedding] column.  [JSON.parse] either throws or gives
    an array of numbers. *)
Inductive stored_embedding : Type :=
| JsonArray (v : list float)
| Malformed.

Definition JSON_parse (s : stored_embedding) : outcome (list float) :=
  match s with
  | JsonArray v => Returned v
  | Malformed => Thrown JSONSyntaxError
  end.

(** A row of table [faculty] ([faculty_id] is its primary key). *)
Record FacultyRow : Type := {
  faculty_id : string;
  name : string;
  title : string;
  school : string;
  department : string;
  keywords : string;
  embedding : option stored_embedding   (* None: NULL *)
}.

Record SimilarityResult : Type := {
  r_faculty_id : string;
  r_name : string;
  r_title : string;
  r_school : string;
  r_department : string;
  similarity : float
}.

(** The comparator of every ranking: [(a, b) => b.similarity - a.similarity]. *)
Definition by_similarity_desc (a b : SimilarityResult) : float :=
  similarity b - similarity a.

Definition default {A} (d : A) (o : option A) : A :=
  match o with
  | Some x => x
  | None => d
  end.

(* ================================================================== *)
(** * Characters and text *)

Definition code (c : ascii) : nat := nat_of_ascii c.

Definition between (lo hi n : nat) : bool := (lo <=? n)%nat && (n <=? hi)%nat.

(** [\s] on code units below 256. *)
Definition is_space (c : ascii) : bool :=
  between 9 13 (code c) || (code c =? 32)%nat || (code c =? 160)%nat.

(** [\w]: [A-Za-z0-9_]. *)
Definition is_word (c : ascii) : bool :=
  between 65 90 (code c) || between 97 122 (code c)
  || between 48 57 (code c) || (code c =? 95)%nat.

Definition lower_char (c : ascii) : ascii :=
  let n := code c in
  if between 65 90 n || (between 192 222 n && negb (n =? 215)%nat)
  then ascii_of_nat (n + 32) else c.

Fixpoint toLowerCase (s : string) : string :=
  match s with
  | EmptyString => EmptyString
  | String c s' => String (lower_char c) (toLowerCase s')
  end.

Definition space : ascii := ascii_of_nat 32.

(** [s.replace(/[^\w\s]/g, ' ')] *)
Fixpoint strip_punctuation (s : string) : string :=
  match s with
  | EmptyString => EmptyString
  | String c s' =>
      String (if is_word c || is_space c then c else space) (strip_punctuation s')
  end.

Definition starts_with_space (s : string) : bool :=
  match s with
  | EmptyString => false
  | String c _ => is_space c
  end.

(** [s.split(/\s+/)]: the pieces between maximal runs of white space (a
    leading or trailing run leaves an empty piece). *)
Fixpoint split_ws (s : string) : list string :=
  match s with
  | EmptyString => [EmptyString]
  | String c s' =>
      let r := split_ws s' in
      if is_space c
      then (if starts_with_space s' then r else EmptyString :: r)
      else match r with
           | t :: ts => String c t :: ts
           | [] => [String c EmptyString]
           end
  end.

(** [s.replace(/\s+/g, ' ')] *)
Fixpoint collapse_ws (s : string) : string :=
  match s with
  | EmptyString => EmptyString
  | String c s' =>
      if is_space c
      then (if starts_with_space s' then collapse_ws s' else String space (collapse_ws s'))
      else String c (collapse_ws s')
  end.

Fixpoint trimStart (s : string) : string :=
  match s with
  | EmptyString => EmptyString
  | String c s' => if is_space c then trimStart s' else s
  end.

Fixpoint trimEnd (s : string) : string :=
  match s with
  | EmptyString => EmptyString
  | String c s' =>
      match trimEnd s' with
      | EmptyString => if is_space c then EmptyString else String c EmptyString
      | t => String c t
      end
  end.

Definition trim (s : string) : string := trimEnd (trimStart s).

Definition is_empty (s : string) : bool :=
  match s with
  | EmptyString => true
  | _ => false
  end.

(** [Array.from(set).sort()]: the default order on strings, by code units. *)
Fixpoint insert_str (x : string) (l : list string) : list string :=
  match l with
  | [] => [x]
  | y :: l' => if String.ltb x y then x :: l else y :: insert_str x l'
  end.

Definition sort_strings (l : list string) : list string :=
  fold_right insert_str [] l.

(** A [Map<string, number>], in insertion order. *)
Definition NumMap : Type := list (string * float).

Fixpoint Map_get (m : NumMap) (k : string) : option float :=
  match m with
  | [] => None
  | (k', v) :: m' => if String.eqb k' k then Some v else Map_get m' k
  end.

Fixpoint Map_set (m : NumMap) (k : string) (v : float) : NumMap :=
  match m with
  | [] => [(k, v)]
  | (k', v') :: m' =>
      if String.eqb k' k then (k', v) :: m' else (k', v') :: Map_set m' k v
  end.

(** [m.get(k) || 0] *)
Definition get_or_zero (m : NumMap) (k : string) : float :=
  match Map_get m k with
  | Some v => or_zero v
  | None => 0
  end.

(* ================================================================== *)
(** * The collaborators of one call *)

(** The database answers every query of a call from the same table, or
    rejects every query; the embedding pipeline maps a cleaned text to a
    vector or rejects. *)
Record World : Type := {
  db : option (list FacultyRow);
  pipe : string -> outcome (list float);
  Math_log : float -> float
}.

(** [if (filter) query = query.eq(column, filter)]: an absent or empty
    filter adds no condition. *)
Definition passes (filter : option string) (value : string) : bool :=
  match filter with
  | None => true
  | Some f => if is_empty f then true else String.eqb value f
  end.

(** [select(...)[.eq('school', s)][.eq('department', d)].execute()]:
    [None] stands for [{data: null, error}]. *)
Definition select_faculty (w : World) (filterSchool filterDepartment : option string)
  : option (list FacultyRow) :=
  match db w with
  | None => None
  | Some rows =>
      Some (filter (fun f => passes filterSchool (school f)
                             && passes filterDepartment (department f)) rows)
  end.

(** [select('*').eq('faculty_id', id).single()]: the first matching row;
    [None] stands for a null row or an error. *)
Definition select_single (w : World) (id : string) : option FacultyRow :=
  match db w with
  | None => None
  | Some rows => find (fun f => String.eqb (faculty_id f) id) rows
  end.

(** The options of the lexical functions; an absent field takes the
    default of the function's destructuring. *)
Record Options : Type := {
  maxResults : option Z;
  minSimilarity : option float;
  filterSchool : option string;
  filterDepartment : option string
}.

(* ================================================================== *)
(** * src/lib/similarity.ts *)

Module Lexical.

Definition stop_words : list string :=
  ["the"; "and"; "for"; "are"; "but"; "not"; "you"; "all"; "can"; "her";
   "was"; "one"; "our"; "had"; "but"; "out"; "day"; "get"; "has"; "him";
   "his"; "how"; "its"; "may"; "new"; "now"; "old"; "see"; "two"; "way";
   "who"; "boy"; "did"; "man"; "end"; "few"; "got"; "let"; "put"; "say";
   "she"; "too"; "use"]%string.

Definition includes (l : list string) (x : string) : bool :=
  existsb (fun y => String.eqb y x) l.

Definition tokenize (text : string) : list string :=
  filter (fun word => negb (includes stop_words word))
    (filter (fun word => (2 <? String.length word)%nat)
       (split_ws (strip_punctuation (toLowerCase text)))).

Definition calculateTF (tokens : list string) : NumMap :=
  let totalTerms := of_nat (List.length tokens) in
  let termFreq :=
    fold_left (fun m token => Map_set m token (get_or_zero m token + 1)) tokens [] in
  fold_left (fun m '(term, count) => Map_set m term (count / totalTerms)) termFreq termFreq.

Definition calculateIDF (Math_log : float -> float) (documents : list (list string)) : NumMap :=
  let totalDocs := of_nat (List.length documents) in
  let termDocCount :=
    fold_left
      (fun m doc =>
         fold_left (fun m term => Map_set m term (get_or_zero m term + 1)) (Set_of doc) m)
      documents [] in
  fold_left (fun idf '(term, docCount) => Map_set idf term (Math_log (totalDocs / docCount)))
    termDocCount [].

Definition calculateTFIDF (tf idf : NumMap) (allTerms : list string) : list float :=
  map (fun term => get_or_zero tf term * get_or_zero idf term) (sort_strings allTerms).

Definition cosineSimilarity (vectorA vectorB : list float) : float :=
  if negb (List.length vectorA =? List.length vectorB)%nat then 0 else
  let '(dotProduct, normA, normB) :=
    for_range (List.length vectorA)
      (fun '(dotProduct, normA, normB) i =>
         (dotProduct + get vectorA i * get vectorB i,
          normA + get vectorA i * get vectorA i,
          normB + get vectorB i * get vectorB i))
      (0, 0, 0) in
  let normA := sqrt normA in
  let normB := sqrt normB in
  if (normA =? 0) || (normB =? 0) then 0 else
  dotProduct / (normA * normB).

(** The vocabulary: every term of every document, in a [Set]. *)
Definition vocabulary (documents : list (list string)) : list string :=
  fold_left (fun allTerms doc => fold_left (fun s term => add_new String.eqb term s) doc allTerms)
    documents [].

Definition result_of (faculty : FacultyRow) (sim : float) : SimilarityResult :=
  {| r_faculty_id := faculty_id faculty; r_name := name faculty;
     r_title := title faculty; r_school := school faculty;
     r_department := department faculty; similarity := sim |}.

(** The loop that scores every candidate against [targetVector]: one entry
    per candidate, in input order, before the [minSimilarity] test. *)
Definition score_all (idf : NumMap) (allTerms : list string) (targetVector : list float)
    (candidates : list FacultyRow) : list SimilarityResult :=
  map (fun faculty =>
         let facultyTokens := tokenize (keywords faculty) in
         let facultyTF := calculateTF facultyTokens in
         let facultyVector := calculateTFIDF facultyTF idf allTerms in
         result_of faculty (cosineSimilarity targetVector facultyVector))
      candidates.

(** [if (similarity >= minSimilarity) similarities.push(...)], then
    [.sort((a, b) => b.similarity - a.similarity).slice(0, maxResults)]. *)
Definition rank (scored : list SimilarityResult) (minSim : float) (maxRes : Z)
  : list SimilarityResult :=
  slice0 (Array_sort by_similarity_desc
            (filter (fun r => minSim <=? similarity r) scored)) maxRes.

Definition calculateSimilarFaculty (w : World) (targetFacultyId : string) (options : Options)
  : outcome (list SimilarityResult) :=
  let maxRes := default 10%Z (maxResults options) in
  let minSim := default 0.1 (minSimilarity options) in
  match select_faculty w (filterSchool options) (filterDepartment options) with
  | None => Returned []                       (* error || !allFaculty *)
  | Some allFaculty =>
      match find (fun f => String.eqb (faculty_id f) targetFacultyId) allFaculty with
      | None => Returned []                   (* 'Target faculty not found' *)
      | Some targetFaculty =>
          let otherFaculty :=
            filter (fun f => negb (String.eqb (faculty_id f) targetFacultyId)) allFaculty in
          let allDocuments := map (fun f => tokenize (keywords f)) allFaculty in
          let targetTokens := tokenize (keywords targetFaculty) in
          let allTerms := vocabulary allDocuments in
          if (List.length allTerms =? 0)%nat then Returned [] else
          let idf := calculateIDF (Math_log w) allDocuments in
          let targetTF := calculateTF targetTokens in
          let targetVector := calculateTFIDF targetTF idf allTerms in
          Returned (rank (score_all idf allTerms targetVector otherFaculty) minSim maxRes)
      end
  end.

Definition searchSimilarFaculty (w : World) (query : string) (options : Options)
  : outcome (list SimilarityResult) :=
  let maxRes := default 20%Z (maxResults options) in
  let minSim := default 0.1 (minSimilarity options) in
  match select_faculty w (filterSchool options) (filterDepartment options) with
  | None => Returned []
  | Some allFaculty =>
      let queryTokens := tokenize query in
      let allDocuments := map (fun f => tokenize (keywords f)) allFaculty in
      let documentsWithQuery := queryTokens :: allDocuments in
      let allTerms := vocabulary documentsWithQuery in
      if (List.length allTerms =? 0)%nat then Returned [] else
      let idf := calculateIDF (Math_log w) documentsWithQuery in
      let queryTF := calculateTF queryTokens in
      let queryVector := calculateTFIDF queryTF idf allTerms in
      Returned (rank (score_all idf allTerms queryVector allFaculty) minSim maxRes)
  end.

End Lexical.

(* ================================================================== *)
(** * src/lib/transformers-embedding.ts *)

Module Embedding.

Definition cleanText (text : string) : string :=
  trim (strip_punctuation (collapse_ws (toLowerCase text))).

(** [new Array(384).fill(0)] *)
Definition zero_vector : list float := repeat 0 384.

Definition generateEmbedding (w : World) (text : string) : outcome (list float) :=
  let cleanedText := cleanText text in
  if is_empty cleanedText then Returned zero_vector
  else pipe w cleanedText.

(** The windows [l.slice(i, i + size)] for [i = 0, size, 2 size, ...]. *)
Fixpoint batches_of {A} (size fuel : nat) (l : list A) : list (list A) :=
  match fuel, l with
  | S fuel', _ :: _ => firstn size l :: batches_of size fuel' (skipn size l)
  | _, _ => []
  end.

Definition generateEmbeddings (w : World) (texts : list string) : outcome (list (list float)) :=
  let cleanedTexts := filter (fun t => (0 <? String.length t)%nat) (map cleanText texts) in
  if (List.length cleanedTexts =? 0)%nat
  then Returned (map (fun _ => zero_vector) texts)
  else
    let batchSize := 8%nat in
    outputs <- mapM (fun batch => mapM (pipe w) batch)
                 (batches_of batchSize (List.length cleanedTexts) cleanedTexts) ;;
    Returned (List.concat outputs).

Definition cosineSimilarity (a b : list float) : outcome float :=
  if negb (List.length a =? List.length b)%nat
  then Thrown (DimensionMismatch (List.length a) (List.length b))
  else
    let '(dotProduct, normA, normB) :=
      for_range (List.length a)
        (fun '(dotProduct, normA, normB) i =>
           (dotProduct + get a i * get b i,
            normA + get a i * get a i,
            normB + get b i * get b i))
        (0, 0, 0) in
    if (normA =? 0) || (normB =? 0) then Returned 0
    else Returned (dotProduct / (sqrt normA * sqrt normB)).

(** [findSimilar]: a candidate of type [T] carries its vector; an item of
    the result is the candidate with its [similarity]. *)
Definition findSimilar {T} (embedding_of : T -> list float)
    (queryEmbedding : list float) (candidates : list T)
    (topK : Z) (minSimilarity : float) : outcome (list (T * float)) :=
  scored <- mapM (fun candidate =>
                    s <- cosineSimilarity queryEmbedding (embedding_of candidate) ;;
                    Returned (candidate, s)) candidates ;;
  Returned
    (slice0
       (Array_sort (fun a b => snd b - snd a)
          (filter (fun item => minSimilarity <=? snd item) scored))
       topK).

Definition padEmbeddingTo1536 (embedding : list float) : outcome (list float) :=
  if (List.length embedding =? 1536)%nat then Returned embedding
  else if (1536 <? List.length embedding)%nat then Thrown InvalidArrayLength
  else Returned (embedding ++ repeat 0 (1536 - List.length embedding)).

Definition extractEmbeddingFrom1536 (embedding : list float) : list float :=
  if (List.length embedding =? 384)%nat then embedding
  else firstn 384 embedding.

Definition testText : string := "machine learning and artificial intelligence".

Definition testEmbeddingService (w : World) : bool :=
  match generateEmbedding w testText with
  | Thrown _ => false
  | Returned embedding =>
      if negb (List.length embedding =? 384)%nat then false
      else
        let sum := fold_left (fun a b => a + abs b) embedding 0 in
        if sum =? 0 then false else true
  end.

End Embedding.

(** [f.embedding] as a condition: NULL is falsy. *)
Definition has_embedding (f : FacultyRow) : bool :=
  match embedding f with
  | Some _ => true
  | None => false
  end.

(** [JSON.parse(f.embedding)] *)
Definition parse_embedding (f : FacultyRow) : outcome (list float) :=
  match embedding f with
  | Some text => JSON_parse text
  | None => Thrown JSONSyntaxError
  end.

(** [rows[k].faculty_id] *)
Definition row_id_at (rows : list FacultyRow) (k : nat) : string :=
  match nth_error rows k with
  | Some f => faculty_id f
  | None => EmptyString
  end.

(* ================================================================== *)
(** * src/lib/advanced-similarity.ts *)

Module Advanced.

Record AdvancedOptions : Type := {
  lexical_options :> Options;
  useAdvanced : option bool
}.

Definition padEmbeddingTo1536Compat (embedding384 : list float) : outcome (list float) :=
  if negb (List.length embedding384 =? 384)%nat
  then Thrown (ExpectedDimensions 384 (List.length embedding384))
  else Embedding.padEmbeddingTo1536 embedding384.

Definition extractReal384Embedding (embedding1536 : list float) : outcome (list float) :=
  if negb (List.length embedding1536 =? 1536)%nat
  then Thrown (ExpectedDimensions 1536 (List.length embedding1536))
  else Returned (Embedding.extractEmbeddingFrom1536 embedding1536).

(** [AdvancedSimilarityService.testEmbeddingEnvironment] *)
Definition testEmbeddingEnvironment (w : World) : bool :=
  Embedding.testEmbeddingService w.

(** [AdvancedSimilarityService.generateEmbeddings]: [None] is [null]. *)
Definition generateEmbeddings (w : World) (texts : list string) : option (list (list float)) :=
  match Embedding.generateEmbeddings w texts with
  | Returned embeddings => Some embeddings
  | Thrown _ => None
  end.

(** An element of [facultyData]: a row without keywords and embedding. *)
Record FacultyData : Type := {
  d_faculty_id : string;
  d_name : string;
  d_title : string;
  d_school : string;
  d_department : string
}.

Definition data_of (f : FacultyRow) : FacultyData :=
  {| d_faculty_id := faculty_id f; d_name := name f; d_title := title f;
     d_school := school f; d_department := department f |}.

(** [AdvancedSimilarityService.findSimilarFaculty]: the whole body is in a
    [try]; its [catch] returns [].  A candidate is the pair of an embedding
    and the element of [facultyData] at the same index. *)
Definition findSimilarFaculty (targetEmbedding : list float)
    (allEmbeddings : list (list float)) (facultyData : list FacultyData)
    (topK : Z) (threshold : float) : list SimilarityResult :=
  (* facultyData[index] past the end is undefined: a TypeError, caught *)
  if (List.length facultyData <? List.length allEmbeddings)%nat then [] else
  let candidates := combine allEmbeddings facultyData in
  match Embedding.findSimilar fst targetEmbedding candidates topK threshold with
  | Returned results =>
      map (fun result =>
             {| r_faculty_id := d_faculty_id (snd (fst result));
                r_name := d_name (snd (fst result));
                r_title := d_title (snd (fst result));
                r_school := d_school (snd (fst result));
                r_department := d_department (snd (fst result));
                similarity := snd result |}) results
  | Thrown _ => []
  end.

(** [emb.length === 1536 ? extractReal384Embedding(emb)
      : emb.length === 384 ? emb : throw] *)
Definition real_embedding (emb : list float) : outcome (list float) :=
  if (List.length emb =? 1536)%nat then extractReal384Embedding emb
  else if (List.length emb =? 384)%nat then Returned emb
  else Thrown (UnexpectedEmbeddingSize (List.length emb)).

Definition defaulted (maxRes : Z) (minSim : float) (options : AdvancedOptions) : Options :=
  {| maxResults := Some maxRes; minSimilarity := Some minSim;
     filterSchool := filterSchool options;
     filterDepartment := filterDepartment options |}.

(** The [try] block of [calculateAdvancedSimilarity]. *)
Definition calculate_dense (w : World) (targetFacultyId : string)
    (maxRes : Z) (minSim : float) (options : AdvancedOptions)
  : outcome (list SimilarityResult) :=
  match select_single w targetFacultyId with
  | None => Returned []                        (* 'Target faculty not found' *)
  | Some targetFaculty =>
      match select_faculty w (filterSchool options) (filterDepartment options) with
      | None => Returned []                    (* 'Failed to fetch faculty data' *)
      | Some allFaculty =>
          let otherFaculty :=
            filter (fun f => negb (String.eqb (faculty_id f) targetFacultyId)) allFaculty in
          let facultyWithEmbeddings := filter has_embedding otherFaculty in
          if (List.length facultyWithEmbeddings =? 0)%nat
          then Thrown NoEmbeddingsAvailable
          else
            targetEmbedding <-
              (if has_embedding targetFaculty
               then
                 storedEmbedding <- parse_embedding targetFaculty ;;
                 if (List.length storedEmbedding =? 1536)%nat
                 then extractReal384Embedding storedEmbedding
                 else if (List.length storedEmbedding =? 384)%nat
                 then Returned storedEmbedding
                 else Thrown (UnexpectedEmbeddingSize (List.length storedEmbedding))
               else Embedding.generateEmbedding w (keywords targetFaculty)) ;;
            paddedEmbeddings <- mapM parse_embedding facultyWithEmbeddings ;;
            realEmbeddings <- mapM real_embedding paddedEmbeddings ;;
            let facultyData := map data_of facultyWithEmbeddings in
            Returned (findSimilarFaculty targetEmbedding realEmbeddings facultyData
                        maxRes minSim)
      end
  end.

Definition calculateAdvancedSimilarity (w : World) (targetFacultyId : string)
    (options : AdvancedOptions) : outcome (list SimilarityResult) :=
  let maxRes := default 10%Z (maxResults options) in
  let minSim := default 0.1 (minSimilarity options) in
  let isEmbeddingAvailable :=
    if default true (useAdvanced options) then testEmbeddingEnvironment w else false in
  if negb isEmbeddingAvailable
  then Lexical.calculateSimilarFaculty w targetFacultyId (defaulted maxRes minSim options)
  else
    try_catch (calculate_dense w targetFacultyId maxRes minSim options)
      (fun _ => Lexical.calculateSimilarFaculty w targetFacultyId
                  (defaulted maxRes minSim options)).

(** The [try] block of [searchAdvancedSimilarity]. *)
Definition search_dense (w : World) (query : string)
    (maxRes : Z) (minSim : float) (options : AdvancedOptions)
  : outcome (list SimilarityResult) :=
  match select_faculty w (filterSchool options) (filterDepartment options) with
  | None => Thrown DatabaseQueryFailed
  | Some allFaculty =>
      let facultyWithEmbeddings := filter has_embedding allFaculty in
      if (List.length facultyWithEmbeddings =? 0)%nat
      then Thrown NoEmbeddingsAvailable
      else
        queryEmbedding <- Embedding.generateEmbedding w query ;;
        paddedEmbeddings <- mapM parse_embedding facultyWithEmbeddings ;;
        realEmbeddings <- mapM real_embedding paddedEmbeddings ;;
        let facultyData := map data_of facultyWithEmbeddings in
        Returned (findSimilarFaculty queryEmbedding realEmbeddings facultyData
                    maxRes minSim)
  end.

Definition searchAdvancedSimilarity (w : World) (query : string)
    (options : AdvancedOptions) : outcome (list SimilarityResult) :=
  let maxRes := default 20%Z (maxResults options) in
  let minSim := default 0.1 (minSimilarity options) in
  let isEmbeddingAvailable :=
    if default true (useAdvanced options) then testEmbeddingEnvironment w else false in
  if negb isEmbeddingAvailable
  then Lexical.searchSimilarFaculty w query (defaulted maxRes minSim options)
  else
    try_catch (search_dense w query maxRes minSim options)
      (fun _ => Lexical.searchSimilarFaculty w query (defaulted maxRes minSim options)).


End Advanced.

Coercion Advanced.lexical_options : Advanced.AdvancedOptions >-> Options.

(* ================================================================== *)
(** * src/app/api/network/route.ts *)

Module Network.

Record Node : Type := {
  id : string;
  n_name : string;
  n_title : string;
  n_school : string;
  n_department : string;
  clusterId : Z;
  color : option string;     (* None: undefined *)
  n_keywords : string
}.

Record Connection : Type := {
  c_target : string;
  c_similarity : float;
  c_weight : float
}.

Record Link : Type := {
  source : string;
  target : string;
  l_similarity : float;
  weight : float
}.

Record Graph : Type := {
  nodes : list Node;
  links : list Link
}.

Definition extractReal384Embedding (embedding1536 : list float) : outcome (list float) :=
  if negb (List.length embedding1536 =? 1536)%nat
  then Thrown (ExpectedDimensions 1536 (List.length embedding1536))
  else Returned (firstn 384 embedding1536).

(** [a.reduce((sum, val, i) => f(sum, val, i), init)] *)
Definition reduce_indexed {S} (f : S -> float -> nat -> S) (a : list float) (init : S) : S :=
  fold_left (fun sum '(i, val) => f sum val i) (combine (seq 0 (List.length a)) a) init.

Definition calculateCosineSimilarity (a b : list float) : float :=
  let dotProduct := reduce_indexed (fun sum val i => sum + val * get b i) a 0 in
  let magnitudeA := sqrt (fold_left (fun sum val => sum + val * val) a 0) in
  let magnitudeB := sqrt (fold_left (fun sum val => sum + val * val) b 0) in
  if (magnitudeA =? 0) || (magnitudeB =? 0) then 0
  else dotProduct / (magnitudeA * magnitudeB).

Definition colors : list string :=
  ["#ef4444"; "#3b82f6"; "#10b981"; "#f59e0b";
   "#8b5cf6"; "#ec4899"; "#6b7280"; "#14b8a6"]%string.

(** [arr[i]] for an integer [i]; a negative or too large index is undefined. *)
Definition at_index {A} (arr : list A) (i : Z) : option A :=
  if (i <? 0)%Z then None else nth_error arr (Z.to_nat i).

(** [Math.min(x, y)] (NaN if either is NaN). *)
Definition Math_min (x y : float) : float :=
  if negb (x =? x) || negb (y =? y) then nan
  else if x <? y then x else y.

Definition departments_of (faculty : list FacultyRow) : list string :=
  Set_of (map department faculty).

Definition node_of (departments : list string) (f : FacultyRow) : Node :=
  let clusterId := indexOf departments (department f) in
  (* the remainder of JavaScript takes the sign of the dividend *)
  let clusterColor := at_index colors (Z.rem clusterId (Z.of_nat (List.length colors))) in
  {| id := faculty_id f; n_name := name f; n_title := title f;
     n_school := school f; n_department := department f;
     clusterId := clusterId; color := clusterColor;
     n_keywords := keywords f |}.

Definition stored_vector (f : FacultyRow) : outcome (list float) :=
  storedEmbedding <- parse_embedding f ;;
  if (List.length storedEmbedding =? 1536)%nat then extractReal384Embedding storedEmbedding
  else if (List.length storedEmbedding =? 384)%nat then Returned storedEmbedding
  else Thrown (UnexpectedEmbeddingSize (List.length storedEmbedding)).

(** [faculty[j].faculty_id] *)
Definition id_at (faculty : list FacultyRow) (j : nat) : string := row_id_at faculty j.

(** The inner loop at node [i]: [j] runs from [i + 1] to the end, and a pair
    is pushed when [similarity >= threshold]. *)
Definition connections_of (faculty : list FacultyRow) (embeddings : list (list float))
    (threshold : float) (i : nat) : list Connection :=
  flat_map
    (fun j =>
       let similarity :=
         calculateCosineSimilarity (nth i embeddings []) (nth j embeddings []) in
       if threshold <=? similarity
       then [ {| c_target := id_at faculty j; c_similarity := similarity;
                 c_weight := Math_min (similarity * 5) 3 |} ]
       else [])
    (seq (i + 1) (List.length faculty - (i + 1))).

(** The links pushed at node [i]: its connections sorted by
    [(a, b) => b.similarity - a.similarity], cut by [slice(0, maxConnections)]. *)
Definition links_of (faculty : list FacultyRow) (embeddings : list (list float))
    (threshold : float) (maxConnections : Z) (i : nat) : list Link :=
  map (fun conn =>
         {| source := id_at faculty i; target := c_target conn;
            l_similarity := c_similarity conn; weight := c_weight conn |})
      (slice0
         (Array_sort (fun a b => c_similarity b - c_similarity a)
            (connections_of faculty embeddings threshold i))
         maxConnections).

(** The graph of the rows [faculty] fetched by the route (rows whose
    embedding is not NULL, after the school and department filters). *)
Definition buildGraph (faculty : list FacultyRow) (threshold : float) (maxConnections : Z)
  : outcome Graph :=
  let departments := departments_of faculty in
  let nodes := map (node_of departments) faculty in
  embeddings <- mapM stored_vector faculty ;;
  let links :=
    flat_map (links_of faculty embeddings threshold maxConnections)
      (seq 0 (List.length faculty)) in
  Returned {| nodes := nodes; links := links |}.

End Network.

(* ================================================================== *)
(** * Notions the statements use *)

(** Dot product and squared Euclidean norm, summed from the left as the
    loops do. *)
Definition dot (a b : list float) : float :=
  fold_left (fun s '(x, y) => s + x * y) (combine a b) 0.

Definition sum_squares (a : list float) : float :=
  fold_left (fun s x => s + x * x) a 0.

Definition norm (a : list float) : float := sqrt (sum_squares a).

(** One step of the loop that accumulates the three sums together. *)
Definition sums_step (acc : float * float * float) (p : float * float)
  : float * float * float :=
  let '(d, na, nb) := acc in
  let '(x, y) := p in
  (d + x * y, na + x * x, nb + y * y).

Definition is_prefix {A} (l1 l2 : list A) : Prop := exists rest, l2 = l1 ++ rest.

(** The postcondition of a ranking of [input] (the scored candidates, in
    input order): every result reaches [minSim]; results are in descending
    order; results with tied scores appear in their input order, earliest
    first; and there are at most [maxRes] of them. *)
Definition ranked {A} (sim : A -> float) (minSim : float) (maxRes : Z)
    (input result : list A) : Prop :=
  Forall (fun r => (minSim <=? sim r) = true) result
  /\ StronglySorted (fun a b => (sim b <=? sim a) = true) result
  /\ (forall v, is_prefix (filter (fun r => sim r =? v) result)
                          (filter (fun r => sim r =? v) input))
  /\ (Z.of_nat (List.length result) <= maxRes)%Z.

(** The candidates of record mode with their scores, as the loop of
    [calculateSimilarFaculty] computes them (none on the early returns). *)
Definition record_scores (w : World) (targetFacultyId : string) (options : Options)
  : list SimilarityResult :=
  match select_faculty w (filterSchool options) (filterDepartment options) with
  | None => []
  | Some allFaculty =>
      match find (fun f => String.eqb (faculty_id f) targetFacultyId) allFaculty with
      | None => []
      | Some targetFaculty =>
          let otherFaculty :=
            filter (fun f => negb (String.eqb (faculty_id f) targetFacultyId)) allFaculty in
          let allDocuments := map (fun f => Lexical.tokenize (keywords f)) allFaculty in
          let targetTokens := Lexical.tokenize (keywords targetFaculty) in
          let allTerms := Lexical.vocabulary allDocuments in
          let idf := Lexical.calculateIDF (Math_log w) allDocuments in
          let targetVector := Lexical.calculateTFIDF (Lexical.calculateTF targetTokens) idf allTerms in
          Lexical.score_all idf allTerms targetVector otherFaculty
      end
  end.

(** The candidates of query mode with their scores, as the loop of
    [searchSimilarFaculty] computes them. *)
Definition query_scores (w : World) (query : string) (options : Options)
  : list SimilarityResult :=
  match select_faculty w (filterSchool options) (filterDepartment options) with
  | None => []
  | Some allFaculty =>
      let queryTokens := Lexical.tokenize query in
      let allDocuments := map (fun f => Lexical.tokenize (keywords f)) allFaculty in
      let documentsWithQuery := queryTokens :: allDocuments in
      let allTerms := Lexical.vocabulary documentsWithQuery in
      let idf := Lexical.calculateIDF (Math_log w) documentsWithQuery in
      let queryVector := Lexical.calculateTFIDF (Lexical.calculateTF queryTokens) idf allTerms in
      Lexical.score_all idf allTerms queryVector allFaculty
  end.

(** The first step of [findSimilar]: every candidate with its cosine
    similarity to the query, in input order. *)
Definition cosine_scores {T} (embedding_of : T -> list float)
    (queryEmbedding : list float) (candidates : list T) : outcome (list (T * float)) :=
  mapM (fun candidate =>
          s <- Embedding.cosineSimilarity queryEmbedding (embedding_of candidate) ;;
          Returned (candidate, s)) candidates.

(** A stored embedding the dense path can use: NULL (the row is skipped),
    or a JSON array of 1536 or 384 numbers. *)
Definition readable (f : FacultyRow) : bool :=
  match embedding f with
  | None => true
  | Some (JsonArray v) => (List.length v =? 1536)%nat || (List.length v =? 384)%nat
  | Some Malformed => false
  end.

(** Distinct elements in order of first occurrence. *)
Fixpoint first_occurrences (l : list string) : list string :=
  match l with
  | [] => []
  | x :: l' => x :: filter (fun y => negb (String.eqb y x)) (first_occurrences l')
  end.

(** The pairs of node [i] with the later nodes, as (index, similarity);
    those that reach [threshold]; and the ones its cap keeps. *)
Definition later_pairs (embeddings : list (list float)) (i : nat) : list (nat * float) :=
  map (fun j => (j, Network.calculateCosineSimilarity
                      (nth i embeddings []) (nth j embeddings [])))
    (seq (i + 1) (List.length embeddings - (i + 1))).

Definition forward_partners (embeddings : list (list float)) (threshold : float)
    (i : nat) : list (nat * float) :=
  filter (fun p => threshold <=? snd p) (later_pairs embeddings i).

Definition forward_top (embeddings : list (list float)) (threshold : float)
    (maxConnections : Z) (i : nat) : list (nat * float) :=
  slice0 (Array_sort (fun a b => snd b - snd a) (forward_partners embeddings threshold i))
    maxConnections.

(** Following the specification's words: the kept pairs of node [i] are
    all pairs involving it, with any other node, that reach [threshold];
    its own top-K are the first [maxConnections] of them in descending
    order; an edge appears when either endpoint has the other in its own
    top-K. *)
Definition spec_partners (embeddings : list (list float)) (threshold : float)
    (i : nat) : list (nat * float) :=
  filter (fun p => threshold <=? snd p)
    (map (fun j => (j, Network.calculateCosineSimilarity
                         (nth i embeddings []) (nth j embeddings [])))
       (filter (fun j => negb (j =? i)%nat) (seq 0 (List.length embeddings)))).

Definition spec_top (embeddings : list (list float)) (threshold : float)
    (maxConnections : Z) (i : nat) : list nat :=
  map fst (slice0 (Array_sort (fun a b => snd b - snd a)
                     (spec_partners embeddings threshold i)) maxConnections).

Definition spec_edge (embeddings : list (list float)) (threshold : float)
    (maxConnections : Z) (i j : nat) : bool :=
  existsb (Nat.eqb j) (spec_top embeddings threshold maxConnections i)
  || existsb (Nat.eqb i) (spec_top embeddings threshold maxConnections j).

(** An edge between rows [i] and [j] in the list of links. *)
Definition linked (faculty : list FacultyRow) (ls : list Network.Link) (i j : nat) : bool :=
  existsb (fun l =>
             (String.eqb (Network.source l) (Network.id_at faculty i)
              && String.eqb (Network.target l) (Network.id_at faculty j))
             || (String.eqb (Network.source l) (Network.id_at faculty j)
                 && String.eqb (Network.target l) (Network.id_at faculty i))) ls.

(** The connection and the link the route builds for the pair of node [i]
    with the partner [p] = (index, similarity). *)
Definition conn_of (faculty : list FacultyRow) (p : nat * float) : Network.Connection :=
  {| Network.c_target := Network.id_at faculty (fst p);
     Network.c_similarity := snd p;
     Network.c_weight := Network.Math_min (snd p * 5) 3 |}.

Definition link_of (faculty : list FacultyRow) (i : nat) (p : nat * float) : Network.Link :=
  {| Network.source := Network.id_at faculty i;
     Network.target := Network.id_at faculty (fst p);
     Network.l_similarity := snd p;
     Network.weight := Network.Math_min (snd p * 5) 3 |}.

(* ================================================================== *)
(** * Sample data for the closed examples *)

Definition Z_to_float (e : Z) : float :=
  if (e <? 0)%Z then - of_uint63 (Uint63.of_Z (- e)) else of_uint63 (Uint63.of_Z e).

Fixpoint atanh_series (n : nat) (z2 d : float) : float :=
  match n with
  | O => 0
  | S n' => 1 / d + z2 * atanh_series n' z2 (d + 2)
  end.

(** A [Math.log] for the examples: ln x = e ln 2 + 2 atanh((m-1)/(m+1))
    for x = m 2^e with m in [0.75, 1.5). *)
Definition sample_log (x : float) : float :=
  if negb (x =? x) || (x <? 0) then nan
  else if x =? 0 then neg_infinity
  else if x =? infinity then infinity
  else
    let '(m, e) := Z.frexp x in
    let '(m, e) := if m <? 0.75 then (m * 2, (e - 1)%Z) else (m, e) in
    let z := (m - 1) / (m + 1) in
    Z_to_float e * 0.6931471805599453 + 2 * (z * atanh_series 24 (z * z) 1).

(** The [k]-th unit vector of native length. *)
Definition basis (k : nat) : list float := repeat 0 k ++ [1] ++ repeat 0 (383 - k).

Definition sample_row (fid kw dept : string) (e : option stored_embedding) : FacultyRow :=
  {| faculty_id := fid; name := fid; title := "Professor"; school := "Engineering";
     department := dept; keywords := kw; embedding := e |}.

Definition sample_table : list FacultyRow :=
  [ sample_row "F1" "Robotics" "Mechanical" (Some (JsonArray (basis 0)));
    sample_row "F2" "Chemistry" "Chemical"
      (Some (JsonArray (basis 1 ++ repeat 0 1152))) ].

(** A provider that answers every text with a native-length vector. *)
Definition sample_pipe (text : string) : outcome (list float) :=
  if String.eqb text "machine learning and artificial intelligence"
  then Returned (basis 2)
  else if String.eqb text "robotics" then Returned (basis 0)
  else if String.eqb text "chemistry" then Returned (basis 1)
  else Returned (basis 3).

Definition sample_world : World :=
  {| db := Some sample_table; pipe := sample_pipe; Math_log := sample_log |}.


(** Three rows whose vectors lie in a plane: A between B and C. *)
Definition planar (x y : float) : list float := x :: y :: repeat 0 382.

Definition triangle_table : list FacultyRow :=
  [ sample_row "A" "Robotics" "Mechanical" (Some (JsonArray (planar 1 0)));
    sample_row "B" "Control" "Mechanical" (Some (JsonArray (planar 1 1)));
    sample_row "C" "Vision" "Computing" (Some (JsonArray (planar 1 (-0.125)))) ].

Definition triangle_embeddings : list (list float) :=
  [planar 1 0; planar 1 1; planar 1 (-0.125)].


Definition no_options : Options :=
  {| maxResults := None; minSimilarity := None;
     filterSchool := None; filterDepartment := None |}.

Definition advanced (useAdv : option bool) : Advanced.AdvancedOptions :=
  {| Advanced.lexical_options := no_options; Advanced.useAdvanced := useAdv |}.

(* ================================================================== *)
(** * Notions of the further properties *)

(** Every character of [s] satisfies [p]. *)
Fixpoint string_forall (p : ascii -> bool) (s : string) : bool :=
  match s with
  | EmptyString => true
  | String c s' => p c && string_forall p s'
  end.

(** [[a-z0-9_]]: a word character that is no capital letter. *)
Definition is_token_char (c : ascii) : bool :=
  between 97 122 (code c) || between 48 57 (code c) || (code c =? 95)%nat.

(** A text without any letter, digit or underscore. *)
Definition blank (text : string) : bool :=
  string_forall (fun c => negb (is_word c)) text.

Fixpoint ends_with_space (s : string) : bool :=
  match s with
  | EmptyString => false
  | String c EmptyString => is_space c
  | String _ s' => ends_with_space s'
  end.

(** Zero (of either sign) or NaN. *)
Definition zero_or_nan (x : float) : bool := (x =? 0) || negb (x =? x).

Definition SFzn (f : spec_float) : bool :=
  match f with
  | S754_zero _ | S754_nan => true
  | _ => false
  end.

(** The two token lists have a token in common. *)
Definition shares_token (a b : list string) : bool :=
  existsb (fun t => Lexical.includes b t) a.

(** The result [x] describes the row [f]. *)
Definition row_of (f : FacultyRow) (x : SimilarityResult) : Prop :=
  r_faculty_id x = faculty_id f /\ r_name x = name f /\ r_title x = title f
  /\ r_school x = school f /\ r_department x = department f.

(** A row of the table that passes the two filters. *)
Definition candidate_row (w : World) (options : Options) (f : FacultyRow) : Prop :=
  exists table,
    db w = Some table /\ In f table
    /\ passes (filterSchool options) (school f) = true
    /\ passes (filterDepartment options) (department f) = true.

(** Every score reaches [minSim], the scores descend, and there are at most
    [maxRes] results. *)
Definition descending_above (minSim : float) (maxRes : Z) (r : list SimilarityResult) : Prop :=
  Forall (fun x => (minSim <=? similarity x) = true) r
  /\ StronglySorted (fun a b => (similarity b <=? similarity a) = true) r
  /\ (Z.of_nat (List.length r) <= maxRes)%Z.

(** The result [findSimilarFaculty] makes of an item of [findSimilar]: a
    candidate (its vector and its faculty data) with its similarity. *)
Definition result_of_item (result : (list float * Advanced.FacultyData) * float)
  : SimilarityResult :=
  {| r_faculty_id := Advanced.d_faculty_id (snd (fst result));
     r_name := Advanced.d_name (snd (fst result));
     r_title := Advanced.d_title (snd (fst result));
     r_school := Advanced.d_school (snd (fst result));
     r_department := Advanced.d_department (snd (fst result));
     similarity := snd result |}.

(** A stored embedding of one of the two sizes the code accepts. *)
Definition usable (f : FacultyRow) : bool := has_embedding f && readable f.

(** The three planar rows as the table, with the sample provider. *)
Definition triangle_world : World :=
  {| db := Some triangle_table; pipe := sample_pipe; Math_log := sample_log |}.

(* ================================================================== *)
(** * Further text functions *)

(** [l.join(sep)] *)
Fixpoint join (sep : string) (l : list string) : string :=
  match l with
  | [] => EmptyString
  | x :: l' =>
      match l' with
      | [] => x
      | _ :: _ => (x ++ sep ++ join sep l')%string
      end
  end.

(** [s.split(re)] for a regular expression [re] that matches one character
    of a class: the pieces between the matches, empty pieces included. *)
Fixpoint split_on (sep : ascii -> bool) (s : string) : list string :=
  match s with
  | EmptyString => [EmptyString]
  | String c s' =>
      if sep c then EmptyString :: split_on sep s'
      else match split_on sep s' with
           | t :: ts => String c t :: ts
           | [] => [String c EmptyString]
           end
  end.

(** A count as a template string prints it. *)
Definition decimal (n : nat) : string := NilEmpty.string_of_uint (Nat.to_uint n).

(* ================================================================== *)
(** * src/lib/openai.ts: keyword preparation and the strict padding *)

Module Keywords.

(** [[,;]] *)
Definition is_separator (c : ascii) : bool :=
  (code c =? 44)%nat || (code c =? 59)%nat.

Definition prepareKeywordsForEmbedding (keywords : string) : string :=
  join ", "
    (filter (fun keyword => (0 <? String.length keyword)%nat)
       (map (fun keyword => trim keyword) (split_on is_separator keywords))).

End Keywords.

(** The utility functions of the earlier similarity service. *)
Module Legacy.

Definition padEmbeddingTo1536 (embedding384 : list float) : outcome (list float) :=
  if negb (List.length embedding384 =? 384)%nat
  then Thrown (ExpectedDimensions 384 (List.length embedding384))
  else
    let padding := repeat 0 (1536 - 384) in
    Returned (embedding384 ++ padding).

Definition extractReal384Embedding (embedding1536 : list float) : outcome (list float) :=
  if negb (List.length embedding1536 =? 1536)%nat
  then Thrown (ExpectedDimensions 1536 (List.length embedding1536))
  else Returned (firstn 384 embedding1536).

End Legacy.

(* ================================================================== *)
(** * src/lib/database.ts: the query builder *)

Module Database.

Section Builder.

(** The values a caller binds; [None] is [null]. *)
Context {V : Type}.

Record Condition : Type := {
  field : string;
  value : option V;
  operator : string
}.

(** What [params] holds: the value of a condition, or the number of a
    LIMIT or OFFSET. *)
Inductive Param : Type :=
| Bound (v : option V)
| Number (n : float).

Record QueryBuilder : Type := {
  tableName : string;
  selectFields : string;
  whereConditions : list Condition;
  limitValue : option float;        (* None: undefined *)
  offsetValue : option float;
  orderByField : option string;
  orderDirection : string
}.

(** [new QueryBuilder(tableName)] *)
Definition from (tableName : string) : QueryBuilder :=
  {| tableName := tableName; selectFields := "*"; whereConditions := [];
     limitValue := None; offsetValue := None;
     orderByField := None; orderDirection := "ASC" |}.

Definition push (q : QueryBuilder) (c : Condition) : QueryBuilder :=
  {| tableName := tableName q; selectFields := selectFields q;
     whereConditions := whereConditions q ++ [c];
     limitValue := limitValue q; offsetValue := offsetValue q;
     orderByField := orderByField q; orderDirection := orderDirection q |}.

(** [select(fields = '*')] *)
Definition select (fields : option string) (q : QueryBuilder) : QueryBuilder :=
  {| tableName := tableName q; selectFields := default "*"%string fields;
     whereConditions := whereConditions q;
     limitValue := limitValue q; offsetValue := offsetValue q;
     orderByField := orderByField q; orderDirection := orderDirection q |}.

Definition eq (field : string) (value : option V) (q : QueryBuilder) : QueryBuilder :=
  push q {| field := field; value := value; operator := "=" |}.

Definition neq (field : string) (value : option V) (q : QueryBuilder) : QueryBuilder :=
  push q {| field := field; value := value; operator := "!=" |}.

(** [not(field, operator, value?)]: [value] is absent (undefined), [null]
    or a value; only [not(field, 'is', null)] adds a condition. *)
Definition not_ (field operator : string) (value : option (option V)) (q : QueryBuilder)
  : QueryBuilder :=
  if String.eqb operator "is"
     && match value with Some None => true | _ => false end
  then push q {| field := field; value := None; operator := "IS NOT NULL" |}
  else q.

Definition limit (count : float) (q : QueryBuilder) : QueryBuilder :=
  {| tableName := tableName q; selectFields := selectFields q;
     whereConditions := whereConditions q;
     limitValue := Some count; offsetValue := offsetValue q;
     orderByField := orderByField q; orderDirection := orderDirection q |}.

Definition offset (count : float) (q : QueryBuilder) : QueryBuilder :=
  {| tableName := tableName q; selectFields := selectFields q;
     whereConditions := whereConditions q;
     limitValue := limitValue q; offsetValue := Some count;
     orderByField := orderByField q; orderDirection := orderDirection q |}.

(** [order(field, options?)]: [ascending] is [options?.ascending] where it
    is a boolean. *)
Definition order (field : string) (ascending : option bool) (q : QueryBuilder)
  : QueryBuilder :=
  {| tableName := tableName q; selectFields := selectFields q;
     whereConditions := whereConditions q;
     limitValue := limitValue q; offsetValue := offsetValue q;
     orderByField := Some field;
     orderDirection := match ascending with Some false => "DESC" | _ => "ASC" end |}.

(** [$n] *)
Definition placeholder (n : nat) : string := ("$" ++ decimal n)%string.

(** The callback of [whereConditions.map]: it renders one condition and
    pushes its value, if it has a placeholder, on [params]. *)
Definition render (acc : list string * list Param) (cond : Condition)
  : list string * list Param :=
  let '(conditions, params) := acc in
  if String.eqb (operator cond) "IS NOT NULL"
  then (conditions ++ [(field cond ++ " IS NOT NULL")%string], params)
  else
    let params := params ++ [Bound (value cond)] in
    (conditions
       ++ [(field cond ++ " " ++ operator cond ++ " "
              ++ placeholder (List.length params))%string],
     params).

Definition buildQuery (q : QueryBuilder) : string * list Param :=
  let text := ("SELECT " ++ selectFields q ++ " FROM " ++ tableName q)%string in
  let '(conditions, params) := fold_left render (whereConditions q) ([], []) in
  let text :=
    if (0 <? List.length (whereConditions q))%nat
    then (text ++ " WHERE " ++ join " AND " conditions)%string
    else text in
  let text :=
    match orderByField q with
    | Some f =>
        if is_empty f then text
        else (text ++ " ORDER BY " ++ f ++ " " ++ orderDirection q)%string
    | None => text
    end in
  let '(text, params) :=
    match limitValue q with
    | Some n =>
        let params := params ++ [Number n] in
        ((text ++ " LIMIT " ++ placeholder (List.length params))%string, params)
    | None => (text, params)
    end in
  let '(text, params) :=
    match offsetValue q with
    | Some n =>
        let params := params ++ [Number n] in
        ((text ++ " OFFSET " ++ placeholder (List.length params))%string, params)
    | None => (text, params)
    end in
  (text, params).

End Builder.

Arguments Condition : clear implicits.
Arguments Param : clear implicits.
Arguments QueryBuilder : clear implicits.

End Database.

(* ================================================================== *)
(** * scripts/generate-embeddings.js *)

Module Script.

(** What the script talks to: the environment, the table, the embedding
    process and the database update. *)
Record ScriptWorld : Type := {
  configured : bool;                 (* both environment variables are set *)
  fetch : option (list FacultyRow);  (* None: an error, or no data *)
  generateEmbeddings : list string -> outcome (list (list float));
  update : string -> list float -> outcome bool;  (* false: updateError *)
  recount : bool                     (* false: the final count query throws *)
}.

Record Tally : Type := {
  processed : nat;
  updated : nat;
  errors : nat;
  writes : list (string * list float)   (* the updates issued, in order *)
}.

(** The body of the loop over [j]. *)
Definition store (w : ScriptWorld) (t : Tally) (p : FacultyRow * list float) : Tally :=
  let '(faculty, embedding) := p in
  let succeeded :=
    match update w (faculty_id faculty) embedding with
    | Returned ok => ok
    | Thrown _ => false
    end in
  {| processed := processed t + 1;
     updated := if succeeded then updated t + 1 else updated t;
     errors := if succeeded then errors t else errors t + 1;
     writes := writes t ++ [(faculty_id faculty, embedding)] |}.

(** The body of the loop over the batches. *)
Definition run_batch (w : ScriptWorld) (t : Tally) (batch : list FacultyRow) : Tally :=
  let batchTexts := map keywords batch in
  let failed :=
    {| processed := processed t + List.length batch; updated := updated t;
       errors := errors t + List.length batch; writes := writes t |} in
  match generateEmbeddings w batchTexts with
  | Thrown _ => failed
  | Returned embeddings =>
      if negb (List.length embeddings =? List.length batch)%nat then failed
      else fold_left (store w) (combine batch embeddings) t
  end.

Definition tally (w : ScriptWorld) (facultyData : list FacultyRow) : Tally :=
  let batchSize := 20%nat in
  fold_left (run_batch w)
    (Embedding.batches_of batchSize (List.length facultyData) facultyData)
    {| processed := 0; updated := 0; errors := 0; writes := [] |}.

Definition main (w : ScriptWorld) : bool :=
  if negb (configured w) then false
  else
    match fetch w with
    | None => false
    | Some facultyData =>
        let t := tally w facultyData in
        if negb (recount w) then false
        else (updated t =? List.length facultyData)%nat
    end.

End Script.

(* ================================================================== *)
(** * src/app/api/ingest/route.ts *)

Module Ingest.

(** An element of the [faculty] array of the request: each of the six
    fields is absent or a string. *)
Record Submitted : Type := {
  s_faculty_id : option string;
  s_name : option string;
  s_keywords : option string;
  s_title : option string;
  s_school : option string;
  s_department : option string
}.

Record Validated : Type := {
  v_faculty_id : string;
  v_name : string;
  v_keywords : string;
  v_title : string;
  v_school : string;
  v_department : string
}.

Definition requiredFields : list string :=
  ["faculty_id"; "name"; "keywords"; "title"; "school"; "department"]%string.

(** [faculty[field]] for a required field *)
Definition get_field (faculty : Submitted) (field : string) : option string :=
  if String.eqb field "faculty_id" then s_faculty_id faculty
  else if String.eqb field "name" then s_name faculty
  else if String.eqb field "keywords" then s_keywords faculty
  else if String.eqb field "title" then s_title faculty
  else if String.eqb field "school" then s_school faculty
  else if String.eqb field "department" then s_department faculty
  else None.

(** [!faculty[field] || faculty[field].trim() === ''] *)
Definition is_missing (v : option string) : bool :=
  match v with
  | None => true
  | Some s => is_empty s || is_empty (trim s)
  end.

(** [v.trim()] of a field that is not missing *)
Definition trimmed (v : option string) : string :=
  match v with
  | Some s => trim s
  | None => EmptyString
  end.

(** The answer with status 400: the id the message names ([faculty_id], or
    'unknown') and the missing fields it lists. *)
Record Rejection : Type := {
  who : string;
  missingFields : list string
}.

(** The validation loop. *)
Fixpoint validate (submitted : list Submitted) (validatedFaculty : list Validated)
  : Rejection + list Validated :=
  match submitted with
  | [] => inr validatedFaculty
  | faculty :: rest =>
      let missingFields :=
        filter (fun field => is_missing (get_field faculty field)) requiredFields in
      if (0 <? List.length missingFields)%nat
      then inl {| who := match s_faculty_id faculty with
                         | Some s => if is_empty s then "unknown"%string else s
                         | None => "unknown"%string
                         end;
                  missingFields := missingFields |}
      else
        validate rest
          (validatedFaculty
             ++ [ {| v_faculty_id := trimmed (s_faculty_id faculty);
                     v_name := trimmed (s_name faculty);
                     v_keywords := trimmed (s_keywords faculty);
                     v_title := trimmed (s_title faculty);
                     v_school := trimmed (s_school faculty);
                     v_department := trimmed (s_department faculty) |} ])
  end.

(** [facultyWithEmbeddings]: every validated record with
    [paddedEmbeddings[index]] ([None]: undefined); thrown when generating
    or padding the embeddings throws. *)
Definition facultyWithEmbeddings (w : World) (validatedFaculty : list Validated)
  : outcome (list (Validated * option (list float))) :=
  let keywordsTexts := map v_keywords validatedFaculty in
  embeddings <- Embedding.generateEmbeddings w keywordsTexts ;;
  paddedEmbeddings <- mapM Embedding.padEmbeddingTo1536 embeddings ;;
  Returned
    (map (fun '(index, faculty) => (faculty, nth_error paddedEmbeddings index))
       (combine (seq 0 (List.length validatedFaculty)) validatedFaculty)).

End Ingest.

(* ================================================================== *)
(** * src/app/api/faculty/[id]/route.ts *)

(** The route reads the requested row through its own client and the
    similar faculty through the similarity library; both are taken to read
    the same table, [db w].  [similarityCount] is what [parseInt] made of
    the parameter [k]. *)
Module FacultyRoute.

(** [Math.round(x)]: the integer nearest to [x], a tie going up; -0 for
    an [x] from -0.5 to -0. *)
Definition Math_round (x : float) : float :=
  match Prim2SF x with
  | S754_finite s m e =>
      if (0 <=? e)%Z then x
      else
        (* floor (x + 1/2) for x = +-m * 2^e *)
        let n := (((if s then Z.neg m else Z.pos m) * 2 + 2 ^ (- e)) / 2 ^ (1 - e))%Z in
        if (n =? 0)%Z then (if s then -0 else 0) else Z_to_float n
  | _ => x
  end.

(** An element of [similar] in the answer. *)
Record Similar : Type := {
  s_faculty_id : string;
  s_name : string;
  s_title : string;
  s_school : string;
  s_department : string;
  score : float
}.

(** The answers with status 404 and 200 (of the row, the answer gives the
    fields and its two timestamps). *)
Inductive Response : Type :=
| NotFound
| Found (faculty : FacultyRow) (similar : list Similar).

(** [x || undefined] on a query parameter: null and '' give undefined. *)
Definition or_undefined (x : option string) : option string :=
  match x with
  | Some s => if is_empty s then None else Some s
  | None => None
  end.

(** [Math.min(similarityCount, 8)], as the integer a [slice] makes of it;
    [similarityCount] is the finite number [parseInt] returned, or NaN
    ([None]). *)
Definition capped (similarityCount : option Z) : Z :=
  match similarityCount with
  | Some n => Z.min n 8
  | None => 0%Z
  end.

Definition GET (w : World) (id : string) (similarityCount : option Z)
    (school department : option string) : Response :=
  match select_single w id with
  | None => NotFound
  | Some faculty =>
      let similarFaculty :=
        match
          Advanced.calculateAdvancedSimilarity w id
            {| Advanced.lexical_options :=
                 {| maxResults := Some (capped similarityCount);
                    minSimilarity := Some 0.1;
                    filterSchool := or_undefined school;
                    filterDepartment := or_undefined department |};
               Advanced.useAdvanced := None |}
        with
        | Returned similarityResults => similarityResults
        | Thrown _ => []
        end in
      Found faculty
        (map (fun f =>
                {| s_faculty_id := r_faculty_id f; s_name := r_name f;
                   s_title := r_title f; s_school := r_school f;
                   s_department := r_department f;
                   score := Math_round (similarity f * 100) / 100 |})
           similarFaculty)
  end.

End FacultyRoute.

(* ================================================================== *)
(** * Notions used to state the properties of the further modules *)

(** What a built query shows of its builder once the bound values are
    left out: the table, the fields, each condition's field and operator,
    the order, and whether a limit and an offset are set. *)
Definition shape {V} (q : Database.QueryBuilder V)
  : string * string * list (string * string) * option string * string * bool * bool :=
  (Database.tableName q, Database.selectFields q,
   map (fun c => (Database.field c, Database.operator c)) (Database.whereConditions q),
   Database.orderByField q, Database.orderDirection q,
   match Database.limitValue q with Some _ => true | None => false end,
   match Database.offsetValue q with Some _ => true | None => false end).

(** The conditions that are rendered with a placeholder. *)
Definition has_placeholder {V} (c : Database.Condition V) : bool :=
  negb (String.eqb (Database.operator c) "IS NOT NULL").

Definition number_param {V} (n : option float) : list (Database.Param V) :=
  match n with
  | Some n => [Database.Number n]
  | None => []
  end.

(** A run of the script over the three rows of [triangle_world]: the
    embedding process answers every text with the same vector and every
    update succeeds. *)
Definition script_world : Script.ScriptWorld :=
  {| Script.configured := true;
     Script.fetch := db triangle_world;
     Script.generateEmbeddings := fun texts => Returned (map (fun _ => [1; 0]) texts);
     Script.update := fun _ _ => Returned true;
     Script.recount := true |}.

(** A submitted field and what validation stores for it. *)
Definition field_accepted (submitted : option string) (stored : string) : Prop :=
  exists text, submitted = Some text /\ stored = trim text /\ is_empty stored = false.

Definition accepted (s : Ingest.Submitted) (v : Ingest.Validated) : Prop :=
  field_accepted (Ingest.s_faculty_id s) (Ingest.v_faculty_id v)
  /\ field_accepted (Ingest.s_name s) (Ingest.v_name v)
  /\ field_accepted (Ingest.s_keywords s) (Ingest.v_keywords v)
  /\ field_accepted (Ingest.s_title s) (Ingest.v_title v)
  /\ field_accepted (Ingest.s_school s) (Ingest.v_school v)
  /\ field_accepted (Ingest.s_department s) (Ingest.v_department v).

(** A submitted record none of whose required fields is missing. *)
Definition complete (s : Ingest.Submitted) : bool :=
  forallb (fun field => negb (Ingest.is_missing (Ingest.get_field s field)))
    Ingest.requiredFields.

(** The entry [s] of [similar] describes the row [f]. *)
Definition describes (f : FacultyRow) (s : FacultyRoute.Similar) : Prop :=
  FacultyRoute.s_faculty_id s = faculty_id f /\ FacultyRoute.s_name s = name f
  /\ FacultyRoute.s_title s = title f /\ FacultyRoute.s_school s = school f
  /\ FacultyRoute.s_department s = department f.

(** Two validated records; the keywords of the first hold punctuation only. *)
Definition punctuation_upload : list Ingest.Validated :=
  [ {| Ingest.v_faculty_id := "P1"; Ingest.v_name := "Ada";
       Ingest.v_keywords := "?!"; Ingest.v_title := "Professor";
       Ingest.v_school := "Engineering"; Ingest.v_department := "Computing" |};
    {| Ingest.v_faculty_id := "P2"; Ingest.v_name := "Grace";
       Ingest.v_keywords := "robotics"; Ingest.v_title := "Professor";
       Ingest.v_school := "Engineering"; Ingest.v_department := "Computing" |} ]%string.
(* ================================================================== *)
(** * The order of binary64 numbers *)

(** A number of sign [s] that is neither zero nor NaN. *)
Definition signed (s : bool) (r : spec_float) : Prop :=
  match r with
  | S754_finite s' _ _ => s' = s
  | S754_infinity s' => s' = s
  | _ => False
  end.

(** A non-NaN number is placed in a lexicographic order of integer
    triples; [SFcompare] is the comparison of the triples. *)
Definition key (f : spec_float) : option (Z * Z * Z) :=
  match f with
  | S754_nan => None
  | S754_infinity true => Some (-2, 0, 0)%Z
  | S754_infinity false => Some (2, 0, 0)%Z
  | S754_zero _ => Some (0, 0, 0)%Z
  | S754_finite true m e => Some (-1, - e, - Zpos m)%Z
  | S754_finite false m e => Some (1, e, Zpos m)%Z
  end.

Definition lex (a b : Z * Z * Z) : comparison :=
  let '(a1, a2, a3) := a in
  let '(b1, b2, b3) := b in
  match (a1 ?= b1)%Z with
  | Eq => match (a2 ?= b2)%Z with Eq => (a3 ?= b3)%Z | c => c end
  | c => c
  end.

Definition le_key (a b : Z * Z * Z) : bool :=
  match lex a b with Gt => false | _ => true end.

Definition lt_key (a b : Z * Z * Z) : bool :=
  match lex a b with Lt => true | _ => false end.

Definition eq_key (a b : Z * Z * Z) : bool :=
  match lex a b with Eq => true | _ => false end.

Lemma SFcompare_key x y :
  SFcompare x y =
  match key x, key y with
  | Some a, Some b => Some (lex a b)
  | _, _ => None
  end.
Proof.
  destruct x as [[]|[]| |[] mx ex], y as [[]|[]| |[] my ey]; simpl; try reflexivity.
  rewrite Z.compare_opp.
  destruct (Z.compare_spec ex ey), (Z.compare_spec ey ex); try lia; reflexivity.
Qed.

Lemma lex_spec a1 a2 a3 b1 b2 b3 :
  match lex (a1, a2, a3) (b1, b2, b3) with
  | Eq => a1 = b1 /\ a2 = b2 /\ a3 = b3
  | Lt => (a1 < b1 \/ (a1 = b1 /\ (a2 < b2 \/ (a2 = b2 /\ a3 < b3))))%Z
  | Gt => (b1 < a1 \/ (a1 = b1 /\ (b2 < a2 \/ (a2 = b2 /\ b3 < a3))))%Z
  end.
Proof.
  unfold lex.
  destruct (Z.compare_spec a1 b1), (Z.compare_spec a2 b2), (Z.compare_spec a3 b3);
    subst; try lia; auto.
Qed.

Lemma leb_key x y :
  (x <=? y) = match key (Prim2SF x), key (Prim2SF y) with
              | Some a, Some b => le_key a b
              | _, _ => false
              end.
Proof.
  rewrite leb_spec. unfold SFleb. rewrite SFcompare_key.
  destruct (key (Prim2SF x)), (key (Prim2SF y)); reflexivity.
Qed.

Lemma ltb_key x y :
  (x <? y) = match key (Prim2SF x), key (Prim2SF y) with
             | Some a, Some b => lt_key a b
             | _, _ => false
             end.
Proof.
  rewrite ltb_spec. unfold SFltb. rewrite SFcompare_key.
  destruct (key (Prim2SF x)), (key (Prim2SF y)); reflexivity.
Qed.

Lemma eqb_key x y :
  (x =? y) = match key (Prim2SF x), key (Prim2SF y) with
             | Some a, Some b => eq_key a b
             | _, _ => false
             end.
Proof.
  rewrite eqb_spec. unfold SFeqb. rewrite SFcompare_key.
  destruct (key (Prim2SF x)), (key (Prim2SF y)); reflexivity.
Qed.

(** Facts about [<=?], [<?] and [=?] on floats, by cases on the keys. *)
Ltac float_order :=
  intros *; rewrite ?leb_key, ?ltb_key, ?eqb_key;
  repeat match goal with
         | |- context [key (Prim2SF ?x)] => destruct (key (Prim2SF x)) as [[[? ?] ?]|]
         end;
  unfold le_key, lt_key, eq_key;
  repeat match goal with
         | |- context [lex (?a1, ?a2, ?a3) (?b1, ?b2, ?b3)] =>
             let H := fresh "L" in
             pose proof (lex_spec a1 a2 a3 b1 b2 b3) as H;
             destruct (lex (a1, a2, a3) (b1, b2, b3))
         end;
  intros; try discriminate; try reflexivity; exfalso; lia.

Lemma leb_trans x y z : (x <=? y) = true -> (y <=? z) = true -> (x <=? z) = true.
Proof. float_order. Qed.

Lemma leb_total m x y :
  (m <=? x) = true -> (m <=? y) = true -> (x <? y) = false -> (y <=? x) = true.
Proof. float_order. Qed.

Lemma ltb_leb x y : (x <? y) = true -> (x <=? y) = true.
Proof. float_order. Qed.

Lemma tied_not_ltb x y v : (x =? v) = true -> (y =? v) = true -> (x <? y) = false.
Proof. float_order. Qed.

Lemma leb_tied m x v : (x =? v) = true -> (m <=? v) = (m <=? x).
Proof. float_order. Qed.

(* ================================================================== *)
(** * Subtraction of binary64 numbers: the sign of the difference *)

Local Open Scope Z_scope.

Lemma digits2_size p : digits2_pos p = Pos.size p.
Proof. induction p; simpl; congruence. Qed.

Lemma digits2_bounds m :
  2 ^ (Zpos (digits2_pos m) - 1) <= Zpos m < 2 ^ (Zpos (digits2_pos m)).
Proof.
  rewrite digits2_size. split.
  - pose proof (Pos.size_le m) as H.
    assert (2 ^ Zpos (Pos.size m) <= 2 * Zpos m).
    { change 2 with (Zpos 2) at 1. rewrite <- Pos2Z.inj_pow. change (2 * Zpos m) with (Zpos (m~0)). lia. }
    replace (Zpos (Pos.size m)) with (Zpos (Pos.size m) - 1 + 1) in H0 by lia.
    rewrite Z.pow_add_r in H0 by lia. lia.
  - pose proof (Pos.size_gt m) as H.
    change 2 with (Zpos 2). rewrite <- Pos2Z.inj_pow. lia.
Qed.

Lemma shr_1_m mrs : 0 <= shr_m mrs -> shr_m (shr_1 mrs) = shr_m mrs / 2.
Proof.
  destruct mrs as [m r s]. simpl. intros Hm.
  rewrite <- Z.div2_div.
  destruct m as [|[p|p|]|p]; try reflexivity; lia.
Qed.

Lemma iter_shr_1_m p : forall mrs,
  0 <= shr_m mrs -> shr_m (iter_pos shr_1 p mrs) = shr_m mrs / 2 ^ Zpos p.
Proof.
  induction p as [p IH|p IH|]; intros mrs Hm; simpl iter_pos.
  - assert (H1 : 0 <= shr_m (shr_1 mrs)) by (rewrite shr_1_m by lia; apply Z.div_pos; lia).
    assert (H2 : 0 <= shr_m (iter_pos shr_1 p (shr_1 mrs)))
      by (rewrite IH by lia; apply Z.div_pos; lia).
    rewrite IH, IH, shr_1_m by lia.
    rewrite !Z.div_div by lia. f_equal.
    replace (Zpos p~1) with (1 + Zpos p + Zpos p) by lia.
    rewrite !Z.pow_add_r by lia. change (2 ^ 1) with 2. lia.
  - assert (H2 : 0 <= shr_m (iter_pos shr_1 p mrs))
      by (rewrite IH by lia; apply Z.div_pos; lia).
    rewrite IH, IH by lia.
    rewrite !Z.div_div by lia. f_equal.
    replace (Zpos p~0) with (Zpos p + Zpos p) by lia.
    rewrite !Z.pow_add_r by lia. reflexivity.
  - rewrite shr_1_m by lia. reflexivity.
Qed.


Lemma shr_fexp_pos m e l :
  emin <= e ->
  let '(mrs, e') := shr_fexp prec emax (Zpos m) e l in
  0 < shr_m mrs /\ emin <= e'.
Proof.
  intros He. unfold shr_fexp, shr.
  pose proof (digits2_bounds m) as Hd.
  simpl Zdigits2.
  destruct (fexp prec emax (Zpos (digits2_pos m) + e) - e) as [|n|n] eqn:Hn.
  - destruct l as [|[]]; simpl; lia.
  - assert (Hfexp : Zpos n = Zpos (digits2_pos m) - prec).
    { unfold fexp, SpecFloat.emin, prec, emax in *. lia. }
    split; [|lia].
    rewrite iter_shr_1_m by (destruct l as [|[]]; simpl; lia).
    replace (shr_m (shr_record_of_loc (Zpos m) l)) with (Zpos m)
      by (destruct l as [|[]]; reflexivity).
    apply Z.div_str_pos. split; [lia|].
    eapply Z.le_trans; [|apply Hd].
    apply Z.pow_le_mono_r; [lia|]. rewrite Hfexp. unfold prec. lia.
  - destruct l as [|[]]; simpl; lia.
Qed.

Lemma round_nearest_even_pos m l : 0 < m -> 0 < round_nearest_even m l.
Proof.
  intros Hm. destruct l as [|[]]; simpl; try lia.
  destruct (Z.even m); lia.
Qed.

Lemma binary_round_aux_signed s m e l :
  emin <= e -> signed s (binary_round_aux prec emax s (Zpos m) e l).
Proof.
  intros He. unfold binary_round_aux.
  pose proof (shr_fexp_pos m e l He) as H1.
  destruct (shr_fexp prec emax (Zpos m) e l) as [mrs' e'].
  destruct H1 as [Hm' He'].
  pose proof (round_nearest_even_pos (shr_m mrs') (loc_of_shr_record mrs') Hm') as Hr.
  destruct (round_nearest_even (shr_m mrs') (loc_of_shr_record mrs')) as [|m2|m2]; try lia.
  pose proof (shr_fexp_pos m2 e' loc_Exact He') as H2.
  destruct (shr_fexp prec emax (Zpos m2) e' loc_Exact) as [mrs'' e''].
  destruct H2 as [Hm'' _].
  destruct (shr_m mrs'') as [|m3|m3]; try lia.
  destruct (e'' <=? emax - prec); reflexivity.
Qed.

Lemma fexp_ge_emin z : emin <= fexp prec emax z.
Proof. unfold fexp. lia. Qed.

Lemma binary_round_signed s m e :
  emin <= e -> signed s (binary_round prec emax s m e).
Proof.
  intros He. unfold binary_round, shl_align.
  destruct (fexp prec emax (Zpos (digits2_pos m) + e) - e) as [|d|d] eqn:Hd;
    apply binary_round_aux_signed; try assumption.
  apply fexp_ge_emin.
Qed.

Lemma iter_xO m d : Zpos (Pos.iter xO m d) = Zpos m * 2 ^ Zpos d.
Proof.
  induction d as [|d IH] using Pos.peano_ind.
  - simpl. lia.
  - rewrite Pos.iter_succ, Pos2Z.inj_xO, IH, Pos2Z.inj_succ, Z.pow_succ_r by lia. lia.
Qed.

Lemma shl_align_value m e e' :
  e' <= e -> Zpos (fst (shl_align m e e')) = Zpos m * 2 ^ (e - e').
Proof.
  intros H. unfold shl_align.
  destruct (e' - e) as [|d|d] eqn:Hd; simpl fst.
  - replace (e - e') with 0 by lia. lia.
  - lia.
  - rewrite iter_xO. f_equal. f_equal. lia.
Qed.

Lemma valid_emin s m e :
  valid_binary (S754_finite s m e) = true -> emin <= e.
Proof.
  simpl. unfold bounded, canonical_mantissa. intros H.
  apply andb_true_iff in H. destruct H as [H _]. apply Z.eqb_eq in H.
  pose proof (fexp_ge_emin (Zpos (digits2_pos m) + e)). lia.
Qed.

(** Among canonical mantissas, the smaller exponent is the smaller number. *)
Lemma canonical_lt m1 e1 m2 e2 :
  canonical_mantissa prec emax m1 e1 = true ->
  canonical_mantissa prec emax m2 e2 = true ->
  e1 < e2 ->
  Zpos m1 < Zpos m2 * 2 ^ (e2 - e1).
Proof.
  unfold canonical_mantissa. intros H1 H2 Hlt.
  apply Z.eqb_eq in H1. apply Z.eqb_eq in H2.
  pose proof (digits2_bounds m1) as [_ Hb1].
  pose proof (digits2_bounds m2) as [Hb2 _].
  assert (Hd1 : Zpos (digits2_pos m1) <= prec) by (unfold fexp in H1; lia).
  assert (Hd2 : Zpos (digits2_pos m2) = prec)
    by (unfold fexp, SpecFloat.emin in *; lia).
  rewrite Hd2 in Hb2.
  assert (Zpos m1 < 2 ^ prec).
  { eapply Z.lt_le_trans; [exact Hb1|]. apply Z.pow_le_mono_r; lia. }
  assert (2 ^ 1 <= 2 ^ (e2 - e1)) by (apply Z.pow_le_mono_r; lia).
  change (2 ^ 1) with 2 in *.
  replace (2 ^ prec) with (2 * 2 ^ (prec - 1)) in *
    by (unfold prec; rewrite <- Z.pow_succ_r by lia; reflexivity).
  nia.
Qed.

Lemma zero_ltb_signed s r :
  signed s r -> SFltb (S754_zero false) r = negb s.
Proof. destruct r as [| | |s' m e]; simpl; intros H; try contradiction; subst; destruct s; reflexivity. Qed.

Lemma SFsub_sign Y X :
  valid_binary Y = true -> valid_binary X = true ->
  SFltb (S754_zero false) (SFsub prec emax Y X) = SFltb X Y.
Proof.
  destruct Y as [sy|sy| |sy my ey], X as [sx|sx| |sx mx ex]; intros HY HX;
    try reflexivity;
    try (destruct sx, sy; reflexivity); try (destruct sx; reflexivity);
    try (destruct sy; reflexivity).
  pose proof (valid_emin _ _ _ HY) as Hey. pose proof (valid_emin _ _ _ HX) as Hex.
  simpl in HY, HX. unfold bounded in HY, HX.
  apply andb_true_iff in HY. destruct HY as [CY _].
  apply andb_true_iff in HX. destruct HX as [CX _].
  unfold SFsub. cbv zeta.
  set (ez := IntDef.Z.min ey ex).
  assert (Hez : emin <= ez) by (unfold ez; lia).
  rewrite (shl_align_value my ey ez), (shl_align_value mx ex ez) by (unfold ez; lia).
  assert (Hvals :
            (ex < ey -> Zpos mx * 2 ^ (ex - ez) < Zpos my * 2 ^ (ey - ez))
            /\ (ey < ex -> Zpos my * 2 ^ (ey - ez) < Zpos mx * 2 ^ (ex - ez))
            /\ (ex = ey -> 2 ^ (ex - ez) = 1 /\ 2 ^ (ey - ez) = 1)).
  { split; [|split]; intros H.
    - replace (ex - ez) with 0 by (unfold ez; lia).
      replace (ey - ez) with (ey - ex) by (unfold ez; lia).
      pose proof (canonical_lt mx ex my ey CX CY H). change (2 ^ 0) with 1. lia.
    - replace (ey - ez) with 0 by (unfold ez; lia).
      replace (ex - ez) with (ex - ey) by (unfold ez; lia).
      pose proof (canonical_lt my ey mx ex CY CX H). change (2 ^ 0) with 1. lia.
    - replace (ex - ez) with 0 by (unfold ez; lia).
      replace (ey - ez) with 0 by (unfold ez; lia). split; reflexivity. }
  destruct Hvals as [Hlt [Hgt Heq]].
  assert (Hpy : 0 < Zpos my * 2 ^ (ey - ez)) by (apply Z.mul_pos_pos; [lia | apply Z.pow_pos_nonneg; unfold ez; lia]).
  assert (Hpx : 0 < Zpos mx * 2 ^ (ex - ez)) by (apply Z.mul_pos_pos; [lia | apply Z.pow_pos_nonneg; unfold ez; lia]).
  unfold SFltb at 2. simpl SFcompare.
  change (Pos.compare_cont Eq mx my) with (Pos.compare mx my).
  set (vy := Zpos my * 2 ^ (ey - ez)) in *.
  set (vx := Zpos mx * 2 ^ (ex - ez)) in *.
  unfold binary_normalize.
  destruct sx, sy; unfold cond_Zopp.
  - (* both negative: D = vx - vy *)
    destruct (Z.compare_spec ex ey) as [E|E|E].
    + destruct (Heq E) as [E1 E2]. unfold vx, vy. rewrite E1, E2, !Z.mul_1_r.
      destruct (Pos.compare_spec mx my) as [M|M|M]; simpl CompOpp; cbv iota.
      * subst. replace (- Zpos my - - Zpos my) with 0 by lia. reflexivity.
      * destruct (- Zpos my - - Zpos mx) as [|d|d] eqn:Hd; try lia.
        rewrite (zero_ltb_signed true); [reflexivity | now apply binary_round_signed].
      * destruct (- Zpos my - - Zpos mx) as [|d|d] eqn:Hd; try lia.
        rewrite (zero_ltb_signed false); [reflexivity | now apply binary_round_signed].
    + specialize (Hlt E).
      destruct (- vy - - vx) as [|d|d] eqn:Hd; try lia.
      rewrite (zero_ltb_signed true); [reflexivity | now apply binary_round_signed].
    + specialize (Hgt E).
      destruct (- vy - - vx) as [|d|d] eqn:Hd; try lia.
      rewrite (zero_ltb_signed false); [reflexivity | now apply binary_round_signed].
  - (* x negative, y positive *)
    destruct (vy - - vx) as [|d|d] eqn:Hd; try lia.
    rewrite (zero_ltb_signed false); [reflexivity | now apply binary_round_signed].
  - (* x positive, y negative *)
    destruct (- vy - vx) as [|d|d] eqn:Hd; try lia.
    rewrite (zero_ltb_signed true); [reflexivity | now apply binary_round_signed].
  - (* both positive *)
    destruct (Z.compare_spec ex ey) as [E|E|E].
    + destruct (Heq E) as [E1 E2]. unfold vx, vy. rewrite E1, E2, !Z.mul_1_r.
      destruct (Pos.compare_spec mx my) as [M|M|M]; cbv iota.
      * subst. replace (Zpos my - Zpos my) with 0 by lia. reflexivity.
      * destruct (Zpos my - Zpos mx) as [|d|d] eqn:Hd; try lia.
        rewrite (zero_ltb_signed false); [reflexivity | now apply binary_round_signed].
      * destruct (Zpos my - Zpos mx) as [|d|d] eqn:Hd; try lia.
        rewrite (zero_ltb_signed true); [reflexivity | now apply binary_round_signed].
    + specialize (Hlt E).
      destruct (vy - vx) as [|d|d] eqn:Hd; try lia.
      rewrite (zero_ltb_signed false); [reflexivity | now apply binary_round_signed].
    + specialize (Hgt E).
      destruct (vy - vx) as [|d|d] eqn:Hd; try lia.
      rewrite (zero_ltb_signed true); [reflexivity | now apply binary_round_signed].
Qed.

(** The sign of the comparator [b - a] is the strict order of [a] and [b]. *)
Lemma sub_sign (x y : float) : (0 <? y - x)%float = (x <? y)%float.
Proof.
  rewrite !ltb_spec, sub_spec.
  change (Prim2SF 0) with (S754_zero false).
  apply SFsub_sign; apply Prim2SF_valid.
Qed.

Local Close Scope Z_scope.

(* ================================================================== *)
(** * Lists *)

Lemma firstn_In {A} (x : A) n l : In x (firstn n l) -> In x l.
Proof.
  intros H. rewrite <- (firstn_skipn n l). apply in_or_app. left. exact H.
Qed.

(* ================================================================== *)
(** * Sorting by a score, descending *)

Section Ranking.

Context {A : Type} (sim : A -> float).

Let cmp (a b : A) : float := sim b - sim a.
Let ge (a b : A) : Prop := (sim b <=? sim a) = true.
Let tie (v : float) (a : A) : bool := sim a =? v.

Lemma insert_by_Permutation x l : Permutation (insert_by cmp x l) (x :: l).
Proof.
  induction l as [|y l IH]; simpl.
  - apply Permutation_refl.
  - destruct (0 <? cmp x y).
    + eapply perm_trans; [apply perm_skip, IH | apply perm_swap].
    + apply Permutation_refl.
Qed.

Lemma Array_sort_Permutation l : Permutation (Array_sort cmp l) l.
Proof.
  induction l as [|x l IH]; simpl.
  - apply perm_nil.
  - eapply perm_trans; [apply insert_by_Permutation | apply perm_skip, IH].
Qed.

Lemma Array_sort_In l x : In x (Array_sort cmp l) <-> In x l.
Proof.
  split; apply Permutation_in;
    [apply Array_sort_Permutation | apply Permutation_sym, Array_sort_Permutation].
Qed.

Lemma Array_sort_length l : List.length (Array_sort cmp l) = List.length l.
Proof. apply Permutation_length, Array_sort_Permutation. Qed.

(** Inserting into a descending list of numbers (none is NaN: all reach
    [m]) keeps it descending. *)
Lemma insert_by_sorted m x l :
  Forall (fun a => (m <=? sim a) = true) (x :: l) ->
  StronglySorted ge l ->
  StronglySorted ge (insert_by cmp x l).
Proof.
  intros Hm Hs. induction Hs as [|y l Hs IH Hy]; simpl.
  - repeat constructor.
  - inversion Hm as [|? ? Hmx Hml]; subst.
    inversion Hml as [|? ? Hmy Hml']; subst.
    unfold cmp at 1. rewrite sub_sign.
    destruct (sim x <? sim y) eqn:Hlt.
    + constructor.
      * apply IH. constructor; assumption.
      * apply Forall_forall. intros z Hz.
        apply (Permutation_in _ (insert_by_Permutation x l)) in Hz.
        destruct Hz as [->|Hz].
        -- unfold ge. now apply ltb_leb.
        -- rewrite Forall_forall in Hy. now apply Hy.
    + assert (Hxy : ge x y) by (unfold ge; eapply leb_total; eassumption).
      constructor.
      * constructor; assumption.
      * constructor; [assumption|].
        rewrite Forall_forall in Hy |- *. intros z Hz.
        unfold ge in *. eapply leb_trans; [apply Hy, Hz | exact Hxy].
Qed.

Lemma Array_sort_sorted m l :
  Forall (fun a => (m <=? sim a) = true) l ->
  StronglySorted ge (Array_sort cmp l).
Proof.
  induction l as [|x l IH]; intros Hm; simpl.
  - constructor.
  - inversion Hm as [|? ? Hx Hl]; subst.
    apply (insert_by_sorted m); [|now apply IH].
    constructor; [assumption|].
    apply Forall_forall. intros z Hz. apply (proj1 (Array_sort_In _ _)) in Hz.
    rewrite Forall_forall in Hl. now apply Hl.
Qed.

(** An element only moves past strictly greater ones: ties stay in order. *)
Lemma insert_by_stable v x l :
  filter (tie v) (insert_by cmp x l) = filter (tie v) (x :: l).
Proof.
  induction l as [|y l IH]; [reflexivity|].
  simpl. unfold cmp at 1. rewrite sub_sign.
  destruct (sim x <? sim y) eqn:Hlt; [|reflexivity].
  simpl. rewrite IH.
  simpl. destruct (tie v x) eqn:Tx, (tie v y) eqn:Ty; try reflexivity.
  unfold tie in Tx, Ty. rewrite (tied_not_ltb _ _ _ Tx Ty) in Hlt. discriminate.
Qed.

Lemma Array_sort_stable v l :
  filter (tie v) (Array_sort cmp l) = filter (tie v) l.
Proof.
  induction l as [|x l IH]; [reflexivity|].
  simpl. rewrite insert_by_stable. simpl. now rewrite IH.
Qed.

Lemma StronglySorted_firstn (R : A -> A -> Prop) n l :
  StronglySorted R l -> StronglySorted R (firstn n l).
Proof.
  intros Hs. revert n. induction Hs as [|x l Hs IH Hx]; intros [|n]; simpl;
    try constructor.
  - apply IH.
  - apply Forall_forall. intros z Hz. rewrite Forall_forall in Hx.
    apply Hx. eapply firstn_In. exact Hz.
Qed.

Lemma filter_firstn_prefix (p : A -> bool) n l :
  is_prefix (filter p (firstn n l)) (filter p l).
Proof.
  exists (filter p (skipn n l)).
  rewrite <- filter_app, firstn_skipn. reflexivity.
Qed.

Lemma slice0_nonneg (l : list A) k : (0 <= k)%Z -> slice0 l k = firstn (Z.to_nat k) l.
Proof.
  intros Hk. unfold slice0. destruct (Z.ltb_spec k 0); [lia | reflexivity].
Qed.

Lemma slice0_incl (l : list A) k : incl (slice0 l k) l.
Proof.
  unfold slice0. destruct (k <? 0)%Z; intros z Hz; eapply firstn_In; exact Hz.
Qed.

Lemma filter_none (p : A -> bool) l :
  (forall z, In z l -> p z = false) -> filter p l = [].
Proof.
  induction l as [|a l IH]; intros H; [reflexivity|].
  simpl. rewrite (H a (or_introl eq_refl)). apply IH.
  intros z Hz. apply H. right. exact Hz.
Qed.

Lemma filter_tie_kept minSim v l :
  (minSim <=? v) = true ->
  filter (tie v) (filter (fun r => minSim <=? sim r) l) = filter (tie v) l.
Proof.
  intros Hv. induction l as [|a l IH]; [reflexivity|].
  simpl. destruct (minSim <=? sim a) eqn:Ha; simpl; rewrite IH; [reflexivity|].
  unfold tie at 2. destruct (sim a =? v) eqn:Hav; [|reflexivity].
  rewrite (leb_tied minSim _ _ Hav) in Hv. congruence.
Qed.

(** The three steps of every ranking: keep the scores that reach
    [minSim], sort, cut. *)
Lemma rank_ranked (input : list A) (minSim : float) (maxRes : Z) :
  (0 <= maxRes)%Z ->
  ranked sim minSim maxRes input
    (slice0 (Array_sort cmp (filter (fun r => minSim <=? sim r) input)) maxRes).
Proof.
  intros Hk.
  set (kept := filter (fun r => minSim <=? sim r) input).
  assert (Hkept : forall z, In z kept -> (minSim <=? sim z) = true).
  { intros z Hz. apply filter_In in Hz. apply Hz. }
  rewrite slice0_nonneg by assumption.
  repeat split.
  - apply Forall_forall. intros z Hz.
    apply firstn_In in Hz. apply (proj1 (Array_sort_In _ _)) in Hz.
    now apply Hkept.
  - apply StronglySorted_firstn. apply (Array_sort_sorted minSim).
    apply Forall_forall. exact Hkept.
  - intros v.
    destruct (minSim <=? v) eqn:Hv.
    + destruct (filter_firstn_prefix (tie v) (Z.to_nat maxRes)
                  (Array_sort cmp kept)) as [rest Hrest].
      rewrite Array_sort_stable in Hrest.
      exists rest. change (fun r => sim r =? v) with (tie v).
      rewrite <- Hrest. unfold kept.
      symmetry. now apply filter_tie_kept.
    + exists (filter (tie v) input).
      change (fun r => sim r =? v) with (tie v).
      rewrite (filter_none (tie v) (firstn (Z.to_nat maxRes) (Array_sort cmp kept)));
        [reflexivity|].
      intros z Hz. apply firstn_In in Hz. apply (proj1 (Array_sort_In _ _)) in Hz.
      specialize (Hkept z Hz).
      unfold tie. destruct (sim z =? v) eqn:Hzv; [|reflexivity].
      rewrite (leb_tied minSim _ _ Hzv) in Hv. congruence.
  - pose proof (firstn_le_length (Z.to_nat maxRes) (Array_sort cmp kept)). lia.
Qed.

End Ranking.

(* ================================================================== *)
(** * Ranking (lexical and dense) *)

Lemma ranked_nil {A} (sim : A -> float) minSim maxRes (input : list A) :
  (0 <= maxRes)%Z -> ranked sim minSim maxRes input [].
Proof.
  intros Hk. repeat split.
  - constructor.
  - constructor.
  - intros v. exists (filter (fun r => sim r =? v) input). reflexivity.
  - simpl. exact Hk.
Qed.

Lemma findSimilar_scores {T} (embedding_of : T -> list float) q candidates topK minSim :
  Embedding.findSimilar embedding_of q candidates topK minSim =
  (scored <- cosine_scores embedding_of q candidates ;;
   Returned (slice0 (Array_sort (fun a b => snd b - snd a)
                       (filter (fun item => minSim <=? snd item) scored)) topK)).
Proof. reflexivity. Qed.

(** Every candidate whose vector has the length of the query is scored. *)
Lemma cosine_scores_total {T} (embedding_of : T -> list float) q candidates :
  (forall c, In c candidates -> List.length (embedding_of c) = List.length q) ->
  exists scored,
    cosine_scores embedding_of q candidates = Returned scored
    /\ map fst scored = candidates.
Proof.
  induction candidates as [|c l IH]; intros H.
  - exists []. split; reflexivity.
  - destruct IH as [scored [Hs Hf]]; [intros; apply H; right; assumption|].
    unfold cosine_scores in *. simpl.
    unfold Embedding.cosineSimilarity at 1.
    rewrite (H c (or_introl eq_refl)), Nat.eqb_refl. simpl.
    destruct (for_range _ _ _) as [[d na] nb].
    destruct ((na =? 0) || (nb =? 0)); simpl; rewrite Hs; simpl;
      eexists; (split; [reflexivity | simpl; now rewrite Hf]).
Qed.

Lemma calculateSimilarFaculty_ranked w targetFacultyId options :
  (0 <= default 10%Z (maxResults options))%Z ->
  exists r,
    Lexical.calculateSimilarFaculty w targetFacultyId options = Returned r
    /\ ranked similarity (default 0.1 (minSimilarity options))
         (default 10%Z (maxResults options))
         (record_scores w targetFacultyId options) r.
Proof.
  intros Hk.
  unfold Lexical.calculateSimilarFaculty, record_scores in *.
  destruct (select_faculty w _ _) as [allFaculty|];
    [|eexists; split; [reflexivity | now apply ranked_nil]].
  destruct (find _ allFaculty) as [targetFaculty|];
    [|eexists; split; [reflexivity | now apply ranked_nil]].
  cbv zeta.
  destruct (_ =? 0)%nat;
    [eexists; split; [reflexivity | now apply ranked_nil]|].
  eexists; split; [reflexivity|].
  unfold Lexical.rank. apply (rank_ranked similarity); assumption.
Qed.

Lemma searchSimilarFaculty_ranked w query options :
  (0 <= default 20%Z (maxResults options))%Z ->
  exists r,
    Lexical.searchSimilarFaculty w query options = Returned r
    /\ ranked similarity (default 0.1 (minSimilarity options))
         (default 20%Z (maxResults options))
         (query_scores w query options) r.
Proof.
  intros Hk.
  unfold Lexical.searchSimilarFaculty, query_scores in *.
  destruct (select_faculty w _ _) as [allFaculty|];
    [|eexists; split; [reflexivity | now apply ranked_nil]].
  cbv zeta.
  destruct (_ =? 0)%nat;
    [eexists; split; [reflexivity | now apply ranked_nil]|].
  eexists; split; [reflexivity|].
  unfold Lexical.rank. apply (rank_ranked similarity); assumption.
Qed.

(** C6 (as amended): for a non-negative [maxResults], the lexical rankings
    ([calculateSimilarFaculty], [searchSimilarFaculty]) and the dense
    ranking ([findSimilar]) return a list in which every result has
    similarity >= minSimilarity, sorted by similarity in descending order,
    ties in the input order of the candidates, of length at most
    maxResults. *)
Theorem C6_ranking_postcondition :
  (forall T (embedding_of : T -> list float) q candidates scored topK minSim,
      (0 <= topK)%Z ->
      cosine_scores embedding_of q candidates = Returned scored ->
      exists r,
        Embedding.findSimilar embedding_of q candidates topK minSim = Returned r
        /\ ranked snd minSim topK scored r)
  /\ (forall w targetFacultyId options,
         (0 <= default 10%Z (maxResults options))%Z ->
         exists r,
           Lexical.calculateSimilarFaculty w targetFacultyId options = Returned r
           /\ ranked similarity (default 0.1 (minSimilarity options))
                (default 10%Z (maxResults options))
                (record_scores w targetFacultyId options) r)
  /\ (forall w query options,
         (0 <= default 20%Z (maxResults options))%Z ->
         exists r,
           Lexical.searchSimilarFaculty w query options = Returned r
           /\ ranked similarity (default 0.1 (minSimilarity options))
                (default 20%Z (maxResults options))
                (query_scores w query options) r).
Proof.
  split; [|split].
  - intros T embedding_of q candidates scored topK minSim Hk Hs.
    rewrite findSimilar_scores, Hs. simpl.
    eexists; split; [reflexivity|].
    now apply (rank_ranked snd).
  - apply calculateSimilarFaculty_ranked.
  - apply searchSimilarFaculty_ranked.
Qed.

Lemma C6_ranking_postcondition_witness :
  (exists scored r,
      cosine_scores (fun v => v) [1; 0] [[1; 0]; [0; 1]; [1; 1]; [2; 0]] = Returned scored
      /\ Embedding.findSimilar (fun v => v) [1; 0] [[1; 0]; [0; 1]; [1; 1]; [2; 0]] 2 0.5
         = Returned r
      /\ ranked snd 0.5 2 scored r)
  /\ (exists r,
         Lexical.calculateSimilarFaculty sample_world "F1" no_options = Returned r
         /\ ranked similarity 0.1 10
              (record_scores sample_world "F1" no_options) r)
  /\ (exists r,
         Lexical.searchSimilarFaculty sample_world "robotics" no_options = Returned r
         /\ ranked similarity 0.1 20
              (query_scores sample_world "robotics" no_options) r).
Proof.
  destruct C6_ranking_postcondition as [Hdense [Hrecord Hquery]].
  split; [|split].
  - eexists.
    destruct (Hdense (list float) (fun v => v) [1; 0] [[1; 0]; [0; 1]; [1; 1]; [2; 0]]
                _ 2%Z 0.5 ltac:(lia) ltac:(vm_compute; reflexivity))
      as [r [Hr Hranked]].
    exists r. split; [vm_compute; reflexivity | split; assumption].
  - apply (Hrecord sample_world "F1"%string no_options). simpl; lia.
  - apply (Hquery sample_world "robotics"%string no_options). simpl; lia.
Defined.

(** C6 as stated fails for a negative [maxResults]: [slice(0, -1)] drops
    only the last element, so two of three results are returned. *)
Lemma C6_negative_maxResults :
  exists r,
    Embedding.findSimilar (fun v => v) [1; 0] [[1; 0]; [1; 1]; [0; 1]] (-1) 0 = Returned r
    /\ List.length r = 2%nat
    /\ ~ (Z.of_nat (List.length r) <= -1)%Z.
Proof.
  eexists. split; [vm_compute; reflexivity|].
  split; [reflexivity | simpl; lia].
Qed.

(* ================================================================== *)
(** * Cosine similarity *)

(** The indexed loop over two arrays of equal length visits the pairs of
    elements in order. *)
Lemma indexed_loop_pairs (a b pa pb : list float) acc :
  List.length pa = List.length pb ->
  List.length a = List.length b ->
  fold_left
    (fun '(dotProduct, normA, normB) i =>
       (dotProduct + get (pa ++ a) i * get (pb ++ b) i,
        normA + get (pa ++ a) i * get (pa ++ a) i,
        normB + get (pb ++ b) i * get (pb ++ b) i))
    (seq (List.length pa) (List.length a)) acc
  = fold_left sums_step (combine a b) acc.
Proof.
  revert b pa pb acc. induction a as [|x a IH]; intros [|y b] pa pb acc Hp Hl;
    try discriminate; [reflexivity|].
  simpl. destruct acc as [[d na] nb].
  assert (Ha : get (pa ++ x :: a) (List.length pa) = x)
    by (unfold get; apply nth_middle).
  assert (Hb : get (pb ++ y :: b) (List.length pa) = y)
    by (unfold get; rewrite Hp; apply nth_middle).
  rewrite Ha, Hb. clear Ha Hb.
  replace (pa ++ x :: a) with ((pa ++ [x]) ++ a) by (rewrite <- app_assoc; reflexivity).
  replace (pb ++ y :: b) with ((pb ++ [y]) ++ b) by (rewrite <- app_assoc; reflexivity).
  replace (S (List.length pa)) with (List.length (pa ++ [x]))
    by (rewrite length_app; simpl; lia).
  apply IH.
  - rewrite !length_app. simpl. lia.
  - simpl in Hl. lia.
Qed.

Lemma sums_step_split l d na nb :
  fold_left sums_step l (d, na, nb)
  = (fold_left (fun s '(x, y) => s + x * y) l d,
     fold_left (fun s x => s + x * x) (map fst l) na,
     fold_left (fun s x => s + x * x) (map snd l) nb).
Proof.
  revert d na nb. induction l as [|[x y] l IH]; intros; [reflexivity|].
  simpl. apply IH.
Qed.

Lemma map_fst_combine {A B} (a : list A) (b : list B) :
  List.length a = List.length b -> map fst (combine a b) = a.
Proof.
  revert b. induction a as [|x a IH]; intros [|y b] H; try discriminate; [reflexivity|].
  simpl. f_equal. apply IH. simpl in H. lia.
Qed.

Lemma map_snd_combine {A B} (a : list A) (b : list B) :
  List.length a = List.length b -> map snd (combine a b) = b.
Proof.
  revert b. induction a as [|x a IH]; intros [|y b] H; try discriminate; [reflexivity|].
  simpl. f_equal. apply IH. simpl in H. lia.
Qed.

Lemma loop_sums a b :
  List.length a = List.length b ->
  for_range (List.length a)
    (fun '(dotProduct, normA, normB) i =>
       (dotProduct + get a i * get b i,
        normA + get a i * get a i,
        normB + get b i * get b i))
    (0, 0, 0)
  = (dot a b, sum_squares a, sum_squares b).
Proof.
  intros H. unfold for_range.
  etransitivity; [exact (indexed_loop_pairs a b [] [] (0, 0, 0) eq_refl H)|].
  rewrite sums_step_split, map_fst_combine, map_snd_combine by assumption.
  reflexivity.
Qed.

Lemma reduce_indexed_dot a b pb acc :
  List.length a = List.length b ->
  fold_left (fun sum '(i, val) => sum + val * get (pb ++ b) i)
    (combine (seq (List.length pb) (List.length a)) a) acc
  = fold_left (fun s '(x, y) => s + x * y) (combine a b) acc.
Proof.
  revert b pb acc. induction a as [|x a IH]; intros [|y b] pb acc Hl;
    try discriminate; [reflexivity|].
  simpl.
  assert (Hb : get (pb ++ y :: b) (List.length pb) = y)
    by (unfold get; apply nth_middle).
  rewrite Hb. clear Hb.
  replace (pb ++ y :: b) with ((pb ++ [y]) ++ b) by (rewrite <- app_assoc; reflexivity).
  replace (S (List.length pb)) with (List.length (pb ++ [y]))
    by (rewrite length_app; simpl; lia).
  apply IH. simpl in Hl. lia.
Qed.

(** C4 (as amended): [cosineSimilarity] of the embedding service throws
    the dimension error when the lengths differ, while the lexical
    [cosineSimilarity] returns 0 there; for equal lengths both, and the
    network route's [calculateCosineSimilarity], return 0 when either
    vector has zero norm and otherwise dot(a,b) divided by the product of
    the two Euclidean norms. *)
Theorem C4_cosine_similarity : forall a b : list float,
  Embedding.cosineSimilarity a b =
    (if (List.length a =? List.length b)%nat
     then Returned (if (sum_squares a =? 0) || (sum_squares b =? 0) then 0
                    else dot a b / (norm a * norm b))
     else Thrown (DimensionMismatch (List.length a) (List.length b)))
  /\ Lexical.cosineSimilarity a b =
    (if (List.length a =? List.length b)%nat
     then (if (norm a =? 0) || (norm b =? 0) then 0
           else dot a b / (norm a * norm b))
     else 0)
  /\ (List.length a = List.length b ->
      Network.calculateCosineSimilarity a b =
      (if (norm a =? 0) || (norm b =? 0) then 0
       else dot a b / (norm a * norm b))).
Proof.
  intros a b. split; [|split].
  - unfold Embedding.cosineSimilarity.
    destruct (Nat.eqb_spec (List.length a) (List.length b)) as [H|H]; [|reflexivity].
    simpl. rewrite (loop_sums a b H).
    destruct ((sum_squares a =? 0) || (sum_squares b =? 0)); reflexivity.
  - unfold Lexical.cosineSimilarity.
    destruct (Nat.eqb_spec (List.length a) (List.length b)) as [H|H]; [|reflexivity].
    simpl. rewrite (loop_sums a b H). reflexivity.
  - intros H. unfold Network.calculateCosineSimilarity, Network.reduce_indexed.
    replace (fold_left _ (combine (seq 0 (List.length a)) a) 0) with (dot a b);
      [reflexivity|].
    symmetry. exact (reduce_indexed_dot a b [] 0 H).
Qed.

Lemma C4_cosine_similarity_witness :
  Network.calculateCosineSimilarity [3; 4] [4; 3] =
  (if (norm [3; 4] =? 0) || (norm [4; 3] =? 0) then 0
   else dot [3; 4] [4; 3] / (norm [3; 4] * norm [4; 3])).
Proof.
  apply (proj2 (proj2 (C4_cosine_similarity [3; 4] [4; 3]))). reflexivity.
Defined.

(** C4 as stated fails: on vectors of different lengths the lexical
    [cosineSimilarity] returns 0 and the network route's
    [calculateCosineSimilarity] returns NaN; neither throws. *)
Lemma C4_mismatch_returns_a_number :
  Lexical.cosineSimilarity [1] [1; 2] = 0
  /\ Network.calculateCosineSimilarity [1; 2] [1] = nan
  /\ Embedding.cosineSimilarity [1] [1; 2] = Thrown (DimensionMismatch 1 2).
Proof. repeat split; vm_compute; reflexivity. Qed.

(* ================================================================== *)
(** * Padding and extraction *)

(** C5: extracting the first 384 entries of the padded vector gives the
    vector back; with the lenient functions of the embedding service and
    with the strict ones of the similarity service. *)
Theorem C5_pad_extract_roundtrip : forall v : list float,
  List.length v = 384%nat ->
  Embedding.padEmbeddingTo1536 v = Returned (v ++ repeat 0 (1536 - 384))
  /\ (p <- Embedding.padEmbeddingTo1536 v ;;
      Returned (Embedding.extractEmbeddingFrom1536 p)) = Returned v
  /\ (p <- Advanced.padEmbeddingTo1536Compat v ;;
      Advanced.extractReal384Embedding p) = Returned v.
Proof.
  intros v H.
  assert (Hpad : Embedding.padEmbeddingTo1536 v = Returned (v ++ repeat 0 (1536 - 384))).
  { unfold Embedding.padEmbeddingTo1536. rewrite H. reflexivity. }
  assert (Hlen : List.length (v ++ repeat 0 (1536 - 384)) = 1536%nat).
  { rewrite length_app, repeat_length, H. reflexivity. }
  assert (Hext : Embedding.extractEmbeddingFrom1536 (v ++ repeat 0 (1536 - 384)) = v).
  { unfold Embedding.extractEmbeddingFrom1536. rewrite Hlen.
    change (1536 =? 384)%nat with false. cbv iota.
    rewrite firstn_app, H, Nat.sub_diag, firstn_0, app_nil_r.
    rewrite <- H. apply firstn_all. }
  split; [exact Hpad|]. split.
  - rewrite Hpad. unfold bind. now rewrite Hext.
  - unfold Advanced.padEmbeddingTo1536Compat. rewrite H.
    change (negb (384 =? 384)%nat) with false. cbv iota.
    rewrite Hpad. unfold bind.
    unfold Advanced.extractReal384Embedding. rewrite Hlen.
    change (negb (1536 =? 1536)%nat) with false. cbv iota.
    now rewrite Hext.
Qed.

Lemma C5_pad_extract_roundtrip_witness :
  List.length (basis 7) = 384%nat
  /\ (p <- Embedding.padEmbeddingTo1536 (basis 7) ;;
      Returned (Embedding.extractEmbeddingFrom1536 p)) = Returned (basis 7).
Proof.
  split; [reflexivity|].
  apply (C5_pad_extract_roundtrip (basis 7)). reflexivity.
Defined.

(* ================================================================== *)
(** * The orchestrator: dense ranking with lexical fallback *)

Lemma find_filter_None {A} (p q : A -> bool) l :
  find p l = None -> find p (filter q l) = None.
Proof.
  induction l as [|x l IH]; [reflexivity|].
  simpl. destruct (p x) eqn:Hp; [discriminate|].
  intros H. destruct (q x); simpl; [rewrite Hp|]; now apply IH.
Qed.

(** The options the fallback passes are the caller's, defaults filled in. *)
Lemma calculate_defaulted w targetFacultyId (options : Advanced.AdvancedOptions) :
  Lexical.calculateSimilarFaculty w targetFacultyId
    (Advanced.defaulted (default 10%Z (maxResults options))
       (default 0.1 (minSimilarity options)) options)
  = Lexical.calculateSimilarFaculty w targetFacultyId options.
Proof. destruct options as [[mr ms fs fd] ua]. reflexivity. Qed.

Lemma search_defaulted w query (options : Advanced.AdvancedOptions) :
  Lexical.searchSimilarFaculty w query
    (Advanced.defaulted (default 20%Z (maxResults options))
       (default 0.1 (minSimilarity options)) options)
  = Lexical.searchSimilarFaculty w query options.
Proof. destruct options as [[mr ms fs fd] ua]. reflexivity. Qed.

Lemma calculateSimilarFaculty_returns w targetFacultyId options :
  exists r, Lexical.calculateSimilarFaculty w targetFacultyId options = Returned r.
Proof.
  unfold Lexical.calculateSimilarFaculty.
  destruct (select_faculty w _ _); [|eexists; reflexivity].
  destruct (find _ _); [|eexists; reflexivity].
  cbv zeta. destruct (_ =? 0)%nat; eexists; reflexivity.
Qed.

Lemma searchSimilarFaculty_returns w query options :
  exists r, Lexical.searchSimilarFaculty w query options = Returned r.
Proof.
  unfold Lexical.searchSimilarFaculty.
  destruct (select_faculty w _ _); [|eexists; reflexivity].
  cbv zeta. destruct (_ =? 0)%nat; eexists; reflexivity.
Qed.

Lemma calculateSimilarFaculty_missing w targetFacultyId options :
  (forall rows,
      select_faculty w (filterSchool options) (filterDepartment options) = Some rows ->
      find (fun f => String.eqb (faculty_id f) targetFacultyId) rows = None) ->
  Lexical.calculateSimilarFaculty w targetFacultyId options = Returned [].
Proof.
  intros H. unfold Lexical.calculateSimilarFaculty.
  destruct (select_faculty w _ _) as [rows|]; [|reflexivity].
  now rewrite (H rows eq_refl).
Qed.

Lemma select_single_missing w targetFacultyId fs fd rows :
  select_single w targetFacultyId = None ->
  select_faculty w fs fd = Some rows ->
  find (fun f => String.eqb (faculty_id f) targetFacultyId) rows = None.
Proof.
  unfold select_single, select_faculty. destruct (db w) as [table|]; [|discriminate].
  intros Hf [= <-]. now apply find_filter_None.
Qed.

Lemma slice0_nil {A} k : slice0 (@nil A) k = [].
Proof. unfold slice0. destruct (k <? 0)%Z; apply firstn_nil. Qed.

Lemma searchSimilarFaculty_empty w query options :
  select_faculty w (filterSchool options) (filterDepartment options) = Some [] ->
  Lexical.searchSimilarFaculty w query options = Returned [].
Proof.
  intros H. unfold Lexical.searchSimilarFaculty. rewrite H. cbv zeta.
  destruct (_ =? 0)%nat; [reflexivity|].
  unfold Lexical.rank, Lexical.score_all. simpl. now rewrite slice0_nil.
Qed.

(** C1 (as amended): a target id that is absent is not an error.  The
    lexical [calculateSimilarFaculty] returns the empty list when the id is
    not in the fetched set, and [calculateAdvancedSimilarity] returns the
    empty list when the id is not in the table: from its dense block
    without a fallback, or from the lexical path when the dense path is
    not taken. *)
Theorem C1_missing_target_returns_empty :
  forall w targetFacultyId,
    (forall options : Options,
        (forall rows,
            select_faculty w (filterSchool options) (filterDepartment options)
            = Some rows ->
            find (fun f => String.eqb (faculty_id f) targetFacultyId) rows = None) ->
        Lexical.calculateSimilarFaculty w targetFacultyId options = Returned [])
    /\ (forall options : Advanced.AdvancedOptions,
           select_single w targetFacultyId = None ->
           Advanced.calculate_dense w targetFacultyId
             (default 10%Z (maxResults options)) (default 0.1 (minSimilarity options))
             options = Returned []
           /\ Advanced.calculateAdvancedSimilarity w targetFacultyId options
              = Returned []).
Proof.
  intros w targetFacultyId. split.
  - intros options. apply calculateSimilarFaculty_missing.
  - intros options Hmissing.
    assert (Hdense : Advanced.calculate_dense w targetFacultyId
                       (default 10%Z (maxResults options))
                       (default 0.1 (minSimilarity options)) options = Returned []).
    { unfold Advanced.calculate_dense. now rewrite Hmissing. }
    split; [exact Hdense|].
    unfold Advanced.calculateAdvancedSimilarity. cbv zeta.
    rewrite calculate_defaulted, Hdense.
    assert (Hlex : Lexical.calculateSimilarFaculty w targetFacultyId options = Returned []).
    { apply calculateSimilarFaculty_missing. intros rows.
      now apply select_single_missing. }
    destruct (negb _); [exact Hlex | reflexivity].
Qed.

Lemma C1_missing_target_returns_empty_witness :
  select_single sample_world "nobody" = None
  /\ Lexical.calculateSimilarFaculty sample_world "nobody" no_options = Returned []
  /\ Advanced.calculateAdvancedSimilarity sample_world "nobody" (advanced None)
     = Returned [].
Proof.
  split; [reflexivity|]. split.
  - apply (proj1 (C1_missing_target_returns_empty sample_world "nobody"%string) no_options).
    intros rows [= <-]. reflexivity.
  - apply (proj2 (C1_missing_target_returns_empty sample_world "nobody"%string)
             (advanced None)).
    reflexivity.
Defined.

(** C1 as stated fails: for an id that no row carries, both operations
    return the empty list as a normal result; nothing is thrown. *)
Lemma C1_missing_target_is_not_an_error :
  find (fun f => String.eqb (faculty_id f) "nobody") sample_table = None
  /\ Lexical.calculateSimilarFaculty sample_world "nobody" no_options = Returned []
  /\ Advanced.calculateAdvancedSimilarity sample_world "nobody" (advanced (Some true))
     = Returned []
  /\ Advanced.calculateAdvancedSimilarity sample_world "nobody" (advanced (Some false))
     = Returned []
  /\ ~ (exists e, Advanced.calculateAdvancedSimilarity sample_world "nobody"
                    (advanced (Some true)) = Thrown e).
Proof.
  repeat split; try (vm_compute; reflexivity).
  intros [e He]. vm_compute in He. discriminate.
Qed.

Lemma unreadable_throws l f :
  In f l -> has_embedding f = true -> readable f = false ->
  exists e,
    (paddedEmbeddings <- mapM parse_embedding l ;;
     mapM Advanced.real_embedding paddedEmbeddings) = Thrown e.
Proof.
  intros Hin Hemb Hbad. induction l as [|x l IH]; [contradiction|].
  simpl. destruct (parse_embedding x) as [v|e] eqn:Hp; simpl;
    [|eexists; reflexivity].
  destruct (mapM parse_embedding l) as [vs|e] eqn:Hl; simpl;
    [|eexists; reflexivity].
  destruct Hin as [->|Hin].
  - assert (Hv : exists e, Advanced.real_embedding v = Thrown e).
    { unfold parse_embedding, readable, Advanced.real_embedding in *.
      destruct (embedding f) as [[u|]|]; try discriminate.
      simpl in Hp. injection Hp as ->.
      apply orb_false_iff in Hbad. destruct Hbad as [H1 H2].
      rewrite H1, H2. eexists; reflexivity. }
    destruct Hv as [e ->]. eexists; reflexivity.
  - destruct (IH Hin) as [e He]. simpl in He.
    destruct (Advanced.real_embedding v); simpl; [|eexists; reflexivity].
    rewrite He. eexists; reflexivity.
Qed.

Lemma search_dense_throws w query maxRes minSim (options : Advanced.AdvancedOptions) :
  (forall rows,
      select_faculty w (filterSchool options) (filterDepartment options) = Some rows ->
      filter has_embedding rows = [])
  \/ (exists e, Embedding.generateEmbedding w query = Thrown e)
  \/ (exists rows f,
         select_faculty w (filterSchool options) (filterDepartment options) = Some rows
         /\ In f rows /\ has_embedding f = true /\ readable f = false) ->
  exists e, Advanced.search_dense w query maxRes minSim options = Thrown e.
Proof.
  unfold Advanced.search_dense.
  intros [Hnone | [[e He] | [rows [f [Hsel [Hin [Hemb Hbad]]]]]]].
  - destruct (select_faculty w _ _) as [rows|]; [|eexists; reflexivity].
    rewrite (Hnone rows eq_refl). eexists; reflexivity.
  - destruct (select_faculty w _ _) as [rows|]; [|eexists; reflexivity].
    cbv zeta. destruct (_ =? 0)%nat; [eexists; reflexivity|].
    rewrite He. eexists; reflexivity.
  - rewrite Hsel. cbv zeta. destruct (_ =? 0)%nat; [eexists; reflexivity|].
    destruct (Embedding.generateEmbedding w query); [|eexists; reflexivity].
    destruct (unreadable_throws (filter has_embedding rows) f) as [e He];
      [apply filter_In; split; assumption | assumption | assumption |].
    unfold bind at 1.
    unfold bind in He |- *.
    destruct (mapM parse_embedding _); [|eexists; reflexivity].
    rewrite He. eexists; reflexivity.
Qed.

Lemma searchAdvancedSimilarity_fallback w (options : Advanced.AdvancedOptions) query :
  Advanced.useAdvanced options = Some false
  \/ Advanced.testEmbeddingEnvironment w = false
  \/ (forall rows,
         select_faculty w (filterSchool options) (filterDepartment options)
         = Some rows ->
         filter has_embedding rows = [])
  \/ (exists e, Embedding.generateEmbedding w query = Thrown e)
  \/ (exists rows f,
         select_faculty w (filterSchool options) (filterDepartment options)
         = Some rows
         /\ In f rows /\ has_embedding f = true /\ readable f = false)
  \/ (exists e,
         Advanced.search_dense w query (default 20%Z (maxResults options))
           (default 0.1 (minSimilarity options)) options = Thrown e) ->
  Advanced.searchAdvancedSimilarity w query options
  = Lexical.searchSimilarFaculty w query options.
Proof.
  intros H.
  assert (Hcases :
            Advanced.useAdvanced options = Some false
            \/ Advanced.testEmbeddingEnvironment w = false
            \/ exists e,
                Advanced.search_dense w query (default 20%Z (maxResults options))
                  (default 0.1 (minSimilarity options)) options = Thrown e).
  { destruct H as [H | [H | [H | [H | [H | H]]]]]; auto;
      right; right; apply search_dense_throws; auto. }
  unfold Advanced.searchAdvancedSimilarity. cbv zeta. rewrite search_defaulted.
  destruct Hcases as [Hu | [Hp | [e He]]].
  - rewrite Hu. reflexivity.
  - rewrite Hp. destruct (default true _); reflexivity.
  - rewrite He. destruct (negb _); reflexivity.
Qed.

Lemma calculateAdvancedSimilarity_fallback w (options : Advanced.AdvancedOptions)
    targetFacultyId :
  Advanced.useAdvanced options = Some false
  \/ Advanced.testEmbeddingEnvironment w = false
  \/ (forall rows,
         select_faculty w (filterSchool options) (filterDepartment options)
         = Some rows ->
         filter has_embedding
           (filter (fun f => negb (String.eqb (faculty_id f) targetFacultyId))
              rows) = [])
  \/ (exists e,
         Advanced.calculate_dense w targetFacultyId
           (default 10%Z (maxResults options))
           (default 0.1 (minSimilarity options)) options = Thrown e) ->
  Advanced.calculateAdvancedSimilarity w targetFacultyId options
  = Lexical.calculateSimilarFaculty w targetFacultyId options.
Proof.
  intros H.
  unfold Advanced.calculateAdvancedSimilarity. cbv zeta. rewrite calculate_defaulted.
  destruct H as [Hu | [Hp | [Hnone | [e He]]]].
  - rewrite Hu. reflexivity.
  - rewrite Hp. destruct (default true _); reflexivity.
  - destruct (negb _); [reflexivity|].
    unfold Advanced.calculate_dense.
    destruct (select_single w targetFacultyId) as [targetFaculty|] eqn:Hs.
    + destruct (select_faculty w _ _) as [rows|] eqn:Hsel.
      * rewrite (Hnone rows eq_refl). reflexivity.
      * simpl. unfold Lexical.calculateSimilarFaculty. now rewrite Hsel.
    + simpl. symmetry. apply calculateSimilarFaculty_missing.
      intros rows. now apply select_single_missing.
  - rewrite He. destruct (negb _); reflexivity.
Qed.




(** C3 (as amended): a result set is the bare list of results and carries
    no provenance tag; the match and search operations never throw, and a
    call over an empty filtered set returns the empty list. *)
Theorem C3_results_untagged_never_thrown :
  forall w (options : Advanced.AdvancedOptions),
    (forall query, exists r : list SimilarityResult,
          Advanced.searchAdvancedSimilarity w query options = Returned r)
    /\ (forall targetFacultyId, exists r : list SimilarityResult,
           Advanced.calculateAdvancedSimilarity w targetFacultyId options = Returned r)
    /\ (select_faculty w (filterSchool options) (filterDepartment options) = Some [] ->
        (forall query,
            Advanced.searchAdvancedSimilarity w query options = Returned [])
        /\ (forall targetFacultyId,
               Advanced.calculateAdvancedSimilarity w targetFacultyId options
               = Returned [])).
Proof.
  intros w options. split; [|split].
  - intros query. unfold Advanced.searchAdvancedSimilarity. cbv zeta.
    rewrite search_defaulted.
    destruct (searchSimilarFaculty_returns w query options) as [r Hr].
    destruct (negb _); [exists r; exact Hr|].
    destruct (Advanced.search_dense _ _ _ _ _) as [d|e]; simpl;
      [exists d; reflexivity | exists r; exact Hr].
  - intros targetFacultyId. unfold Advanced.calculateAdvancedSimilarity. cbv zeta.
    rewrite calculate_defaulted.
    destruct (calculateSimilarFaculty_returns w targetFacultyId options) as [r Hr].
    destruct (negb _); [exists r; exact Hr|].
    destruct (Advanced.calculate_dense _ _ _ _ _) as [d|e]; simpl;
      [exists d; reflexivity | exists r; exact Hr].
  - intros Hempty. split.
    + intros query.
      rewrite searchAdvancedSimilarity_fallback.
      * now apply searchSimilarFaculty_empty.
      * right; right; left. intros rows Hrows. rewrite Hempty in Hrows.
        injection Hrows as <-. reflexivity.
    + intros targetFacultyId.
      rewrite calculateAdvancedSimilarity_fallback.
      * apply calculateSimilarFaculty_missing. intros rows Hrows.
        rewrite Hempty in Hrows. injection Hrows as <-. reflexivity.
      * right; right; left. intros rows Hrows. rewrite Hempty in Hrows.
        injection Hrows as <-. reflexivity.
Qed.

Lemma C3_results_untagged_never_thrown_witness :
  let options :=
    {| Advanced.lexical_options :=
         {| maxResults := None; minSimilarity := None;
            filterSchool := None; filterDepartment := Some "History"%string |};
       Advanced.useAdvanced := None |} in
  select_faculty sample_world (filterSchool options) (filterDepartment options) = Some []
  /\ Advanced.searchAdvancedSimilarity sample_world "robotics" options = Returned []
  /\ Advanced.calculateAdvancedSimilarity sample_world "F1" options = Returned [].
Proof.
  intros options. split; [reflexivity|].
  destruct (C3_results_untagged_never_thrown sample_world options) as [_ [_ Hempty]].
  destruct (Hempty eq_refl) as [Hsearch Hcalculate].
  split; [apply Hsearch | apply Hcalculate].
Defined.

(** C3 as stated fails: the value returned is a list of records with the
    fields faculty_id, name, title, school, department and similarity.  The
    dense path (probe passed, the dense block returned) and the lexical
    path (useAdvanced false) return the very same value, so nothing in it
    tells which path produced it. *)
Lemma C3_result_carries_no_provenance :
  let r := [ {| r_faculty_id := "F1"; r_name := "F1"; r_title := "Professor";
                r_school := "Engineering"; r_department := "Mechanical";
                similarity := 1 |} ]%string in
  Advanced.testEmbeddingEnvironment sample_world = true
  /\ Advanced.search_dense sample_world "robotics" 20 0.1 (advanced (Some true))
     = Returned r
  /\ Advanced.searchAdvancedSimilarity sample_world "robotics" (advanced (Some true))
     = Returned r
  /\ Lexical.searchSimilarFaculty sample_world "robotics" no_options = Returned r
  /\ Advanced.searchAdvancedSimilarity sample_world "robotics" (advanced (Some false))
     = Returned r.
Proof. intros r. repeat split; vm_compute; reflexivity. Qed.

(* ================================================================== *)
(** * Network graph: clusters *)

Lemma add_new_spec x seen :
  add_new String.eqb x seen
  = if existsb (fun y => String.eqb y x) seen then seen else seen ++ [x].
Proof.
  induction seen as [|y seen IH]; [reflexivity|].
  simpl. destruct (String.eqb y x); [reflexivity|].
  simpl. rewrite IH. destruct (existsb _ seen); reflexivity.
Qed.

Lemma filter_filter {A} (p q : A -> bool) l :
  filter p (filter q l) = filter (fun x => q x && p x) l.
Proof.
  induction l as [|x l IH]; [reflexivity|].
  simpl. destruct (q x); simpl; [destruct (p x)|]; now rewrite IH.
Qed.

Lemma Set_of_from seen l :
  fold_left (fun seen x => add_new String.eqb x seen) l seen
  = seen ++ filter (fun y => negb (existsb (fun z => String.eqb z y) seen))
              (first_occurrences l).
Proof.
  revert seen. induction l as [|x l IH]; intros seen.
  - simpl. now rewrite app_nil_r.
  - simpl. rewrite IH, add_new_spec.
    destruct (existsb (fun y => String.eqb y x) seen) eqn:Hx; simpl.
    + f_equal. rewrite filter_filter. apply filter_ext_in. intros y _.
      destruct (String.eqb_spec y x) as [->|Hyx]; [|reflexivity].
      simpl. now rewrite Hx.
    + rewrite <- app_assoc. simpl. f_equal. f_equal.
      rewrite filter_filter. apply filter_ext_in. intros y _.
      rewrite existsb_app. simpl. rewrite orb_false_r.
      rewrite (String.eqb_sym x y).
      destruct (String.eqb y x); simpl;
        [now rewrite orb_true_r | now rewrite orb_false_r].
Qed.

(** [[...new Set(l)]] lists the distinct elements in order of first
    occurrence. *)
Lemma Set_of_first_occurrences l : Set_of l = first_occurrences l.
Proof.
  unfold Set_of. rewrite Set_of_from. simpl.
  induction (first_occurrences l) as [|y r IH]; [reflexivity|].
  simpl. now rewrite IH.
Qed.

Lemma first_occurrences_In x l : In x (first_occurrences l) <-> In x l.
Proof.
  induction l as [|y l IH]; [reflexivity|].
  simpl. rewrite filter_In, IH.
  destruct (String.eqb_spec x y) as [->|Hxy].
  - split; auto.
  - split.
    + intros [H|[H _]]; auto.
    + intros [H|H]; [auto|]. right. split; [exact H | reflexivity].
Qed.

Lemma indexOf_from_found x l i :
  In x l ->
  (i <= indexOf_from x l i < i + Z.of_nat (List.length l))%Z
  /\ nth_error l (Z.to_nat (indexOf_from x l i - i)) = Some x.
Proof.
  revert i. induction l as [|y l IH]; intros i Hin; [contradiction|].
  simpl indexOf_from. destruct (String.eqb_spec y x) as [->|Hyx].
  - split; [simpl List.length; lia|]. now rewrite Z.sub_diag.
  - destruct Hin as [Hin|Hin]; [congruence|].
    destruct (IH (i + 1)%Z Hin) as [Hr Hn].
    split; [simpl List.length; lia|].
    replace (Z.to_nat (indexOf_from x l (i + 1) - i))
      with (S (Z.to_nat (indexOf_from x l (i + 1) - (i + 1)))) by lia.
    exact Hn.
Qed.

(** C9 (as amended): each node's cluster id is the index of the node's
    department within the list of distinct departments of the filtered set
    in order of first occurrence (not sorted), and its color is the palette
    entry at position (cluster id modulo palette size). *)
Theorem C9_cluster_of_department :
  forall faculty threshold maxConnections g,
    Network.buildGraph faculty threshold maxConnections = Returned g ->
    let departments := first_occurrences (map department faculty) in
    List.length (Network.nodes g) = List.length faculty
    /\ forall i f,
        nth_error faculty i = Some f ->
        exists n,
          nth_error (Network.nodes g) i = Some n
          /\ Network.id n = faculty_id f
          /\ Network.clusterId n = indexOf departments (department f)
          /\ (0 <= Network.clusterId n < Z.of_nat (List.length departments))%Z
          /\ nth_error departments (Z.to_nat (Network.clusterId n))
             = Some (department f)
          /\ Network.color n
             = nth_error Network.colors
                 (Z.to_nat (Network.clusterId n
                            mod Z.of_nat (List.length Network.colors)))
          /\ Network.color n <> None.
Proof.
  intros faculty threshold maxConnections g Hg departments.
  unfold Network.buildGraph in Hg.
  destruct (mapM Network.stored_vector faculty) as [embeddings|e]; [|discriminate].
  simpl in Hg. injection Hg as <-. simpl Network.nodes.
  unfold Network.departments_of. rewrite Set_of_first_occurrences.
  fold departments.
  split; [apply length_map|].
  intros i f Hf.
  exists (Network.node_of departments f).
  split; [now apply map_nth_error|].
  split; [reflexivity|]. split; [reflexivity|].
  assert (Hin : In (department f) departments).
  { apply first_occurrences_In, in_map, (nth_error_In _ _ Hf). }
  destruct (indexOf_from_found _ _ 0%Z Hin) as [Hrange Hnth].
  simpl Network.clusterId. fold (indexOf departments (department f)) in Hrange, Hnth.
  rewrite Z.sub_0_r in Hnth.
  split; [lia|]. split; [exact Hnth|].
  assert (Hcolor : Network.color (Network.node_of departments f)
                   = nth_error Network.colors
                       (Z.to_nat (indexOf departments (department f)
                                  mod Z.of_nat (List.length Network.colors)))).
  { simpl Network.color. unfold Network.at_index.
    change (Z.of_nat (List.length Network.colors)) with 8%Z.
    rewrite Z.rem_mod_nonneg by lia.
    pose proof (Z.mod_pos_bound (indexOf departments (department f)) 8) as Hb.
    destruct (Z.ltb_spec (indexOf departments (department f) mod 8) 0) as [Hneg|_];
      [lia | reflexivity]. }
  split; [exact Hcolor|].
  rewrite Hcolor. apply nth_error_Some.
  change (Z.of_nat (List.length Network.colors)) with 8%Z.
  pose proof (Z.mod_pos_bound (indexOf departments (department f)) 8) as Hb.
  change (List.length Network.colors) with 8%nat. lia.
Qed.

Lemma C9_cluster_of_department_witness :
  exists g,
    Network.buildGraph sample_table 0.25 10 = Returned g
    /\ List.length (Network.nodes g) = List.length sample_table
    /\ map Network.clusterId (Network.nodes g) = [0; 1]%Z.
Proof.
  eexists. split; [vm_compute; reflexivity|].
  split.
  - apply (C9_cluster_of_department sample_table 0.25 10%Z). vm_compute. reflexivity.
  - reflexivity.
Defined.

(** C9 as stated fails: the departments are not sorted.  With rows of
    departments Mechanical, Chemical (in this order) the cluster ids are 0
    and 1, while the indices within the sorted list of distinct
    departments are 1 and 0. *)
Lemma C9_departments_are_not_sorted :
  exists g,
    Network.buildGraph sample_table 0.25 10 = Returned g
    /\ map department sample_table = ["Mechanical"; "Chemical"]%string
    /\ map Network.clusterId (Network.nodes g) = [0; 1]%Z
    /\ map (fun f => indexOf (sort_strings (first_occurrences (map department sample_table)))
                       (department f)) sample_table = [1; 0]%Z.
Proof.
  eexists. split; [vm_compute; reflexivity|]. repeat split.
Qed.

(* ================================================================== *)
(** * Network graph: links *)

Lemma mapM_length {A B} (f : A -> outcome B) l ys :
  mapM f l = Returned ys -> List.length ys = List.length l.
Proof.
  revert ys. induction l as [|x l IH]; intros ys H.
  - injection H as <-. reflexivity.
  - simpl in H. destruct (f x); [|discriminate]. simpl in H.
    destruct (mapM f l) as [zs|]; [|discriminate]. simpl in H.
    injection H as <-. simpl. f_equal. now apply IH.
Qed.

Lemma insert_by_map {A B} (f : A -> B) (cmpA : A -> A -> float) (cmpB : B -> B -> float) x l :
  (forall a b, cmpB (f a) (f b) = cmpA a b) ->
  insert_by cmpB (f x) (map f l) = map f (insert_by cmpA x l).
Proof.
  intros H. induction l as [|y l IH]; [reflexivity|].
  simpl. rewrite H. destruct (0 <? cmpA x y); simpl; [now rewrite IH | reflexivity].
Qed.

Lemma Array_sort_map {A B} (f : A -> B) (cmpA : A -> A -> float) (cmpB : B -> B -> float) l :
  (forall a b, cmpB (f a) (f b) = cmpA a b) ->
  Array_sort cmpB (map f l) = map f (Array_sort cmpA l).
Proof.
  intros H. induction l as [|x l IH]; [reflexivity|].
  simpl. rewrite IH. now apply insert_by_map.
Qed.

Lemma slice0_map {A B} (f : A -> B) l k : slice0 (map f l) k = map f (slice0 l k).
Proof.
  unfold slice0. rewrite length_map. destruct (k <? 0)%Z; apply firstn_map.
Qed.

Lemma NoDup_firstn {A} n (l : list A) : NoDup l -> NoDup (firstn n l).
Proof.
  intros H. rewrite <- (firstn_skipn n l) in H. now apply NoDup_app_remove_r in H.
Qed.

Lemma NoDup_slice0 {A} (l : list A) k : NoDup l -> NoDup (slice0 l k).
Proof. unfold slice0. destruct (k <? 0)%Z; apply NoDup_firstn. Qed.

Lemma NoDup_flat_map {A B} (g : A -> list B) l :
  NoDup l ->
  (forall x, In x l -> NoDup (g x)) ->
  (forall x y a, In x l -> In y l -> In a (g x) -> In a (g y) -> x = y) ->
  NoDup (flat_map g l).
Proof.
  induction l as [|x l IH]; intros Hl Hg Hd; simpl; [constructor|].
  inversion Hl as [|? ? Hx Hl']; subst.
  apply NoDup_app.
  - apply Hg. left; reflexivity.
  - apply IH; [assumption | |].
    + intros y Hy. apply Hg. right; assumption.
    + intros y z a Hy Hz. apply Hd; right; assumption.
  - intros a Ha Hin. apply in_flat_map in Hin. destruct Hin as [y [Hy Hay]].
    assert (x = y) by (apply (Hd x y a); simpl; auto).
    subst. contradiction.
Qed.

Lemma id_at_inj faculty i j :
  NoDup (map faculty_id faculty) ->
  (i < List.length faculty)%nat -> (j < List.length faculty)%nat ->
  Network.id_at faculty i = Network.id_at faculty j -> i = j.
Proof.
  intros Hnd Hi Hj Heq.
  apply (proj1 (NoDup_nth_error _) Hnd); [now rewrite length_map|].
  rewrite !nth_error_map. unfold Network.id_at, row_id_at in Heq.
  destruct (nth_error faculty i) as [fi|] eqn:Ei;
    [|apply nth_error_None in Ei; lia].
  destruct (nth_error faculty j) as [fj|] eqn:Ej;
    [|apply nth_error_None in Ej; lia].
  simpl. now f_equal.
Qed.

(** The inner loop, as the partners of node [i] that reach the threshold. *)
Lemma connections_of_partners faculty embeddings threshold i :
  List.length embeddings = List.length faculty ->
  Network.connections_of faculty embeddings threshold i
  = map (conn_of faculty) (forward_partners embeddings threshold i).
Proof.
  intros Hlen. unfold Network.connections_of, forward_partners, later_pairs.
  rewrite Hlen.
  induction (seq (i + 1) (List.length faculty - (i + 1))) as [|j l IH]; [reflexivity|].
  simpl. rewrite IH.
  destruct (threshold <=? _); reflexivity.
Qed.

Lemma links_of_top faculty embeddings threshold maxConnections i :
  List.length embeddings = List.length faculty ->
  Network.links_of faculty embeddings threshold maxConnections i
  = map (link_of faculty i) (forward_top embeddings threshold maxConnections i).
Proof.
  intros Hlen. unfold Network.links_of, forward_top.
  rewrite (connections_of_partners _ _ _ _ Hlen).
  rewrite (Array_sort_map (conn_of faculty) (fun a b => snd b - snd a))
    by reflexivity.
  rewrite slice0_map, map_map. reflexivity.
Qed.

Lemma forward_partners_In embeddings threshold i p :
  In p (forward_partners embeddings threshold i) ->
  (i < fst p < List.length embeddings)%nat
  /\ (threshold <=? snd p) = true
  /\ snd p = Network.calculateCosineSimilarity (nth i embeddings [])
               (nth (fst p) embeddings []).
Proof.
  unfold forward_partners, later_pairs. intros H.
  apply filter_In in H. destruct H as [H Ht].
  apply in_map_iff in H. destruct H as [j [<- Hj]]. apply in_seq in Hj.
  simpl. repeat split; try lia. exact Ht.
Qed.

Lemma forward_top_In embeddings threshold maxConnections i p :
  In p (forward_top embeddings threshold maxConnections i) ->
  In p (forward_partners embeddings threshold i).
Proof.
  unfold forward_top. intros H. apply slice0_incl in H.
  now apply (proj1 (Array_sort_In snd _ _)) in H.
Qed.

Lemma forward_partners_NoDup embeddings threshold i :
  NoDup (map fst (forward_partners embeddings threshold i)).
Proof.
  unfold forward_partners, later_pairs.
  pose proof (seq_NoDup (List.length embeddings - (i + 1)) (i + 1)) as Hnd.
  induction (seq (i + 1) (List.length embeddings - (i + 1))) as [|j l IH];
    [constructor|].
  inversion Hnd as [|? ? Hj Hl]; subst.
  simpl. destruct (threshold <=? _); [|now apply IH].
  simpl. constructor; [|now apply IH].
  intros Hin. apply Hj. apply in_map_iff in Hin. destruct Hin as [p [Hp Hin]].
  apply filter_In in Hin. destruct Hin as [Hin _].
  apply in_map_iff in Hin. destruct Hin as [k [<- Hk]]. simpl in Hp. now subst.
Qed.

Lemma forward_top_NoDup embeddings threshold maxConnections i :
  NoDup (map fst (forward_top embeddings threshold maxConnections i)).
Proof.
  unfold forward_top. rewrite <- slice0_map. apply NoDup_slice0.
  eapply Permutation_NoDup; [|apply (forward_partners_NoDup embeddings threshold i)].
  apply Permutation_map, Permutation_sym, (Array_sort_Permutation snd).
Qed.

(** The links of the graph, node by node. *)
Lemma buildGraph_links faculty threshold maxConnections g :
  Network.buildGraph faculty threshold maxConnections = Returned g ->
  exists embeddings,
    mapM Network.stored_vector faculty = Returned embeddings
    /\ List.length embeddings = List.length faculty
    /\ Network.links g
       = flat_map (fun i => map (link_of faculty i)
                              (forward_top embeddings threshold maxConnections i))
           (seq 0 (List.length faculty)).
Proof.
  unfold Network.buildGraph. intros H.
  destruct (mapM Network.stored_vector faculty) as [embeddings|e] eqn:He;
    [|discriminate].
  simpl in H. injection H as <-.
  pose proof (mapM_length _ _ _ He) as Hlen.
  exists embeddings. split; [reflexivity|]. split; [exact Hlen|].
  simpl. apply flat_map_ext. intros i. now apply links_of_top.
Qed.

(** Where a link comes from: a node and one of its kept later partners. *)
Lemma link_origin faculty embeddings threshold maxConnections l :
  In l (flat_map (fun i => map (link_of faculty i)
                             (forward_top embeddings threshold maxConnections i))
          (seq 0 (List.length faculty))) ->
  exists i p,
    (i < List.length faculty)%nat
    /\ In p (forward_top embeddings threshold maxConnections i)
    /\ l = link_of faculty i p.
Proof.
  intros H. apply in_flat_map in H. destruct H as [i [Hi H]].
  apply in_map_iff in H. destruct H as [p [<- Hp]].
  apply in_seq in Hi. exists i, p. repeat split; [lia | assumption].
Qed.

Lemma map_flat_map {A B C} (f : B -> C) (g : A -> list B) l :
  map f (flat_map g l) = flat_map (fun x => map f (g x)) l.
Proof.
  induction l as [|x l IH]; [reflexivity|].
  simpl. now rewrite map_app, IH.
Qed.

(** C7: for every faculty set (rows with distinct faculty_id, the primary
    key), threshold and maxConnections, the edge list of the graph has no
    self-edge, no two edges connecting the same unordered pair of nodes,
    and no edge whose similarity is below threshold. *)
Theorem C7_edge_invariants :
  forall faculty threshold maxConnections g,
    NoDup (map faculty_id faculty) ->
    Network.buildGraph faculty threshold maxConnections = Returned g ->
    (forall l, In l (Network.links g) -> Network.source l <> Network.target l)
    /\ NoDup (map (fun l => (Network.source l, Network.target l)) (Network.links g))
    /\ (forall l1 l2,
           In l1 (Network.links g) -> In l2 (Network.links g) ->
           ~ (Network.source l1 = Network.target l2
              /\ Network.target l1 = Network.source l2))
    /\ (forall l, In l (Network.links g) ->
                  (threshold <=? Network.l_similarity l) = true).
Proof.
  intros faculty threshold maxConnections g Hnd Hg.
  destruct (buildGraph_links _ _ _ _ Hg) as [embeddings [_ [Hlen Hlinks]]].
  rewrite Hlinks. clear Hlinks Hg g.
  assert (Horigin :
            forall l,
              In l (flat_map (fun i => map (link_of faculty i)
                                         (forward_top embeddings threshold maxConnections i))
                      (seq 0 (List.length faculty))) ->
              exists i j s,
                (i < j < List.length faculty)%nat
                /\ (threshold <=? s) = true
                /\ In (j, s) (forward_top embeddings threshold maxConnections i)
                /\ l = link_of faculty i (j, s)).
  { intros l Hl. destruct (link_origin _ _ _ _ _ Hl) as [i [[j s] [Hi [Hp ->]]]].
    pose proof (forward_partners_In _ _ _ _ (forward_top_In _ _ _ _ _ Hp)) as [Hr [Ht _]].
    simpl in Hr, Ht. rewrite Hlen in Hr.
    exists i, j, s. repeat split; try assumption; lia. }
  split; [|split; [|split]].
  - intros l Hl. destruct (Horigin l Hl) as [i [j [s [Hr [_ [_ ->]]]]]].
    simpl. intros Heq. apply (id_at_inj faculty i j Hnd) in Heq; lia.
  - rewrite map_flat_map. apply NoDup_flat_map.
    + apply seq_NoDup.
    + intros i Hi. apply in_seq in Hi. rewrite map_map. simpl.
      rewrite <- (map_map fst (fun j => (Network.id_at faculty i, Network.id_at faculty j))).
      apply NoDup_map_NoDup_ForallPairs; [|apply forward_top_NoDup].
      intros x y Hx Hy Heq. injection Heq as Heq.
      apply in_map_iff in Hx. destruct Hx as [px [<- Hx]].
      apply in_map_iff in Hy. destruct Hy as [py [<- Hy]].
      pose proof (forward_partners_In _ _ _ _ (forward_top_In _ _ _ _ _ Hx)) as [Hrx _].
      pose proof (forward_partners_In _ _ _ _ (forward_top_In _ _ _ _ _ Hy)) as [Hry _].
      apply (id_at_inj faculty _ _ Hnd); [lia | lia | exact Heq].
    + intros i i' a Hi Hi' Ha Ha'. apply in_seq in Hi. apply in_seq in Hi'.
      apply in_map_iff in Ha. destruct Ha as [l [<- Hl]].
      apply in_map_iff in Hl. destruct Hl as [p [<- _]].
      apply in_map_iff in Ha'. destruct Ha' as [l' [Heq Hl']].
      apply in_map_iff in Hl'. destruct Hl' as [p' [<- _]].
      simpl in Heq. injection Heq as Heq _.
      symmetry. apply (id_at_inj faculty _ _ Hnd); [lia | lia | exact Heq].
  - intros l1 l2 H1 H2 [Hst Hts].
    destruct (Horigin l1 H1) as [i1 [j1 [s1 [Hr1 [_ [_ ->]]]]]].
    destruct (Horigin l2 H2) as [i2 [j2 [s2 [Hr2 [_ [_ ->]]]]]].
    simpl in Hst, Hts.
    apply (id_at_inj faculty _ _ Hnd) in Hst; [|lia|lia].
    apply (id_at_inj faculty _ _ Hnd) in Hts; [|lia|lia].
    lia.
  - intros l Hl. destruct (Horigin l Hl) as [i [j [s [_ [Ht [_ ->]]]]]].
    exact Ht.
Qed.

Lemma C7_edge_invariants_witness :
  exists g,
    Network.buildGraph triangle_table 0.25 10 = Returned g
    /\ NoDup (map faculty_id triangle_table)
    /\ List.length (Network.links g) = 3%nat
    /\ (forall l, In l (Network.links g) -> Network.source l <> Network.target l)
    /\ NoDup (map (fun l => (Network.source l, Network.target l)) (Network.links g))
    /\ (forall l, In l (Network.links g) -> (0.25 <=? Network.l_similarity l) = true).
Proof.
  eexists. split; [vm_compute; reflexivity|].
  assert (Hnd : NoDup (map faculty_id triangle_table)).
  { repeat constructor; simpl; intuition discriminate. }
  split; [exact Hnd|]. split; [reflexivity|].
  destruct (C7_edge_invariants triangle_table 0.25 10%Z _ Hnd ltac:(vm_compute; reflexivity))
    as [Hself [Hdup [_ Hthreshold]]].
  repeat split; assumption.
Defined.

Lemma linked_iff faculty embeddings threshold maxConnections i j :
  NoDup (map faculty_id faculty) ->
  List.length embeddings = List.length faculty ->
  (i < List.length faculty)%nat -> (j < List.length faculty)%nat ->
  linked faculty
    (flat_map (fun i => map (link_of faculty i)
                          (forward_top embeddings threshold maxConnections i))
       (seq 0 (List.length faculty))) i j = true
  <-> ((i < j)%nat
       /\ In j (map fst (forward_top embeddings threshold maxConnections i)))
      \/ ((j < i)%nat
          /\ In i (map fst (forward_top embeddings threshold maxConnections j))).
Proof.
  intros Hnd Hlen Hi Hj. unfold linked. rewrite existsb_exists. split.
  - intros [l [Hl Hc]].
    destruct (link_origin _ _ _ _ _ Hl) as [i' [p [Hi' [Hp ->]]]].
    pose proof (forward_partners_In _ _ _ _ (forward_top_In _ _ _ _ _ Hp)) as [Hr _].
    rewrite Hlen in Hr. simpl in Hc.
    apply orb_true_iff in Hc.
    destruct Hc as [Hc|Hc]; apply andb_true_iff in Hc; destruct Hc as [Hs Ht];
      apply String.eqb_eq in Hs; apply String.eqb_eq in Ht;
      apply (id_at_inj faculty _ _ Hnd) in Hs; try lia;
      apply (id_at_inj faculty _ _ Hnd) in Ht; try lia; subst.
    + left. split; [lia | now apply in_map].
    + right. split; [lia | now apply in_map].
  - intros [[Hij Hin] | [Hji Hin]]; apply in_map_iff in Hin;
      destruct Hin as [p [Hf Hp]].
    + exists (link_of faculty i p). split.
      * apply in_flat_map. exists i. split; [apply in_seq; lia | now apply in_map].
      * simpl. rewrite Hf, !String.eqb_refl. reflexivity.
    + exists (link_of faculty j p). split.
      * apply in_flat_map. exists j. split; [apply in_seq; lia | now apply in_map].
      * simpl. rewrite Hf, !String.eqb_refl. simpl. apply orb_true_r.
Qed.

(** C8 (as amended): the cap is per node over that node's kept pairs with
    later nodes only.  For every node i, its pairs (i, j) with j > i and
    similarity >= threshold are sorted descending by similarity and at most
    maxConnections of them (for maxConnections >= 0) are kept; the edge list
    is the concatenation of these over the nodes; so an edge between i and
    j, i < j, appears exactly when j is within the top maxConnections of
    i's later partners.  How i ranks among j's partners plays no part. *)
Theorem C8_cap_over_later_partners :
  forall faculty threshold maxConnections g,
    NoDup (map faculty_id faculty) ->
    Network.buildGraph faculty threshold maxConnections = Returned g ->
    exists embeddings,
      mapM Network.stored_vector faculty = Returned embeddings
      /\ Network.links g
         = flat_map (fun i => map (link_of faculty i)
                                (forward_top embeddings threshold maxConnections i))
             (seq 0 (List.length faculty))
      /\ (forall i j,
             (i < List.length faculty)%nat -> (j < List.length faculty)%nat ->
             linked faculty (Network.links g) i j = true
             <-> ((i < j)%nat
                  /\ In j (map fst (forward_top embeddings threshold maxConnections i)))
                 \/ ((j < i)%nat
                     /\ In i (map fst (forward_top embeddings threshold
                                         maxConnections j))))
      /\ (forall i,
             (0 <= maxConnections)%Z ->
             ranked snd threshold maxConnections (later_pairs embeddings i)
               (forward_top embeddings threshold maxConnections i)).
Proof.
  intros faculty threshold maxConnections g Hnd Hg.
  destruct (buildGraph_links _ _ _ _ Hg) as [embeddings [He [Hlen Hlinks]]].
  exists embeddings. split; [exact He|]. split; [exact Hlinks|]. split.
  - intros i j Hi Hj. rewrite Hlinks. now apply linked_iff.
  - intros i Hk. unfold forward_top, forward_partners.
    now apply (rank_ranked snd).
Qed.

Lemma C8_cap_over_later_partners_witness :
  exists g,
    Network.buildGraph triangle_table 0.25 1 = Returned g
    /\ NoDup (map faculty_id triangle_table)
    /\ map (fun l => (Network.source l, Network.target l)) (Network.links g)
       = [("A", "C"); ("B", "C")]%string
    /\ (linked triangle_table (Network.links g) 1 2 = true
        <-> ((1 < 2)%nat
             /\ In 2%nat (map fst (forward_top triangle_embeddings 0.25 1 1)))
            \/ ((2 < 1)%nat
                /\ In 1%nat (map fst (forward_top triangle_embeddings 0.25 1 2))))
    /\ ranked snd 0.25 1 (later_pairs triangle_embeddings 0)
         (forward_top triangle_embeddings 0.25 1 0).
Proof.
  eexists. split; [vm_compute; reflexivity|].
  assert (Hnd : NoDup (map faculty_id triangle_table)).
  { repeat constructor; simpl; intuition discriminate. }
  split; [exact Hnd|]. split; [reflexivity|].
  destruct (C8_cap_over_later_partners triangle_table 0.25 1%Z _ Hnd
              ltac:(vm_compute; reflexivity))
    as [embeddings [He [_ [Hlinked Hranked]]]].
  assert (Hemb : embeddings = triangle_embeddings).
  { vm_compute in He. injection He as <-. reflexivity. }
  subst embeddings. split.
  - apply Hlinked; simpl; lia.
  - apply Hranked. lia.
Defined.

(** C8 as stated fails.  With three rows A, B, C, maxConnections = 1 and
    similarities s(A,C) > s(A,B) > s(B,C) >= threshold, the edge B-C is in
    the graph although neither endpoint has the other in its own top-1 over
    all its pairs (both rank A first), the edge A-B is absent although A is
    B's own top-1, and C ends with two edges. *)
Lemma C8_cap_is_not_over_all_pairs :
  exists g,
    Network.buildGraph triangle_table 0.25 1 = Returned g
    /\ mapM Network.stored_vector triangle_table = Returned triangle_embeddings
    /\ map (spec_top triangle_embeddings 0.25 1) [0; 1; 2]%nat = [[2]; [0]; [0]]%nat
    /\ linked triangle_table (Network.links g) 1 2 = true
    /\ spec_edge triangle_embeddings 0.25 1 1 2 = false
    /\ linked triangle_table (Network.links g) 0 1 = false
    /\ spec_edge triangle_embeddings 0.25 1 0 1 = true
    /\ List.length (filter (fun l => String.eqb (Network.target l) "C") (Network.links g))
       = 2%nat.
Proof.
  eexists. split; [vm_compute; reflexivity|].
  repeat split; vm_compute; reflexivity.
Qed.

(* ================================================================== *)
(** * Batch embedding *)

Lemma batches_of_concat {A} size fuel (l : list A) :
  (0 < size)%nat -> (List.length l <= fuel)%nat ->
  List.concat (Embedding.batches_of size fuel l) = l.
Proof.
  intros Hs. revert l. induction fuel as [|fuel IH]; intros l Hl.
  - destruct l; [reflexivity | simpl in Hl; lia].
  - destruct l as [|x l]; [reflexivity|].
    change (Embedding.batches_of size (S fuel) (x :: l))
      with (firstn size (x :: l) :: Embedding.batches_of size fuel (skipn size (x :: l))).
    simpl List.concat. rewrite IH; [apply firstn_skipn|].
    rewrite length_skipn. change (List.length (x :: l)) with (S (List.length l)) in *.
    lia.
Qed.

Lemma mapM_app {A B} (f : A -> outcome B) l1 l2 :
  mapM f (l1 ++ l2)
  = (y1 <- mapM f l1 ;; y2 <- mapM f l2 ;; Returned (y1 ++ y2)).
Proof.
  induction l1 as [|x l1 IH]; simpl.
  - destruct (mapM f l2); reflexivity.
  - destruct (f x); [|reflexivity]. simpl. rewrite IH.
    destruct (mapM f l1); [|reflexivity]. simpl.
    destruct (mapM f l2); reflexivity.
Qed.

Lemma mapM_batches {A B} (f : A -> outcome B) (batches : list (list A)) :
  (outputs <- mapM (fun batch => mapM f batch) batches ;; Returned (List.concat outputs))
  = mapM f (List.concat batches).
Proof.
  induction batches as [|b bs IH]; [reflexivity|].
  simpl. rewrite mapM_app, <- IH.
  destruct (mapM f b); [|reflexivity]. simpl.
  destruct (mapM (fun batch => mapM f batch) bs); reflexivity.
Qed.

Lemma mapM_total {A B} (f : A -> outcome B) l :
  (forall x, exists v, f x = Returned v) -> exists ys, mapM f l = Returned ys.
Proof.
  intros H. induction l as [|x l [ys IH]]; [eexists; reflexivity|].
  destruct (H x) as [v Hv]. simpl. rewrite Hv, IH. eexists; reflexivity.
Qed.

(** With a provider that answers every text, the batch function returns
    one vector per text that does not clean to the empty string -- unless
    all of them do, when it returns one zero vector per text. *)
Lemma generateEmbeddings_length w texts :
  (forall text, exists v, pipe w text = Returned v) ->
  exists r,
    Embedding.generateEmbeddings w texts = Returned r
    /\ List.length r
       = let cleanedTexts :=
           filter (fun t => (0 <? String.length t)%nat) (map Embedding.cleanText texts) in
         if (List.length cleanedTexts =? 0)%nat
         then List.length texts else List.length cleanedTexts.
Proof.
  intros Hpipe. unfold Embedding.generateEmbeddings. cbv zeta.
  destruct (_ =? 0)%nat.
  - eexists. split; [reflexivity | apply length_map].
  - rewrite mapM_batches, batches_of_concat by lia.
    destruct (mapM_total (pipe w)
                (filter (fun t => (0 <? String.length t)%nat)
                   (map Embedding.cleanText texts)) Hpipe) as [ys Hys].
    exists ys. split; [exact Hys | now apply mapM_length in Hys].
Qed.


(* ================================================================== *)
(** * Text: tokens and cleaned texts *)

(** A fact about one character, by cases on its eight bits. *)
Ltac each_char c := destruct c as [[] [] [] [] [] [] [] []]; vm_compute; try reflexivity; try discriminate; auto.

Lemma lowered_word_is_token c : is_word (lower_char c) = true -> is_token_char (lower_char c) = true.
Proof. each_char c. Qed.

Lemma word_not_space c : is_word c = true -> is_space c = false.
Proof. each_char c. Qed.

Lemma lower_char_word c : is_word (lower_char c) = is_word c.
Proof. each_char c. Qed.

Lemma lower_char_space c : is_space (lower_char c) = is_space c.
Proof. each_char c. Qed.

Lemma token_char_not_space c : is_token_char c = true -> is_space c = false.
Proof. each_char c. Qed.

Lemma token_char_word c : is_token_char c = true -> is_word c = true.
Proof. each_char c. Qed.

Lemma string_forall_impl (p q : ascii -> bool) s :
  (forall c, p c = true -> q c = true) ->
  string_forall p s = true -> string_forall q s = true.
Proof.
  intros H. induction s as [|c s IH]; [reflexivity|].
  simpl. intros Hs. apply andb_true_iff in Hs. destruct Hs as [Hc Hs].
  rewrite (H c Hc). now apply IH.
Qed.

Lemma string_forall_ext (p q : ascii -> bool) s :
  (forall c, p c = q c) -> string_forall p s = string_forall q s.
Proof.
  intros H. induction s as [|c s IH]; [reflexivity|]. simpl. now rewrite H, IH.
Qed.

(** The pieces of [split_ws] hold the characters of the string that are not
    white space. *)
Lemma split_ws_chars (q : ascii -> bool) s :
  string_forall (fun c => is_space c || q c) s = true ->
  Forall (fun t => string_forall (fun c => negb (is_space c) && q c) t = true) (split_ws s).
Proof.
  induction s as [|c s IH]; intros H.
  - repeat constructor.
  - simpl in H. apply andb_true_iff in H. destruct H as [Hc Hs].
    specialize (IH Hs). simpl.
    destruct (is_space c) eqn:Hsp.
    + destruct (starts_with_space s); [exact IH | constructor; [reflexivity | exact IH]].
    + simpl in Hc. destruct (split_ws s) as [|t ts].
      * repeat constructor. simpl. now rewrite Hsp, Hc.
      * inversion IH as [|? ? Ht Hts]; subst. constructor; [|exact Hts].
        simpl. now rewrite Hsp, Hc, Ht.
Qed.

Lemma strip_lower_chars text :
  string_forall (fun c => is_space c || is_token_char c)
    (strip_punctuation (toLowerCase text)) = true.
Proof.
  induction text as [|c s IH]; [reflexivity|].
  simpl. rewrite IH, andb_true_r.
  each_char c.
Qed.

Lemma tokenize_Forall text :
  Forall (fun t => (2 < String.length t)%nat
                   /\ Lexical.includes Lexical.stop_words t = false
                   /\ string_forall is_token_char t = true)
    (Lexical.tokenize text).
Proof.
  unfold Lexical.tokenize. apply Forall_forall. intros t Ht.
  apply filter_In in Ht. destruct Ht as [Ht Hstop].
  apply filter_In in Ht. destruct Ht as [Ht Hlen].
  split; [now apply Nat.ltb_lt in Hlen|].
  split; [now apply negb_true_iff in Hstop|].
  pose proof (split_ws_chars is_token_char _ (strip_lower_chars text)) as Hall.
  rewrite Forall_forall in Hall. specialize (Hall t Ht).
  eapply string_forall_impl; [|exact Hall].
  intros c Hc. apply andb_true_iff in Hc. apply Hc.
Qed.

Lemma blank_toLowerCase s : blank (toLowerCase s) = blank s.
Proof.
  unfold blank. induction s as [|c s IH]; [reflexivity|].
  simpl. now rewrite IH, lower_char_word.
Qed.

Lemma blank_collapse_ws s : blank (collapse_ws s) = blank s.
Proof.
  unfold blank. induction s as [|c s IH]; [reflexivity|].
  simpl. destruct (is_space c) eqn:Hsp.
  - assert (Hw : is_word c = false).
    { destruct (is_word c) eqn:Hw; [|reflexivity].
      apply word_not_space in Hw. congruence. }
    rewrite Hw. simpl.
    destruct (starts_with_space s); [exact IH|]. simpl. exact IH.
  - simpl. now rewrite IH.
Qed.

Lemma strip_all_space s :
  string_forall is_space (strip_punctuation s) = blank s.
Proof.
  unfold blank. induction s as [|c s IH]; [reflexivity|].
  simpl. rewrite IH. f_equal.
  destruct (is_word c) eqn:Hw; simpl.
  - now apply word_not_space.
  - destruct (is_space c) eqn:Hsp; [exact Hsp | reflexivity].
Qed.

Lemma trimStart_all_space s :
  string_forall is_space (trimStart s) = string_forall is_space s.
Proof.
  induction s as [|c s IH]; [reflexivity|].
  simpl. destruct (is_space c) eqn:Hsp; simpl; [exact IH | now rewrite Hsp].
Qed.

Lemma trimEnd_empty s :
  is_empty (trimEnd s) = string_forall is_space s.
Proof.
  induction s as [|c s IH]; [reflexivity|].
  simpl. destruct (trimEnd s) as [|d t]; simpl in *.
  - rewrite <- IH, andb_true_r. destruct (is_space c); reflexivity.
  - rewrite <- IH. now rewrite andb_false_r.
Qed.

Lemma trim_empty s : is_empty (trim s) = string_forall is_space s.
Proof. unfold trim. now rewrite trimEnd_empty, trimStart_all_space. Qed.

Lemma cleanText_empty text : is_empty (Embedding.cleanText text) = blank text.
Proof.
  unfold Embedding.cleanText.
  now rewrite trim_empty, strip_all_space, blank_collapse_ws, blank_toLowerCase.
Qed.

Lemma split_ws_all_space s :
  string_forall is_space s = true -> Forall (fun t => t = EmptyString) (split_ws s).
Proof.
  induction s as [|c s IH]; [repeat constructor|].
  simpl. intros H. apply andb_true_iff in H. destruct H as [Hc Hs].
  rewrite Hc. specialize (IH Hs).
  destruct (starts_with_space s); [exact IH | constructor; [reflexivity | exact IH]].
Qed.

Lemma tokenize_blank text : blank text = true -> Lexical.tokenize text = [].
Proof.
  intros H. unfold Lexical.tokenize.
  assert (Hsp : string_forall is_space (strip_punctuation (toLowerCase text)) = true)
    by (now rewrite strip_all_space, blank_toLowerCase).
  apply split_ws_all_space in Hsp.
  induction Hsp as [|t l -> _ IH]; [reflexivity|]. simpl. exact IH.
Qed.

(** X1: every token that [tokenize] returns has at least three characters,
    all of them lowercase letters, digits or underscores, and is none of
    the stop words; a text without a letter, digit or underscore has no
    token at all. *)
Theorem tokenize_tokens : forall text,
  Forall (fun t => (2 < String.length t)%nat
                   /\ Lexical.includes Lexical.stop_words t = false
                   /\ string_forall is_token_char t = true)
    (Lexical.tokenize text)
  /\ (blank text = true -> Lexical.tokenize text = []).
Proof.
  intros text. split; [apply tokenize_Forall | apply tokenize_blank].
Qed.

Lemma trimStart_forall p s :
  string_forall p s = true -> string_forall p (trimStart s) = true.
Proof.
  induction s as [|c s IH]; [reflexivity|].
  intros H. simpl. destruct (is_space c); [|exact H].
  simpl in H. apply andb_true_iff in H. now apply IH.
Qed.

Lemma trimEnd_forall p s :
  string_forall p s = true -> string_forall p (trimEnd s) = true.
Proof.
  induction s as [|c s IH]; [reflexivity|].
  simpl. intros H. apply andb_true_iff in H. destruct H as [Hc Hs].
  specialize (IH Hs).
  destruct (trimEnd s) as [|d t].
  - destruct (is_space c); [reflexivity|]. simpl. now rewrite Hc.
  - simpl in *. now rewrite Hc, IH.
Qed.

Lemma trimStart_start s : starts_with_space (trimStart s) = false.
Proof.
  induction s as [|c s IH]; [reflexivity|].
  simpl. destruct (is_space c) eqn:Hsp; [exact IH | simpl; exact Hsp].
Qed.

Lemma trimEnd_start s :
  starts_with_space s = false -> starts_with_space (trimEnd s) = false.
Proof.
  destruct s as [|c s]; [reflexivity|].
  simpl. intros Hc. destruct (trimEnd s); rewrite ?Hc; simpl; try rewrite Hc; reflexivity.
Qed.

Lemma trimEnd_end s : ends_with_space (trimEnd s) = false.
Proof.
  induction s as [|c s IH]; [reflexivity|].
  simpl. destruct (trimEnd s) as [|d t].
  - destruct (is_space c) eqn:Hsp; [reflexivity | simpl; exact Hsp].
  - exact IH.
Qed.

Lemma collapse_ws_chars s :
  string_forall (fun c => negb (is_space c) || Ascii.eqb c space) (collapse_ws s) = true.
Proof.
  induction s as [|c s IH]; [reflexivity|].
  simpl. destruct (is_space c) eqn:Hsp.
  - destruct (starts_with_space s); [exact IH|]. simpl. exact IH.
  - simpl. now rewrite Hsp, IH.
Qed.

Lemma collapse_ws_lowered s :
  string_forall (fun c => Ascii.eqb (lower_char c) c) s = true ->
  string_forall (fun c => Ascii.eqb (lower_char c) c) (collapse_ws s) = true.
Proof.
  induction s as [|c s IH]; [reflexivity|].
  simpl. intros H. apply andb_true_iff in H. destruct H as [Hc Hs].
  destruct (is_space c).
  - destruct (starts_with_space s); [now apply IH|]. simpl. now apply IH.
  - simpl. now rewrite Hc, IH.
Qed.

Lemma toLowerCase_lowered s :
  string_forall (fun c => Ascii.eqb (lower_char c) c) (toLowerCase s) = true.
Proof.
  induction s as [|c s IH]; [reflexivity|].
  simpl. rewrite IH, andb_true_r. each_char c.
Qed.

Lemma string_forall_and p q s :
  string_forall p s = true -> string_forall q s = true ->
  string_forall (fun c => p c && q c) s = true.
Proof.
  induction s as [|c s IH]; [reflexivity|].
  simpl. intros Hp Hq.
  apply andb_true_iff in Hp. apply andb_true_iff in Hq.
  destruct Hp as [-> Hp], Hq as [-> Hq]. simpl. now apply IH.
Qed.

Lemma strip_chars s :
  string_forall (fun c => Ascii.eqb (lower_char c) c
                          && (negb (is_space c) || Ascii.eqb c space)) s = true ->
  string_forall (fun c => is_token_char c || Ascii.eqb c space) (strip_punctuation s) = true.
Proof.
  induction s as [|c s IH]; [reflexivity|].
  simpl. intros H. apply andb_true_iff in H. destruct H as [Hc Hs].
  rewrite (IH Hs), andb_true_r. clear IH Hs. revert Hc. each_char c.
Qed.

Lemma cleanText_chars text :
  string_forall (fun c => is_token_char c || Ascii.eqb c space) (Embedding.cleanText text) = true.
Proof.
  unfold Embedding.cleanText, trim.
  apply trimEnd_forall, trimStart_forall, strip_chars, string_forall_and.
  - apply collapse_ws_lowered, toLowerCase_lowered.
  - apply collapse_ws_chars.
Qed.

(** X2: the text [cleanText] returns consists of lowercase letters, digits,
    underscores and the space character only, neither starts nor ends with
    white space, and is empty exactly when the given text holds no letter,
    digit or underscore. *)
Theorem cleanText_shape : forall text,
  string_forall (fun c => is_token_char c || Ascii.eqb c space) (Embedding.cleanText text) = true
  /\ starts_with_space (Embedding.cleanText text) = false
  /\ ends_with_space (Embedding.cleanText text) = false
  /\ is_empty (Embedding.cleanText text) = blank text.
Proof.
  intros text. split; [apply cleanText_chars|]. split; [|split].
  - unfold Embedding.cleanText, trim. apply trimEnd_start, trimStart_start.
  - unfold Embedding.cleanText, trim. apply trimEnd_end.
  - apply cleanText_empty.
Qed.

(* ================================================================== *)
(** * Scores that are zero or NaN *)

Lemma zero_or_nan_spec x : zero_or_nan x = SFzn (Prim2SF x).
Proof.
  unfold zero_or_nan. rewrite !eqb_spec.
  change (Prim2SF 0) with (S754_zero false).
  destruct (Prim2SF x) as [[]|[]| |[] m e]; try reflexivity.
  - unfold SFeqb. simpl. now rewrite Pos.compare_cont_refl, Z.compare_refl.
  - unfold SFeqb. simpl. now rewrite Pos.compare_cont_refl, Z.compare_refl.
Qed.

Lemma zn_zero : zero_or_nan 0 = true.
Proof. reflexivity. Qed.

Lemma zn_mul_l x y : zero_or_nan x = true -> zero_or_nan (x * y) = true.
Proof.
  rewrite !zero_or_nan_spec, mul_spec. unfold SF64mul.
  destruct (Prim2SF x) as [[]|[]| |[] mx ex], (Prim2SF y) as [[]|[]| |[] my ey];
    simpl; intros H; try reflexivity; discriminate.
Qed.

Lemma zn_mul_r x y : zero_or_nan y = true -> zero_or_nan (x * y) = true.
Proof.
  rewrite !zero_or_nan_spec, mul_spec. unfold SF64mul.
  destruct (Prim2SF x) as [[]|[]| |[] mx ex], (Prim2SF y) as [[]|[]| |[] my ey];
    simpl; intros H; try reflexivity; discriminate.
Qed.

Lemma zn_add x y : zero_or_nan x = true -> zero_or_nan y = true -> zero_or_nan (x + y) = true.
Proof.
  rewrite !zero_or_nan_spec, add_spec. unfold SF64add.
  destruct (Prim2SF x) as [[]|[]| |[] mx ex], (Prim2SF y) as [[]|[]| |[] my ey];
    simpl; intros H1 H2; try reflexivity; discriminate.
Qed.

Lemma zn_div x y : zero_or_nan x = true -> zero_or_nan (x / y) = true.
Proof.
  rewrite !zero_or_nan_spec, div_spec. unfold SF64div.
  destruct (Prim2SF x) as [[]|[]| |[] mx ex], (Prim2SF y) as [[]|[]| |[] my ey];
    simpl; intros H; try reflexivity; discriminate.
Qed.

(** A score that is zero or NaN does not reach a positive threshold. *)
Lemma zn_below m x : (m <=? 0) = false -> zero_or_nan x = true -> (m <=? x) = false.
Proof.
  rewrite zero_or_nan_spec, !leb_spec.
  change (Prim2SF 0) with (S754_zero false).
  destruct (Prim2SF x) as [[]|[]| |[] mx ex]; simpl; try discriminate; intros H _;
    destruct (Prim2SF m) as [[]|[]| |[] mm em]; try reflexivity; try exact H.
Qed.

Lemma dot_zn l s :
  zero_or_nan s = true ->
  Forall (fun p : float * float => zero_or_nan (fst p) || zero_or_nan (snd p) = true) l ->
  zero_or_nan (fold_left (fun s '(x, y) => s + x * y) l s) = true.
Proof.
  intros Hs H. revert s Hs. induction H as [|[x y] l Hp _ IH]; intros s Hs; [exact Hs|].
  simpl. apply IH. apply zn_add; [exact Hs|].
  simpl in Hp. apply orb_true_iff in Hp. destruct Hp; [now apply zn_mul_l | now apply zn_mul_r].
Qed.

Lemma Lexical_cosine a b :
  Lexical.cosineSimilarity a b =
  if (List.length a =? List.length b)%nat
  then (if (norm a =? 0) || (norm b =? 0) then 0 else dot a b / (norm a * norm b))
  else 0.
Proof.
  unfold Lexical.cosineSimilarity.
  destruct (Nat.eqb_spec (List.length a) (List.length b)) as [H|H]; [|reflexivity].
  simpl. now rewrite (loop_sums a b H).
Qed.

Lemma Lexical_cosine_zn a b :
  Forall (fun p : float * float => zero_or_nan (fst p) || zero_or_nan (snd p) = true)
    (combine a b) ->
  zero_or_nan (Lexical.cosineSimilarity a b) = true.
Proof.
  intros H. rewrite Lexical_cosine.
  destruct (_ =? _)%nat; [|reflexivity].
  destruct (_ || _); [reflexivity|].
  apply zn_div. unfold dot. now apply dot_zn.
Qed.

(* ================================================================== *)
(** * Lexical ranking: a match shares a token *)

Lemma includes_In l x : Lexical.includes l x = true <-> In x l.
Proof.
  unfold Lexical.includes. rewrite existsb_exists. split.
  - intros [y [Hy He]]. apply String.eqb_eq in He. now subst.
  - intros H. exists x. split; [exact H | apply String.eqb_refl].
Qed.

Lemma shares_token_true a b :
  shares_token a b = true -> exists t, In t a /\ In t b.
Proof.
  unfold shares_token. rewrite existsb_exists. intros [t [Ht Hb]].
  exists t. split; [exact Ht | now apply includes_In].
Qed.

Lemma shares_token_false a b t :
  shares_token a b = false -> In t a -> In t b -> False.
Proof.
  unfold shares_token. intros H Ha Hb.
  assert (existsb (fun t => Lexical.includes b t) a = true).
  { apply existsb_exists. exists t. split; [exact Ha | now apply includes_In]. }
  congruence.
Qed.

Lemma Map_get_absent m k : ~ In k (map fst m) -> Map_get m k = None.
Proof.
  induction m as [|[k' v] m IH]; [reflexivity|].
  simpl. intros H. destruct (String.eqb_spec k' k) as [->|Hk]; [tauto|].
  apply IH. tauto.
Qed.

Lemma Map_set_keys m k v k' :
  In k' (map fst (Map_set m k v)) -> k' = k \/ In k' (map fst m).
Proof.
  induction m as [|[k0 v0] m IH]; simpl.
  - intros [H|[]]; auto.
  - destruct (String.eqb_spec k0 k) as [->|Hk]; simpl.
    + intros [H|H]; auto.
    + intros [H|H]; auto. destruct (IH H); auto.
Qed.

Lemma counts_keys tokens m0 k :
  In k (map fst (fold_left (fun m token => Map_set m token (get_or_zero m token + 1)) tokens m0)) ->
  In k tokens \/ In k (map fst m0).
Proof.
  revert m0. induction tokens as [|t tokens IH]; intros m0 H; [auto|].
  simpl in H. apply IH in H. destruct H as [H|H]; [left; right; exact H|].
  apply Map_set_keys in H. destruct H as [->|H]; [left; left; reflexivity | right; exact H].
Qed.

Lemma normalise_keys (total : float) l m0 k :
  In k (map fst (fold_left (fun m '(term, count) => Map_set m term (count / total)) l m0)) ->
  In k (map fst l) \/ In k (map fst m0).
Proof.
  revert m0. induction l as [|[t c] l IH]; intros m0 H; [auto|].
  simpl in H. apply IH in H. destruct H as [H|H]; [left; right; exact H|].
  apply Map_set_keys in H. destruct H as [->|H]; [left; left; reflexivity | right; exact H].
Qed.

(** A term that is no token of the document has no entry in its TF map. *)
Lemma calculateTF_absent tokens k :
  ~ In k tokens -> Map_get (Lexical.calculateTF tokens) k = None.
Proof.
  intros H. apply Map_get_absent. intros Hin. apply H.
  unfold Lexical.calculateTF in Hin. cbv zeta in Hin.
  apply normalise_keys in Hin.
  assert (Hk : In k (map fst (fold_left (fun m token => Map_set m token (get_or_zero m token + 1))
                                tokens []))) by tauto.
  apply counts_keys in Hk. destruct Hk as [Hk|[]]. exact Hk.
Qed.

Lemma combine_map {A B C} (f : A -> B) (g : A -> C) l :
  combine (map f l) (map g l) = map (fun x => (f x, g x)) l.
Proof. induction l as [|x l IH]; [reflexivity|]. simpl. now rewrite IH. Qed.

(** Documents without a common token score zero or NaN. *)
Lemma disjoint_documents_zn a b idf allTerms :
  shares_token a b = false ->
  zero_or_nan
    (Lexical.cosineSimilarity
       (Lexical.calculateTFIDF (Lexical.calculateTF a) idf allTerms)
       (Lexical.calculateTFIDF (Lexical.calculateTF b) idf allTerms)) = true.
Proof.
  intros Hd. apply Lexical_cosine_zn.
  unfold Lexical.calculateTFIDF. rewrite combine_map.
  apply Forall_forall. intros p Hp. apply in_map_iff in Hp.
  destruct Hp as [term [<- _]]. simpl.
  destruct (in_dec string_dec term a) as [Ha|Ha].
  - assert (Hb : ~ In term b) by (intros Hb; exact (shares_token_false a b term Hd Ha Hb)).
    apply orb_true_iff. right.
    unfold get_or_zero at 1. rewrite (calculateTF_absent b term Hb).
    now apply zn_mul_l.
  - apply orb_true_iff. left.
    unfold get_or_zero at 1. rewrite (calculateTF_absent a term Ha).
    now apply zn_mul_l.
Qed.

Lemma rank_In scored minSim maxRes x :
  In x (Lexical.rank scored minSim maxRes) ->
  In x scored /\ (minSim <=? similarity x) = true.
Proof.
  unfold Lexical.rank. intros H. apply slice0_incl in H.
  apply (proj1 (Array_sort_In similarity _ _)) in H.
  now apply filter_In in H.
Qed.

Lemma score_all_In idf allTerms v candidates x :
  In x (Lexical.score_all idf allTerms v candidates) ->
  exists f, In f candidates
            /\ x = Lexical.result_of f
                     (Lexical.cosineSimilarity v
                        (Lexical.calculateTFIDF
                           (Lexical.calculateTF (Lexical.tokenize (keywords f))) idf allTerms)).
Proof.
  unfold Lexical.score_all. intros H. apply in_map_iff in H.
  destruct H as [f [<- Hf]]. exists f. split; [exact Hf | reflexivity].
Qed.

Lemma search_match_shares_token w query options r x :
  (default 0.1 (minSimilarity options) <=? 0) = false ->
  Lexical.searchSimilarFaculty w query options = Returned r -> In x r ->
  exists rows f t,
    select_faculty w (filterSchool options) (filterDepartment options) = Some rows
    /\ In f rows
    /\ x = Lexical.result_of f (similarity x)
    /\ In t (Lexical.tokenize query)
    /\ In t (Lexical.tokenize (keywords f)).
Proof.
  intros Hmin Hr Hx. unfold Lexical.searchSimilarFaculty in Hr.
  destruct (select_faculty w _ _) as [rows|] eqn:Hsel;
    [|injection Hr as <-; contradiction].
  cbv zeta in Hr. destruct (_ =? 0)%nat; [injection Hr as <-; contradiction|].
  injection Hr as <-.
  apply rank_In in Hx. destruct Hx as [Hx Hge].
  apply score_all_In in Hx. destruct Hx as [f [Hf Hxf]].
  destruct (shares_token (Lexical.tokenize query) (Lexical.tokenize (keywords f))) eqn:Hs.
  - apply shares_token_true in Hs. destruct Hs as [t [Hq Hk]].
    exists rows, f, t. repeat split; try assumption.
    rewrite Hxf at 1. rewrite Hxf. reflexivity.
  - exfalso.
    pose proof (disjoint_documents_zn _ _
                  (Lexical.calculateIDF (Math_log w)
                     (Lexical.tokenize query :: map (fun f => Lexical.tokenize (keywords f)) rows))
                  (Lexical.vocabulary
                     (Lexical.tokenize query :: map (fun f => Lexical.tokenize (keywords f)) rows))
                  Hs) as Hzn.
    rewrite Hxf in Hge. simpl similarity in Hge.
    rewrite (zn_below _ _ Hmin Hzn) in Hge. discriminate.
Qed.

Lemma record_match_shares_token w targetFacultyId options r x :
  (default 0.1 (minSimilarity options) <=? 0) = false ->
  Lexical.calculateSimilarFaculty w targetFacultyId options = Returned r -> In x r ->
  exists rows targetFaculty f t,
    select_faculty w (filterSchool options) (filterDepartment options) = Some rows
    /\ find (fun f => String.eqb (faculty_id f) targetFacultyId) rows = Some targetFaculty
    /\ In f rows
    /\ faculty_id f <> targetFacultyId
    /\ x = Lexical.result_of f (similarity x)
    /\ In t (Lexical.tokenize (keywords targetFaculty))
    /\ In t (Lexical.tokenize (keywords f)).
Proof.
  intros Hmin Hr Hx. unfold Lexical.calculateSimilarFaculty in Hr.
  destruct (select_faculty w _ _) as [rows|] eqn:Hsel;
    [|injection Hr as <-; contradiction].
  destruct (find _ rows) as [targetFaculty|] eqn:Hfind;
    [|injection Hr as <-; contradiction].
  cbv zeta in Hr. destruct (_ =? 0)%nat; [injection Hr as <-; contradiction|].
  injection Hr as <-.
  apply rank_In in Hx. destruct Hx as [Hx Hge].
  apply score_all_In in Hx. destruct Hx as [f [Hf Hxf]].
  apply filter_In in Hf. destruct Hf as [Hf Hne].
  apply negb_true_iff in Hne. apply String.eqb_neq in Hne.
  destruct (shares_token (Lexical.tokenize (keywords targetFaculty))
              (Lexical.tokenize (keywords f))) eqn:Hs.
  - apply shares_token_true in Hs. destruct Hs as [t [Hq Hk]].
    exists rows, targetFaculty, f, t. repeat split; try assumption.
    rewrite Hxf at 1. rewrite Hxf. reflexivity.
  - exfalso.
    pose proof (disjoint_documents_zn _ _
                  (Lexical.calculateIDF (Math_log w)
                     (map (fun f => Lexical.tokenize (keywords f)) rows))
                  (Lexical.vocabulary
                     (map (fun f => Lexical.tokenize (keywords f)) rows))
                  Hs) as Hzn.
    rewrite Hxf in Hge. simpl similarity in Hge.
    rewrite (zn_below _ _ Hmin Hzn) in Hge. discriminate.
Qed.

Lemma searchSimilarFaculty_no_tokens w query options :
  Lexical.tokenize query = [] ->
  (default 0.1 (minSimilarity options) <=? 0) = false ->
  Lexical.searchSimilarFaculty w query options = Returned [].
Proof.
  intros Ht Hmin.
  destruct (searchSimilarFaculty_returns w query options) as [r Hr].
  rewrite Hr. destruct r as [|x r]; [reflexivity|]. exfalso.
  destruct (search_match_shares_token w query options _ x Hmin Hr (or_introl eq_refl))
    as [rows [f [t [_ [_ [_ [Hq _]]]]]]].
  rewrite Ht in Hq. contradiction.
Qed.

(** X9: with a minSimilarity above zero (the default), every result of the
    lexical ranking shares at least one token with the query (search mode)
    or with the keywords of the target (record mode); so a query without
    tokens, such as one made of stop words only, returns the empty list. *)
Theorem lexical_match_shares_a_token :
  forall w options,
    (default 0.1 (minSimilarity options) <=? 0) = false ->
    (forall query r x,
        Lexical.searchSimilarFaculty w query options = Returned r -> In x r ->
        exists rows f t,
          select_faculty w (filterSchool options) (filterDepartment options) = Some rows
          /\ In f rows
          /\ x = Lexical.result_of f (similarity x)
          /\ In t (Lexical.tokenize query)
          /\ In t (Lexical.tokenize (keywords f)))
    /\ (forall targetFacultyId r x,
           Lexical.calculateSimilarFaculty w targetFacultyId options = Returned r ->
           In x r ->
           exists rows targetFaculty f t,
             select_faculty w (filterSchool options) (filterDepartment options) = Some rows
             /\ find (fun f => String.eqb (faculty_id f) targetFacultyId) rows
                = Some targetFaculty
             /\ In f rows
             /\ faculty_id f <> targetFacultyId
             /\ x = Lexical.result_of f (similarity x)
             /\ In t (Lexical.tokenize (keywords targetFaculty))
             /\ In t (Lexical.tokenize (keywords f)))
    /\ (forall query,
           Lexical.tokenize query = [] ->
           Lexical.searchSimilarFaculty w query options = Returned []).
Proof.
  intros w options Hmin. split; [|split].
  - intros query r x. now apply search_match_shares_token.
  - intros targetFacultyId r x. now apply record_match_shares_token.
  - intros query Ht. now apply searchSimilarFaculty_no_tokens.
Qed.

Lemma lexical_match_shares_a_token_witness :
  let x := {| r_faculty_id := "F1"; r_name := "F1"; r_title := "Professor";
              r_school := "Engineering"; r_department := "Mechanical";
              similarity := 1 |}%string in
  (default 0.1 (minSimilarity no_options) <=? 0) = false
  /\ Lexical.searchSimilarFaculty sample_world "robotics" no_options = Returned [x]
  /\ (exists rows f t,
         select_faculty sample_world None None = Some rows
         /\ In f rows
         /\ x = Lexical.result_of f (similarity x)
         /\ In t (Lexical.tokenize "robotics")
         /\ In t (Lexical.tokenize (keywords f)))
  /\ Lexical.searchSimilarFaculty sample_world "the and for" no_options = Returned [].
Proof.
  intros x.
  destruct (lexical_match_shares_a_token sample_world no_options eq_refl)
    as [Hsearch [_ Hnone]].
  split; [reflexivity|]. split; [vm_compute; reflexivity|]. split.
  - apply (Hsearch "robotics"%string [x] x); [vm_compute; reflexivity | left; reflexivity].
  - apply Hnone. reflexivity.
Defined.

(* ================================================================== *)
(** * Results are rows of the table *)

Lemma select_faculty_In w (options : Options) rows f :
  select_faculty w (filterSchool options) (filterDepartment options) = Some rows ->
  In f rows -> candidate_row w options f.
Proof.
  unfold select_faculty, candidate_row. destruct (db w) as [table|]; [|discriminate].
  intros [= <-] Hf. apply filter_In in Hf. destruct Hf as [Hf Hp].
  apply andb_true_iff in Hp. exists table. tauto.
Qed.

Lemma row_of_result f s : row_of f (Lexical.result_of f s).
Proof. repeat split. Qed.

Lemma calculateSimilarFaculty_In w targetFacultyId options r x :
  Lexical.calculateSimilarFaculty w targetFacultyId options = Returned r -> In x r ->
  exists f, candidate_row w options f /\ row_of f x /\ faculty_id f <> targetFacultyId.
Proof.
  intros Hr Hx. unfold Lexical.calculateSimilarFaculty in Hr.
  destruct (select_faculty w _ _) as [rows|] eqn:Hsel;
    [|injection Hr as <-; contradiction].
  destruct (find _ rows) as [targetFaculty|] eqn:Hfind;
    [|injection Hr as <-; contradiction].
  cbv zeta in Hr. destruct (_ =? 0)%nat; [injection Hr as <-; contradiction|].
  injection Hr as <-.
  apply rank_In in Hx. destruct Hx as [Hx _].
  apply score_all_In in Hx. destruct Hx as [f [Hf ->]].
  apply filter_In in Hf. destruct Hf as [Hf Hne].
  apply negb_true_iff in Hne. apply String.eqb_neq in Hne.
  exists f. split; [eapply select_faculty_In; eassumption|].
  split; [apply row_of_result | exact Hne].
Qed.

Lemma searchSimilarFaculty_In w query options r x :
  Lexical.searchSimilarFaculty w query options = Returned r -> In x r ->
  exists f, candidate_row w options f /\ row_of f x.
Proof.
  intros Hr Hx. unfold Lexical.searchSimilarFaculty in Hr.
  destruct (select_faculty w _ _) as [rows|] eqn:Hsel;
    [|injection Hr as <-; contradiction].
  cbv zeta in Hr. destruct (_ =? 0)%nat; [injection Hr as <-; contradiction|].
  injection Hr as <-.
  apply rank_In in Hx. destruct Hx as [Hx _].
  apply score_all_In in Hx. destruct Hx as [f [Hf ->]].
  exists f. split; [eapply select_faculty_In; eassumption | apply row_of_result].
Qed.

Lemma cosine_scores_fst {T} (embedding_of : T -> list float) q candidates scored :
  cosine_scores embedding_of q candidates = Returned scored ->
  map fst scored = candidates.
Proof.
  unfold cosine_scores. revert scored.
  induction candidates as [|c l IH]; intros scored H.
  - injection H as <-. reflexivity.
  - simpl in H.
    destruct (Embedding.cosineSimilarity q (embedding_of c)) as [s|]; [|discriminate].
    simpl in H. destruct (mapM _ l) as [rest|]; [|discriminate].
    simpl in H. injection H as <-. simpl. f_equal. now apply IH.
Qed.

Lemma cosine_scores_In {T} (embedding_of : T -> list float) q candidates scored item :
  cosine_scores embedding_of q candidates = Returned scored -> In item scored ->
  In (fst item) candidates
  /\ Embedding.cosineSimilarity q (embedding_of (fst item)) = Returned (snd item).
Proof.
  unfold cosine_scores. revert scored.
  induction candidates as [|c l IH]; intros scored H Hin.
  - injection H as <-. contradiction.
  - simpl in H.
    destruct (Embedding.cosineSimilarity q (embedding_of c)) as [s|] eqn:Hc; [|discriminate].
    simpl in H. destruct (mapM _ l) as [rest|]; [|discriminate].
    simpl in H. injection H as <-.
    destruct Hin as [<-|Hin].
    + split; [left; reflexivity | exact Hc].
    + destruct (IH rest eq_refl Hin) as [H1 H2]. split; [right; exact H1 | exact H2].
Qed.

Lemma findSimilar_returned {T} (embedding_of : T -> list float) q candidates topK minSim r :
  Embedding.findSimilar embedding_of q candidates topK minSim = Returned r ->
  exists scored,
    cosine_scores embedding_of q candidates = Returned scored
    /\ r = slice0 (Array_sort (fun a b => snd b - snd a)
                     (filter (fun item => minSim <=? snd item) scored)) topK.
Proof.
  rewrite findSimilar_scores.
  destruct (cosine_scores embedding_of q candidates) as [scored|]; [|discriminate].
  simpl. intros [= <-]. exists scored. split; reflexivity.
Qed.

Lemma findSimilarFaculty_cases t embs data topK thr :
  Advanced.findSimilarFaculty t embs data topK thr = []
  \/ exists scored,
       (List.length embs <= List.length data)%nat
       /\ cosine_scores fst t (combine embs data) = Returned scored
       /\ Advanced.findSimilarFaculty t embs data topK thr
          = map result_of_item
              (slice0 (Array_sort (fun a b => snd b - snd a)
                         (filter (fun item => thr <=? snd item) scored)) topK).
Proof.
  unfold Advanced.findSimilarFaculty.
  destruct (Nat.ltb_spec (List.length data) (List.length embs)) as [Hlt|Hle]; [left; reflexivity|].
  cbv zeta.
  destruct (Embedding.findSimilar fst t (combine embs data) topK thr) as [r|] eqn:Hr;
    [|left; reflexivity].
  apply findSimilar_returned in Hr. destruct Hr as [scored [Hs ->]].
  right. exists scored. repeat split; assumption.
Qed.

Lemma findSimilarFaculty_In t embs data topK thr x :
  In x (Advanced.findSimilarFaculty t embs data topK thr) ->
  exists d, In d data
            /\ r_faculty_id x = Advanced.d_faculty_id d /\ r_name x = Advanced.d_name d
            /\ r_title x = Advanced.d_title d /\ r_school x = Advanced.d_school d
            /\ r_department x = Advanced.d_department d.
Proof.
  destruct (findSimilarFaculty_cases t embs data topK thr) as [->|[scored [_ [Hs ->]]]];
    [contradiction|].
  intros Hx. apply in_map_iff in Hx. destruct Hx as [item [<- Hitem]].
  apply slice0_incl in Hitem. apply (proj1 (Array_sort_In snd _ _)) in Hitem.
  apply filter_In in Hitem. destruct Hitem as [Hitem _].
  destruct (cosine_scores_In _ _ _ _ _ Hs Hitem) as [Hc _].
  destruct item as [[e d] s]. simpl in *. apply in_combine_r in Hc.
  exists d. repeat split. exact Hc.
Qed.

Lemma data_of_In d l :
  In d (map Advanced.data_of l) ->
  exists f, In f l
            /\ Advanced.d_faculty_id d = faculty_id f /\ Advanced.d_name d = name f
            /\ Advanced.d_title d = title f /\ Advanced.d_school d = school f
            /\ Advanced.d_department d = department f.
Proof.
  intros H. apply in_map_iff in H. destruct H as [f [<- Hf]].
  exists f. repeat split. exact Hf.
Qed.

Lemma calculate_dense_returned w targetFacultyId maxRes minSim (options : Advanced.AdvancedOptions) r :
  Advanced.calculate_dense w targetFacultyId maxRes minSim options = Returned r ->
  r = []
  \/ exists rows t embs,
       select_faculty w (filterSchool options) (filterDepartment options) = Some rows
       /\ r = Advanced.findSimilarFaculty t embs
                (map Advanced.data_of
                   (filter has_embedding
                      (filter (fun f => negb (String.eqb (faculty_id f) targetFacultyId)) rows)))
                maxRes minSim.
Proof.
  unfold Advanced.calculate_dense.
  destruct (select_single w targetFacultyId) as [targetFaculty|]; [|intros [= <-]; now left].
  destruct (select_faculty w _ _) as [rows|] eqn:Hsel; [|intros [= <-]; now left].
  cbv zeta. destruct (_ =? 0)%nat; [discriminate|].
  match goal with |- bind ?m _ = _ -> _ => destruct m as [t|]; [|discriminate] end.
  simpl. destruct (mapM parse_embedding _) as [padded|]; [|discriminate].
  simpl. destruct (mapM Advanced.real_embedding padded) as [embs|]; [|discriminate].
  simpl. intros [= <-]. right. exists rows, t, embs. split; reflexivity.
Qed.

Lemma search_dense_returned w query maxRes minSim (options : Advanced.AdvancedOptions) r :
  Advanced.search_dense w query maxRes minSim options = Returned r ->
  exists rows t embs,
    select_faculty w (filterSchool options) (filterDepartment options) = Some rows
    /\ r = Advanced.findSimilarFaculty t embs
             (map Advanced.data_of (filter has_embedding rows)) maxRes minSim.
Proof.
  unfold Advanced.search_dense.
  destruct (select_faculty w _ _) as [rows|] eqn:Hsel; [|discriminate].
  cbv zeta. destruct (_ =? 0)%nat; [discriminate|].
  destruct (Embedding.generateEmbedding w query) as [t|]; [|discriminate].
  simpl. destruct (mapM parse_embedding _) as [padded|]; [|discriminate].
  simpl. destruct (mapM Advanced.real_embedding padded) as [embs|]; [|discriminate].
  simpl. intros [= <-]. exists rows, t, embs. split; reflexivity.
Qed.

Lemma calculate_dense_In w targetFacultyId maxRes minSim (options : Advanced.AdvancedOptions) r x :
  Advanced.calculate_dense w targetFacultyId maxRes minSim options = Returned r -> In x r ->
  exists f, candidate_row w options f /\ row_of f x /\ faculty_id f <> targetFacultyId.
Proof.
  intros Hr Hx. apply calculate_dense_returned in Hr.
  destruct Hr as [->|[rows [t [embs [Hsel ->]]]]]; [contradiction|].
  apply findSimilarFaculty_In in Hx. destruct Hx as [d [Hd Hfields]].
  apply data_of_In in Hd. destruct Hd as [f [Hf Hdf]].
  apply filter_In in Hf. destruct Hf as [Hf _].
  apply filter_In in Hf. destruct Hf as [Hf Hne].
  apply negb_true_iff in Hne. apply String.eqb_neq in Hne.
  exists f. split; [eapply select_faculty_In; eassumption|].
  split; [|exact Hne].
  unfold row_of. intuition congruence.
Qed.

Lemma search_dense_In w query maxRes minSim (options : Advanced.AdvancedOptions) r x :
  Advanced.search_dense w query maxRes minSim options = Returned r -> In x r ->
  exists f, candidate_row w options f /\ row_of f x.
Proof.
  intros Hr Hx. apply search_dense_returned in Hr.
  destruct Hr as [rows [t [embs [Hsel ->]]]].
  apply findSimilarFaculty_In in Hx. destruct Hx as [d [Hd Hfields]].
  apply data_of_In in Hd. destruct Hd as [f [Hf Hdf]].
  apply filter_In in Hf. destruct Hf as [Hf _].
  exists f. split; [eapply select_faculty_In; eassumption|].
  unfold row_of. intuition congruence.
Qed.

(** The two ways a result of the orchestrators arises. *)
Lemma calculateAdvancedSimilarity_paths w targetFacultyId (options : Advanced.AdvancedOptions) r :
  Advanced.calculateAdvancedSimilarity w targetFacultyId options = Returned r ->
  Lexical.calculateSimilarFaculty w targetFacultyId options = Returned r
  \/ Advanced.calculate_dense w targetFacultyId (default 10%Z (maxResults options))
       (default 0.1 (minSimilarity options)) options = Returned r.
Proof.
  unfold Advanced.calculateAdvancedSimilarity. cbv zeta. rewrite calculate_defaulted.
  destruct (negb _); [now left|].
  destruct (Advanced.calculate_dense _ _ _ _ _) as [d|e]; simpl; [|now left].
  intros [= <-]. now right.
Qed.

Lemma searchAdvancedSimilarity_paths w query (options : Advanced.AdvancedOptions) r :
  Advanced.searchAdvancedSimilarity w query options = Returned r ->
  Lexical.searchSimilarFaculty w query options = Returned r
  \/ Advanced.search_dense w query (default 20%Z (maxResults options))
       (default 0.1 (minSimilarity options)) options = Returned r.
Proof.
  unfold Advanced.searchAdvancedSimilarity. cbv zeta. rewrite search_defaulted.
  destruct (negb _); [now left|].
  destruct (Advanced.search_dense _ _ _ _ _) as [d|e]; simpl; [|now left].
  intros [= <-]. now right.
Qed.

(** X10: every result of the match and search operations, lexical or
    dense, describes a row of the table that passes the school and
    department filters of the call; in record mode that row is never the
    target itself. *)
Theorem results_are_filtered_rows :
  forall w (options : Advanced.AdvancedOptions),
    (forall targetFacultyId r x,
        Lexical.calculateSimilarFaculty w targetFacultyId options = Returned r
        \/ Advanced.calculateAdvancedSimilarity w targetFacultyId options = Returned r ->
        In x r ->
        exists f, candidate_row w options f /\ row_of f x
                  /\ faculty_id f <> targetFacultyId)
    /\ (forall query r x,
           Lexical.searchSimilarFaculty w query options = Returned r
           \/ Advanced.searchAdvancedSimilarity w query options = Returned r ->
           In x r ->
           exists f, candidate_row w options f /\ row_of f x).
Proof.
  intros w options. split.
  - intros targetFacultyId r x [Hr|Hr] Hx.
    + eapply calculateSimilarFaculty_In; eassumption.
    + apply calculateAdvancedSimilarity_paths in Hr. destruct Hr as [Hr|Hr].
      * eapply calculateSimilarFaculty_In; eassumption.
      * eapply calculate_dense_In; eassumption.
  - intros query r x [Hr|Hr] Hx.
    + eapply searchSimilarFaculty_In; eassumption.
    + apply searchAdvancedSimilarity_paths in Hr. destruct Hr as [Hr|Hr].
      * eapply searchSimilarFaculty_In; eassumption.
      * eapply search_dense_In; eassumption.
Qed.

Lemma results_are_filtered_rows_witness :
  exists r x,
    Advanced.calculateAdvancedSimilarity triangle_world "A" (advanced None) = Returned r
    /\ In x r /\ r_faculty_id x = "C"%string
    /\ exists f, candidate_row triangle_world (advanced None) f /\ row_of f x
                 /\ faculty_id f <> "A"%string.
Proof.
  eexists. eexists. split; [vm_compute; reflexivity|].
  split; [left; reflexivity|]. split; [reflexivity|].
  eapply (proj1 (results_are_filtered_rows triangle_world (advanced None)) "A"%string).
  - right. vm_compute. reflexivity.
  - left. reflexivity.
Defined.

(* ================================================================== *)
(** * Results list each row once, in descending order *)

Lemma NoDup_map_filter {A B} (h : A -> B) (p : A -> bool) l :
  NoDup (map h l) -> NoDup (map h (filter p l)).
Proof.
  induction l as [|x l IH]; [intros; constructor|].
  simpl. intros H. inversion H as [|? ? Hx Hl]; subst.
  destruct (p x); [|now apply IH].
  simpl. constructor; [|now apply IH].
  intros Hin. apply Hx. apply in_map_iff in Hin. destruct Hin as [y [Hy Hin]].
  apply filter_In in Hin. apply in_map_iff. exists y. tauto.
Qed.

(** Ranking keeps each candidate at most once. *)
Lemma NoDup_ranking {A B} (h : A -> B) (sim : A -> float) (p : A -> bool) l k :
  NoDup (map h l) ->
  NoDup (map h (slice0 (Array_sort (fun a b => sim b - sim a) (filter p l)) k)).
Proof.
  intros H. rewrite <- slice0_map. apply NoDup_slice0.
  eapply Permutation_NoDup; [|apply (NoDup_map_filter h p l H)].
  apply Permutation_map, Permutation_sym, (Array_sort_Permutation sim).
Qed.

Lemma select_faculty_NoDup w fs fd table rows :
  db w = Some table -> NoDup (map faculty_id table) ->
  select_faculty w fs fd = Some rows -> NoDup (map faculty_id rows).
Proof.
  unfold select_faculty. intros -> Hnd [= <-]. now apply NoDup_map_filter.
Qed.

Lemma score_all_ids idf allTerms v candidates :
  map r_faculty_id (Lexical.score_all idf allTerms v candidates) = map faculty_id candidates.
Proof. unfold Lexical.score_all. rewrite map_map. reflexivity. Qed.

Lemma rank_NoDup scored minSim maxRes :
  NoDup (map r_faculty_id scored) ->
  NoDup (map r_faculty_id (Lexical.rank scored minSim maxRes)).
Proof. unfold Lexical.rank. apply (NoDup_ranking r_faculty_id similarity). Qed.

Lemma calculateSimilarFaculty_NoDup w table targetFacultyId options r :
  db w = Some table -> NoDup (map faculty_id table) ->
  Lexical.calculateSimilarFaculty w targetFacultyId options = Returned r ->
  NoDup (map r_faculty_id r).
Proof.
  intros Hdb Hnd Hr. unfold Lexical.calculateSimilarFaculty in Hr.
  destruct (select_faculty w _ _) as [rows|] eqn:Hsel;
    [|injection Hr as <-; constructor].
  destruct (find _ rows) as [targetFaculty|];
    [|injection Hr as <-; constructor].
  cbv zeta in Hr. destruct (_ =? 0)%nat; [injection Hr as <-; constructor|].
  injection Hr as <-.
  apply rank_NoDup. rewrite score_all_ids. apply NoDup_map_filter.
  eapply select_faculty_NoDup; eassumption.
Qed.

Lemma searchSimilarFaculty_NoDup w table query options r :
  db w = Some table -> NoDup (map faculty_id table) ->
  Lexical.searchSimilarFaculty w query options = Returned r ->
  NoDup (map r_faculty_id r).
Proof.
  intros Hdb Hnd Hr. unfold Lexical.searchSimilarFaculty in Hr.
  destruct (select_faculty w _ _) as [rows|] eqn:Hsel;
    [|injection Hr as <-; constructor].
  cbv zeta in Hr. destruct (_ =? 0)%nat; [injection Hr as <-; constructor|].
  injection Hr as <-.
  apply rank_NoDup. rewrite score_all_ids.
  eapply select_faculty_NoDup; eassumption.
Qed.

Lemma map_snd_combine_firstn {A B} (a : list A) (b : list B) :
  map snd (combine a b) = firstn (List.length a) b.
Proof.
  revert b. induction a as [|x a IH]; intros [|y b]; try reflexivity.
  simpl. now rewrite IH.
Qed.

Lemma findSimilarFaculty_NoDup t embs data topK thr :
  NoDup (map Advanced.d_faculty_id data) ->
  NoDup (map r_faculty_id (Advanced.findSimilarFaculty t embs data topK thr)).
Proof.
  intros Hnd.
  destruct (findSimilarFaculty_cases t embs data topK thr) as [->|[scored [_ [Hs ->]]]];
    [constructor|].
  rewrite map_map.
  change (fun x => r_faculty_id (result_of_item x))
    with (fun x : (list float * Advanced.FacultyData) * float =>
            Advanced.d_faculty_id (snd (fst x))).
  apply (NoDup_ranking (fun x : (list float * Advanced.FacultyData) * float =>
                          Advanced.d_faculty_id (snd (fst x))) snd).
  rewrite <- (map_map fst (fun c => Advanced.d_faculty_id (snd c))).
  rewrite (cosine_scores_fst _ _ _ _ Hs).
  rewrite <- (map_map snd Advanced.d_faculty_id), map_snd_combine_firstn.
  rewrite <- firstn_map. now apply NoDup_firstn.
Qed.

Lemma data_of_ids l : map Advanced.d_faculty_id (map Advanced.data_of l) = map faculty_id l.
Proof. rewrite map_map. reflexivity. Qed.

Lemma calculate_dense_NoDup w table targetFacultyId maxRes minSim
    (options : Advanced.AdvancedOptions) r :
  db w = Some table -> NoDup (map faculty_id table) ->
  Advanced.calculate_dense w targetFacultyId maxRes minSim options = Returned r ->
  NoDup (map r_faculty_id r).
Proof.
  intros Hdb Hnd Hr. apply calculate_dense_returned in Hr.
  destruct Hr as [->|[rows [t [embs [Hsel ->]]]]]; [constructor|].
  apply findSimilarFaculty_NoDup. rewrite data_of_ids.
  apply NoDup_map_filter, NoDup_map_filter.
  eapply select_faculty_NoDup; eassumption.
Qed.

Lemma search_dense_NoDup w table query maxRes minSim (options : Advanced.AdvancedOptions) r :
  db w = Some table -> NoDup (map faculty_id table) ->
  Advanced.search_dense w query maxRes minSim options = Returned r ->
  NoDup (map r_faculty_id r).
Proof.
  intros Hdb Hnd Hr. apply search_dense_returned in Hr.
  destruct Hr as [rows [t [embs [Hsel ->]]]].
  apply findSimilarFaculty_NoDup. rewrite data_of_ids.
  apply NoDup_map_filter.
  eapply select_faculty_NoDup; eassumption.
Qed.

(** X11: over a table whose faculty ids are distinct (the primary key), no
    faculty member is listed twice in a result of the match and search
    operations, lexical or dense. *)
Theorem results_list_each_faculty_once :
  forall w table (options : Advanced.AdvancedOptions),
    db w = Some table -> NoDup (map faculty_id table) ->
    (forall targetFacultyId r,
        Advanced.calculateAdvancedSimilarity w targetFacultyId options = Returned r ->
        NoDup (map r_faculty_id r))
    /\ (forall query r,
           Advanced.searchAdvancedSimilarity w query options = Returned r ->
           NoDup (map r_faculty_id r))
    /\ (forall targetFacultyId r,
           Lexical.calculateSimilarFaculty w targetFacultyId options = Returned r ->
           NoDup (map r_faculty_id r))
    /\ (forall query r,
           Lexical.searchSimilarFaculty w query options = Returned r ->
           NoDup (map r_faculty_id r)).
Proof.
  intros w table options Hdb Hnd. split; [|split; [|split]].
  - intros id r Hr. apply calculateAdvancedSimilarity_paths in Hr. destruct Hr as [Hr|Hr].
    + eapply calculateSimilarFaculty_NoDup; eassumption.
    + eapply calculate_dense_NoDup; eassumption.
  - intros q r Hr. apply searchAdvancedSimilarity_paths in Hr. destruct Hr as [Hr|Hr].
    + eapply searchSimilarFaculty_NoDup; eassumption.
    + eapply search_dense_NoDup; eassumption.
  - intros id r Hr. eapply calculateSimilarFaculty_NoDup; eassumption.
  - intros q r Hr. eapply searchSimilarFaculty_NoDup; eassumption.
Qed.

Lemma results_list_each_faculty_once_witness :
  db triangle_world = Some triangle_table
  /\ NoDup (map faculty_id triangle_table)
  /\ exists r,
       Advanced.calculateAdvancedSimilarity triangle_world "A" (advanced None) = Returned r
       /\ map r_faculty_id r = ["C"; "B"]%string
       /\ NoDup (map r_faculty_id r).
Proof.
  assert (Hnd : NoDup (map faculty_id triangle_table)).
  { repeat constructor; simpl; intuition discriminate. }
  split; [reflexivity|]. split; [exact Hnd|].
  eexists. split; [vm_compute; reflexivity|]. split; [reflexivity|].
  apply (proj1 (results_list_each_faculty_once triangle_world triangle_table (advanced None)
                  eq_refl Hnd) "A"%string).
  vm_compute. reflexivity.
Defined.

Lemma ranked_descending_above minSim maxRes input r :
  ranked similarity minSim maxRes input r -> descending_above minSim maxRes r.
Proof. intros [H1 [H2 [_ H4]]]. repeat split; assumption. Qed.

Lemma descending_above_nil minSim maxRes :
  (0 <= maxRes)%Z -> descending_above minSim maxRes [].
Proof. intros H. repeat split; try constructor. exact H. Qed.

Lemma StronglySorted_map {A B} (f : A -> B) (R : B -> B -> Prop) l :
  StronglySorted (fun a b => R (f a) (f b)) l -> StronglySorted R (map f l).
Proof.
  induction 1 as [|x l Hs IH Hx]; simpl; constructor; [exact IH|].
  apply Forall_forall. intros y Hy. apply in_map_iff in Hy. destruct Hy as [z [<- Hz]].
  rewrite Forall_forall in Hx. now apply Hx.
Qed.

Lemma findSimilarFaculty_descending t embs data topK thr :
  (0 <= topK)%Z ->
  descending_above thr topK (Advanced.findSimilarFaculty t embs data topK thr).
Proof.
  intros Hk.
  destruct (findSimilarFaculty_cases t embs data topK thr) as [->|[scored [_ [Hs ->]]]];
    [now apply descending_above_nil|].
  destruct (rank_ranked snd scored thr topK Hk) as [H1 [H2 [_ H4]]].
  repeat split.
  - apply Forall_forall. intros x Hx. apply in_map_iff in Hx. destruct Hx as [item [<- Hi]].
    rewrite Forall_forall in H1. exact (H1 item Hi).
  - apply StronglySorted_map. exact H2.
  - rewrite length_map. exact H4.
Qed.

(** X12: whichever path answers, the result of [calculateAdvancedSimilarity]
    and of [searchAdvancedSimilarity] for a non-negative maxResults has
    every similarity >= minSimilarity, is sorted by similarity in
    descending order and has at most maxResults entries. *)
Theorem advanced_results_ranked :
  forall w (options : Advanced.AdvancedOptions),
    (forall targetFacultyId r,
        (0 <= default 10%Z (maxResults options))%Z ->
        Advanced.calculateAdvancedSimilarity w targetFacultyId options = Returned r ->
        descending_above (default 0.1 (minSimilarity options))
          (default 10%Z (maxResults options)) r)
    /\ (forall query r,
           (0 <= default 20%Z (maxResults options))%Z ->
           Advanced.searchAdvancedSimilarity w query options = Returned r ->
           descending_above (default 0.1 (minSimilarity options))
             (default 20%Z (maxResults options)) r).
Proof.
  intros w options. split.
  - intros id r Hk Hr. apply calculateAdvancedSimilarity_paths in Hr. destruct Hr as [Hr|Hr].
    + destruct (calculateSimilarFaculty_ranked w id options Hk) as [r' [Hr' Hranked]].
      rewrite Hr in Hr'. injection Hr' as <-.
      eapply ranked_descending_above; eassumption.
    + apply calculate_dense_returned in Hr.
      destruct Hr as [->|[rows [t [embs [_ ->]]]]];
        [now apply descending_above_nil | now apply findSimilarFaculty_descending].
  - intros q r Hk Hr. apply searchAdvancedSimilarity_paths in Hr. destruct Hr as [Hr|Hr].
    + destruct (searchSimilarFaculty_ranked w q options Hk) as [r' [Hr' Hranked]].
      rewrite Hr in Hr'. injection Hr' as <-.
      eapply ranked_descending_above; eassumption.
    + apply search_dense_returned in Hr.
      destruct Hr as [rows [t [embs [_ ->]]]].
      now apply findSimilarFaculty_descending.
Qed.

Lemma advanced_results_ranked_witness :
  exists r,
    Advanced.calculateAdvancedSimilarity triangle_world "A" (advanced None) = Returned r
    /\ List.length r = 2%nat
    /\ descending_above 0.1 10 r.
Proof.
  eexists. split; [vm_compute; reflexivity|]. split; [reflexivity|].
  apply (proj1 (advanced_results_ranked triangle_world (advanced None)) "A"%string).
  - simpl. lia.
  - vm_compute. reflexivity.
Defined.

(* ================================================================== *)
(** * Cosine similarity is symmetric *)

Lemma mul_comm (x y : float) : x * y = y * x.
Proof.
  apply Prim2SF_inj. rewrite !mul_spec. unfold SF64mul.
  destruct (Prim2SF x) as [sx|sx| |sx mx ex], (Prim2SF y) as [sy|sy| |sy my ey];
    simpl; try reflexivity; try (now rewrite xorb_comm).
  now rewrite xorb_comm, Pos.mul_comm, Z.add_comm.
Qed.

Lemma dot_comm_from a b s :
  fold_left (fun s '(x, y) => s + x * y) (combine a b) s
  = fold_left (fun s '(x, y) => s + x * y) (combine b a) s.
Proof.
  revert b s. induction a as [|x a IH]; intros [|y b] s; try reflexivity.
  simpl. rewrite (mul_comm x y). apply IH.
Qed.

Lemma dot_comm a b : dot a b = dot b a.
Proof. apply dot_comm_from. Qed.

Lemma Embedding_cosine a b :
  Embedding.cosineSimilarity a b =
  if (List.length a =? List.length b)%nat
  then Returned (if (sum_squares a =? 0) || (sum_squares b =? 0) then 0
                 else dot a b / (sqrt (sum_squares a) * sqrt (sum_squares b)))
  else Thrown (DimensionMismatch (List.length a) (List.length b)).
Proof.
  unfold Embedding.cosineSimilarity.
  destruct (Nat.eqb_spec (List.length a) (List.length b)) as [H|H]; [|reflexivity].
  simpl. rewrite (loop_sums a b H).
  destruct ((sum_squares a =? 0) || (sum_squares b =? 0)); reflexivity.
Qed.

Lemma Network_cosine a b :
  List.length a = List.length b ->
  Network.calculateCosineSimilarity a b =
  if (norm a =? 0) || (norm b =? 0) then 0 else dot a b / (norm a * norm b).
Proof.
  intros H. unfold Network.calculateCosineSimilarity, Network.reduce_indexed.
  replace (fold_left _ (combine (seq 0 (List.length a)) a) 0) with (dot a b);
    [reflexivity|].
  symmetry. exact (reduce_indexed_dot a b [] 0 H).
Qed.

(** X8: cosine similarity is symmetric, bit for bit: the lexical
    [cosineSimilarity] for all vectors, the embedding service's
    [cosineSimilarity] and the network route's [calculateCosineSimilarity]
    for vectors of equal length. *)
Theorem cosine_similarity_symmetric : forall a b : list float,
  Lexical.cosineSimilarity a b = Lexical.cosineSimilarity b a
  /\ (List.length a = List.length b ->
      Embedding.cosineSimilarity a b = Embedding.cosineSimilarity b a
      /\ Network.calculateCosineSimilarity a b = Network.calculateCosineSimilarity b a).
Proof.
  intros a b. split.
  - rewrite !Lexical_cosine, (Nat.eqb_sym (List.length b)).
    destruct (_ =? _)%nat; [|reflexivity].
    now rewrite (orb_comm (norm b =? 0)), (dot_comm b a), (mul_comm (norm b)).
  - intros H. split.
    + rewrite !Embedding_cosine, (Nat.eqb_sym (List.length b)), H, Nat.eqb_refl.
      now rewrite (orb_comm (sum_squares b =? 0)), (dot_comm b a),
        (mul_comm (sqrt (sum_squares b))).
    + rewrite !Network_cosine by congruence.
      now rewrite (orb_comm (norm b =? 0)), (dot_comm b a), (mul_comm (norm b)).
Qed.

Lemma cosine_similarity_symmetric_witness :
  Embedding.cosineSimilarity [3; 4] [1; 0.5] = Embedding.cosineSimilarity [1; 0.5] [3; 4]
  /\ Network.calculateCosineSimilarity [3; 4] [1; 0.5]
     = Network.calculateCosineSimilarity [1; 0.5] [3; 4].
Proof.
  apply (proj2 (cosine_similarity_symmetric [3; 4] [1; 0.5])). reflexivity.
Defined.

(* ================================================================== *)
(** * Blank texts and batches *)

Lemma generateEmbedding_cases w text :
  Embedding.generateEmbedding w text
  = if blank text then Returned Embedding.zero_vector
    else pipe w (Embedding.cleanText text).
Proof.
  unfold Embedding.generateEmbedding. cbv zeta. now rewrite cleanText_empty.
Qed.

Lemma sum_squares_zero_vector : sum_squares Embedding.zero_vector = 0.
Proof. vm_compute. reflexivity. Qed.

Lemma zero_vector_length : List.length Embedding.zero_vector = 384%nat.
Proof. apply repeat_length. Qed.

Lemma cosine_zero_vector b :
  List.length b = 384%nat ->
  Embedding.cosineSimilarity Embedding.zero_vector b = Returned 0.
Proof.
  intros H. rewrite Embedding_cosine, zero_vector_length, H, Nat.eqb_refl.
  now rewrite sum_squares_zero_vector.
Qed.

(** X3: for a text without any letter, digit or underscore,
    [generateEmbedding] returns the zero vector of 384 entries whatever the
    provider does, and the cosine similarity of that vector with any vector
    of 384 entries is 0. *)
Theorem blank_text_embeds_to_zero : forall w text,
  blank text = true ->
  Embedding.generateEmbedding w text = Returned Embedding.zero_vector
  /\ List.length Embedding.zero_vector = 384%nat
  /\ forall b, List.length b = 384%nat ->
               Embedding.cosineSimilarity Embedding.zero_vector b = Returned 0
               /\ Embedding.cosineSimilarity b Embedding.zero_vector = Returned 0.
Proof.
  intros w text H. split; [now rewrite generateEmbedding_cases, H|].
  split; [apply zero_vector_length|].
  intros b Hb. split; [now apply cosine_zero_vector|].
  rewrite Embedding_cosine, zero_vector_length, Hb, Nat.eqb_refl.
  now rewrite sum_squares_zero_vector, orb_true_r.
Qed.

Lemma generateEmbeddings_cases w texts :
  Embedding.generateEmbeddings w texts
  = let cleanedTexts :=
      filter (fun t => (0 <? String.length t)%nat) (map Embedding.cleanText texts) in
    if (List.length cleanedTexts =? 0)%nat
    then Returned (map (fun _ => Embedding.zero_vector) texts)
    else mapM (pipe w) cleanedTexts.
Proof.
  unfold Embedding.generateEmbeddings. cbv zeta.
  destruct (_ =? 0)%nat; [reflexivity|].
  now rewrite mapM_batches, batches_of_concat by lia.
Qed.

Lemma nonempty_length s : (0 <? String.length s)%nat = negb (is_empty s).
Proof. destruct s; reflexivity. Qed.

Lemma cleaned_all_kept texts :
  Forall (fun t => blank t = false) texts ->
  filter (fun t => (0 <? String.length t)%nat) (map Embedding.cleanText texts)
  = map Embedding.cleanText texts.
Proof.
  induction 1 as [|t l Ht _ IH]; [reflexivity|].
  simpl. rewrite nonempty_length, cleanText_empty, Ht. simpl. now rewrite IH.
Qed.

Lemma mapM_map {A B C} (f : B -> outcome C) (g : A -> B) l :
  mapM f (map g l) = mapM (fun x => f (g x)) l.
Proof.
  induction l as [|x l IH]; [reflexivity|]. simpl. now rewrite IH.
Qed.

Lemma mapM_ext_in {A B} (f g : A -> outcome B) l :
  (forall x, In x l -> f x = g x) -> mapM f l = mapM g l.
Proof.
  induction l as [|x l IH]; intros H; [reflexivity|].
  simpl. rewrite (H x (or_introl eq_refl)), IH; [reflexivity|].
  intros y Hy. apply H. now right.
Qed.

Lemma generateEmbeddings_one_by_one w texts :
  Forall (fun t => blank t = false) texts ->
  Embedding.generateEmbeddings w texts = mapM (Embedding.generateEmbedding w) texts.
Proof.
  intros H. rewrite generateEmbeddings_cases. cbv zeta.
  rewrite (cleaned_all_kept texts H), length_map.
  destruct texts as [|t l]; [reflexivity|].
  change (List.length (t :: l) =? 0)%nat with false. cbv iota.
  rewrite mapM_map. apply mapM_ext_in. intros x Hx.
  rewrite Forall_forall in H. now rewrite generateEmbedding_cases, (H x Hx).
Qed.

Lemma blank_text_embeds_to_zero_witness :
  blank " -- " = true
  /\ Embedding.generateEmbedding sample_world " -- " = Returned Embedding.zero_vector
  /\ Embedding.cosineSimilarity Embedding.zero_vector (basis 0) = Returned 0.
Proof.
  split; [reflexivity|].
  destruct (blank_text_embeds_to_zero sample_world " -- "%string eq_refl) as [Hz [_ Hc]].
  split; [exact Hz | apply (Hc (basis 0)); reflexivity].
Defined.

(** X4: [generateEmbeddings] returns one zero vector per text when every text
    is blank, and otherwise the provider's vectors of the cleaned texts that
    are not empty, in order (batches of 8 change nothing); so when no text
    is blank it returns exactly what [generateEmbedding] returns text by
    text, each vector at the position of its text. *)
Theorem batch_embedding_in_order : forall w texts,
  (Embedding.generateEmbeddings w texts
   = if forallb blank texts
     then Returned (map (fun _ => Embedding.zero_vector) texts)
     else mapM (pipe w) (filter (fun t => negb (is_empty t)) (map Embedding.cleanText texts)))
  /\ (Forall (fun t => blank t = false) texts ->
      forall r,
        Embedding.generateEmbeddings w texts = Returned r
        <-> mapM (Embedding.generateEmbedding w) texts = Returned r).
Proof.
  intros w texts. split.
  - rewrite generateEmbeddings_cases. cbv zeta.
    rewrite (filter_ext _ (fun t => negb (is_empty t)) nonempty_length).
    assert (Hall : (List.length (filter (fun t => negb (is_empty t))
                                   (map Embedding.cleanText texts)) =? 0)%nat
                   = forallb blank texts).
    { induction texts as [|t l IH]; [reflexivity|].
      simpl. rewrite cleanText_empty. destruct (blank t); simpl; [exact IH | reflexivity]. }
    now rewrite Hall.
  - intros H r. now rewrite generateEmbeddings_one_by_one.
Qed.

Lemma batch_embedding_in_order_witness :
  Forall (fun t => blank t = false) ["Robotics"; "Chemistry"]%string
  /\ (Embedding.generateEmbeddings sample_world ["Robotics"; "Chemistry"]%string
      = Returned [basis 0; basis 1]
      <-> mapM (Embedding.generateEmbedding sample_world) ["Robotics"; "Chemistry"]%string
          = Returned [basis 0; basis 1]).
Proof.
  assert (H : Forall (fun t => blank t = false) ["Robotics"; "Chemistry"]%string)
    by (repeat constructor).
  split; [exact H|].
  apply (proj2 (batch_embedding_in_order sample_world ["Robotics"; "Chemistry"]%string) H).
Defined.

(* ================================================================== *)
(** * Padding, ranking errors and the provider probe *)

(** X5: [padEmbeddingTo1536] of a vector of at most 1536 entries returns
    1536 entries, the vector followed by zeros, and extracting from them
    gives the vector back exactly when it has 384 entries; on a longer
    vector it throws (the array length is negative).
    [extractEmbeddingFrom1536] returns the first 384 entries, or all of
    them when there are fewer. *)
Theorem pad_extract_bounds : forall v : list float,
  ((List.length v <= 1536)%nat ->
   exists p,
     Embedding.padEmbeddingTo1536 v = Returned p
     /\ List.length p = 1536%nat
     /\ firstn (List.length v) p = v
     /\ skipn (List.length v) p = repeat 0 (1536 - List.length v)
     /\ (Embedding.extractEmbeddingFrom1536 p = v <-> List.length v = 384%nat))
  /\ ((1536 < List.length v)%nat ->
      Embedding.padEmbeddingTo1536 v = Thrown InvalidArrayLength)
  /\ List.length (Embedding.extractEmbeddingFrom1536 v) = Nat.min 384 (List.length v).
Proof.
  intros v. split; [|split].
  - intros Hle. unfold Embedding.padEmbeddingTo1536.
    destruct (Nat.eqb_spec (List.length v) 1536) as [H|H].
    + exists v. split; [reflexivity|]. split; [exact H|].
      split; [apply firstn_all|]. split.
      * rewrite H, Nat.sub_diag. rewrite <- H. apply skipn_all.
      * split; intros E.
        -- apply (f_equal (@List.length float)) in E.
           unfold Embedding.extractEmbeddingFrom1536 in E. rewrite H in E.
           change (1536 =? 384)%nat with false in E. cbv iota in E.
           rewrite length_firstn in E. lia.
        -- lia.
    + destruct (Nat.ltb_spec 1536 (List.length v)) as [Hgt|_]; [lia|].
      exists (v ++ repeat 0 (1536 - List.length v)).
      split; [reflexivity|].
      split; [rewrite length_app, repeat_length; lia|].
      split; [rewrite firstn_app, Nat.sub_diag, firstn_0, app_nil_r; apply firstn_all|].
      split; [rewrite skipn_app, Nat.sub_diag, skipn_all; reflexivity|].
      unfold Embedding.extractEmbeddingFrom1536.
      rewrite length_app, repeat_length.
      replace (List.length v + (1536 - List.length v))%nat with 1536%nat by lia.
      change (1536 =? 384)%nat with false. cbv iota.
      split; intros E.
      * apply (f_equal (@List.length float)) in E.
        rewrite length_firstn, length_app, repeat_length in E. lia.
      * rewrite firstn_app, E, Nat.sub_diag, firstn_0, app_nil_r.
        rewrite <- E. apply firstn_all.
  - intros Hgt. unfold Embedding.padEmbeddingTo1536.
    destruct (Nat.eqb_spec (List.length v) 1536) as [H|H]; [lia|].
    destruct (Nat.ltb_spec 1536 (List.length v)) as [_|Hle]; [reflexivity | lia].
  - unfold Embedding.extractEmbeddingFrom1536.
    destruct (Nat.eqb_spec (List.length v) 384) as [H|H]; [lia|].
    apply length_firstn.
Qed.

Lemma cosine_scores_mismatch {T} (embedding_of : T -> list float) q candidates :
  (exists c, In c candidates /\ List.length (embedding_of c) <> List.length q) ->
  exists lb, cosine_scores embedding_of q candidates
             = Thrown (DimensionMismatch (List.length q) lb)
             /\ lb <> List.length q.
Proof.
  unfold cosine_scores.
  induction candidates as [|c l IH]; intros [c0 [Hin Hne]]; [contradiction|].
  simpl. rewrite Embedding_cosine.
  destruct (Nat.eqb_spec (List.length q) (List.length (embedding_of c))) as [He|He].
  - simpl. destruct Hin as [->|Hin]; [congruence|].
    destruct IH as [lb [-> Hlb]]; [exists c0; tauto|].
    exists lb. split; [reflexivity | exact Hlb].
  - exists (List.length (embedding_of c)). split; [reflexivity | congruence].
Qed.

(** X6: [findSimilar] returns when every candidate's vector has the length
    of the query, and then every result is one of the candidates with its
    cosine similarity, which reaches minSimilarity; when some candidate's
    vector has another length it throws the dimension error, whatever the
    other candidates are. *)
Theorem findSimilar_dimension_error :
  forall T (embedding_of : T -> list float) q (candidates : list T) topK minSim,
    ((forall c, In c candidates -> List.length (embedding_of c) = List.length q) ->
     exists r,
       Embedding.findSimilar embedding_of q candidates topK minSim = Returned r
       /\ forall item, In item r ->
            In (fst item) candidates
            /\ Embedding.cosineSimilarity q (embedding_of (fst item)) = Returned (snd item)
            /\ (minSim <=? snd item) = true)
    /\ ((exists c, In c candidates /\ List.length (embedding_of c) <> List.length q) ->
        exists lb,
          Embedding.findSimilar embedding_of q candidates topK minSim
          = Thrown (DimensionMismatch (List.length q) lb)
          /\ lb <> List.length q).
Proof.
  intros T embedding_of q candidates topK minSim. split.
  - intros Hall.
    destruct (cosine_scores_total embedding_of q candidates Hall) as [scored [Hs _]].
    rewrite findSimilar_scores, Hs. simpl.
    eexists. split; [reflexivity|].
    intros item Hitem. apply slice0_incl in Hitem.
    apply (proj1 (Array_sort_In snd _ _)) in Hitem.
    apply filter_In in Hitem. destruct Hitem as [Hitem Hge].
    destruct (cosine_scores_In _ _ _ _ _ Hs Hitem) as [H1 H2].
    repeat split; assumption.
  - intros Hbad. destruct (cosine_scores_mismatch embedding_of q candidates Hbad)
      as [lb [Hs Hlb]].
    exists lb. rewrite findSimilar_scores, Hs. split; [reflexivity | exact Hlb].
Qed.

Lemma SFzn_eqb x : (x =? 0) = match Prim2SF x with S754_zero _ => true | _ => false end.
Proof.
  rewrite eqb_spec. change (Prim2SF 0) with (S754_zero false).
  destruct (Prim2SF x) as [[]|[]| |[] m e]; reflexivity.
Qed.

Lemma abs_sum_zero v s :
  Prim2SF s = S754_zero false ->
  Forall (fun x => (x =? 0) = true) v ->
  Prim2SF (fold_left (fun a b => a + abs b) v s) = S754_zero false.
Proof.
  intros Hs H. revert s Hs. induction H as [|x v Hx _ IH]; intros s Hs; [exact Hs|].
  simpl. apply IH. rewrite add_spec, abs_spec, Hs.
  rewrite SFzn_eqb in Hx. destruct (Prim2SF x) as [s0|s0| |s0 m0 e0]; try discriminate; reflexivity.
Qed.

(** X7: [testEmbeddingService] answers true only if the provider returned,
    for the probe phrase, a vector of exactly 384 entries of which at least
    one is not zero. *)
Theorem probe_needs_nonzero_vector : forall w,
  Embedding.testEmbeddingService w = true ->
  exists v,
    pipe w "machine learning and artificial intelligence" = Returned v
    /\ List.length v = 384%nat
    /\ exists x, In x v /\ (x =? 0) = false.
Proof.
  intros w. unfold Embedding.testEmbeddingService.
  rewrite generateEmbedding_cases.
  change (blank Embedding.testText) with false. cbv iota.
  change (Embedding.cleanText Embedding.testText)
    with "machine learning and artificial intelligence"%string.
  destruct (pipe w _) as [v|]; [|discriminate].
  destruct (Nat.eqb_spec (List.length v) 384) as [Hlen|]; [|discriminate].
  simpl negb. cbv iota.
  destruct (fold_left _ v 0 =? 0) eqn:Hsum; [discriminate|]. intros _.
  exists v. split; [reflexivity|]. split; [exact Hlen|].
  destruct (existsb (fun x => negb (x =? 0)) v) eqn:Hex.
  - apply existsb_exists in Hex. destruct Hex as [x [Hx Hnz]].
    exists x. split; [exact Hx | now apply negb_true_iff in Hnz].
  - exfalso.
    assert (Hall : Forall (fun x => (x =? 0) = true) v).
    { apply Forall_forall. intros x Hx.
      destruct (x =? 0) eqn:Hz; [reflexivity|].
      assert (existsb (fun x => negb (x =? 0)) v = true)
        by (apply existsb_exists; exists x; split; [exact Hx | now rewrite Hz]).
      congruence. }
    pose proof (abs_sum_zero v 0 eq_refl Hall) as Hzero.
    rewrite SFzn_eqb, Hzero in Hsum. discriminate.
Qed.

Lemma probe_needs_nonzero_vector_witness :
  Embedding.testEmbeddingService sample_world = true
  /\ exists v,
       pipe sample_world "machine learning and artificial intelligence" = Returned v
       /\ List.length v = 384%nat
       /\ exists x, In x v /\ (x =? 0) = false.
Proof.
  split; [vm_compute; reflexivity|].
  apply (probe_needs_nonzero_vector sample_world). vm_compute. reflexivity.
Defined.

(* ================================================================== *)
(** * Stored embeddings *)

Lemma real_embedding_cases emb :
  Advanced.real_embedding emb
  = if (List.length emb =? 1536)%nat || (List.length emb =? 384)%nat
    then Returned (firstn 384 emb)
    else Thrown (UnexpectedEmbeddingSize (List.length emb)).
Proof.
  unfold Advanced.real_embedding, Advanced.extractReal384Embedding,
    Embedding.extractEmbeddingFrom1536.
  destruct (Nat.eqb_spec (List.length emb) 1536) as [H|H].
  - rewrite H. reflexivity.
  - destruct (Nat.eqb_spec (List.length emb) 384) as [H'|H']; [|reflexivity].
    cbv [orb]. cbv iota. f_equal. symmetry. rewrite <- H'. apply firstn_all.
Qed.

Lemma Returned_inj {A} (a b : A) : Returned a = Returned b -> a = b.
Proof. intros H. congruence. Qed.

Lemma real_embedding_length emb v :
  Advanced.real_embedding emb = Returned v -> List.length v = 384%nat.
Proof.
  rewrite real_embedding_cases.
  destruct (Nat.eqb_spec (List.length emb) 1536) as [H|H]; cbn [orb].
  - intros E. apply Returned_inj in E. subst v. rewrite length_firstn. lia.
  - destruct (Nat.eqb_spec (List.length emb) 384) as [H'|H']; [|discriminate].
    intros E. apply Returned_inj in E. subst v. rewrite length_firstn. lia.
Qed.

Lemma mapM_Forall {A B} (f : A -> outcome B) (P : B -> Prop) l r :
  (forall x y, f x = Returned y -> P y) ->
  mapM f l = Returned r -> Forall P r.
Proof.
  intros H. revert r. induction l as [|x l IH]; intros r Hr.
  - injection Hr as <-. constructor.
  - simpl in Hr. destruct (f x) as [y|] eqn:Hy; [|discriminate].
    simpl in Hr. destruct (mapM f l) as [ys|]; [|discriminate].
    simpl in Hr. injection Hr as <-. constructor; [eapply H; eassumption | now apply IH].
Qed.

Lemma stored_vector_cases f :
  Network.stored_vector f
  = match embedding f with
    | Some (JsonArray s) =>
        if (List.length s =? 1536)%nat || (List.length s =? 384)%nat
        then Returned (firstn 384 s)
        else Thrown (UnexpectedEmbeddingSize (List.length s))
    | _ => Thrown JSONSyntaxError
    end.
Proof.
  unfold Network.stored_vector, parse_embedding, Network.extractReal384Embedding.
  destruct (embedding f) as [[s|]|]; try reflexivity.
  cbn [JSON_parse bind].
  destruct (Nat.eqb_spec (List.length s) 1536) as [H|H].
  - rewrite H. reflexivity.
  - destruct (Nat.eqb_spec (List.length s) 384) as [H'|H']; [|reflexivity].
    cbv [orb bind]. cbv iota. f_equal. symmetry. rewrite <- H'. apply firstn_all.
Qed.

Lemma stored_vector_usable f :
  (exists v, Network.stored_vector f = Returned v) <-> usable f = true.
Proof.
  rewrite stored_vector_cases. unfold usable, has_embedding, readable.
  destruct (embedding f) as [[s|]|]; simpl.
  - destruct (_ || _); split; intros H; try discriminate; try (eexists; reflexivity).
    destruct H; discriminate.
  - split; [intros [v H]|intros H]; discriminate.
  - split; [intros [v H]|intros H]; discriminate.
Qed.

Lemma mapM_returns_iff {A B} (f : A -> outcome B) l :
  (exists r, mapM f l = Returned r) <-> Forall (fun x => exists y, f x = Returned y) l.
Proof.
  induction l as [|x l IH].
  - split; [constructor | eexists; reflexivity].
  - split.
    + intros [r Hr]. simpl in Hr. destruct (f x) as [y|] eqn:Hy; [|discriminate].
      simpl in Hr. destruct (mapM f l) as [ys|] eqn:Hl; [|discriminate].
      constructor; [exists y; exact Hy|]. apply IH. eexists; reflexivity.
    + intros H. inversion H as [|? ? [y Hy] Hl]; subst.
      apply IH in Hl. destruct Hl as [ys Hys].
      simpl. rewrite Hy, Hys. eexists; reflexivity.
Qed.

(** X16: the graph is built exactly when every fetched row stores a JSON
    array of 1536 or of 384 numbers (one other row makes the whole request
    fail); the vectors the similarities are computed from are then one per
    row, of 384 entries each. *)
Theorem graph_needs_usable_embeddings :
  forall faculty threshold maxConnections,
    ((exists g, Network.buildGraph faculty threshold maxConnections = Returned g)
     <-> Forall (fun f => usable f = true) faculty)
    /\ (forall embeddings,
           mapM Network.stored_vector faculty = Returned embeddings ->
           List.length embeddings = List.length faculty
           /\ Forall (fun v => List.length v = 384%nat) embeddings).
Proof.
  intros faculty threshold maxConnections. split.
  - unfold Network.buildGraph. cbv zeta. split.
    + intros [g Hg].
      destruct (mapM Network.stored_vector faculty) as [embs|] eqn:He; [|discriminate].
      assert (Hr : exists r, mapM Network.stored_vector faculty = Returned r)
        by (eexists; eassumption).
      apply mapM_returns_iff in Hr.
      eapply Forall_impl; [|exact Hr]. intros f. apply stored_vector_usable.
    + intros H.
      assert (Hr : exists r, mapM Network.stored_vector faculty = Returned r).
      { apply mapM_returns_iff. eapply Forall_impl; [|exact H].
        intros f. apply stored_vector_usable. }
      destruct Hr as [r ->]. simpl. eexists; reflexivity.
  - intros embeddings He. split; [eapply mapM_length; eassumption|].
    eapply mapM_Forall; [|exact He].
    intros f v. rewrite stored_vector_cases.
    destruct (embedding f) as [[s|]|]; try discriminate.
    destruct (Nat.eqb_spec (List.length s) 1536) as [H|H]; cbn [orb].
    + intros E. apply Returned_inj in E. subst v. rewrite length_firstn. lia.
    + destruct (Nat.eqb_spec (List.length s) 384) as [H'|H']; [|discriminate].
      intros E. apply Returned_inj in E. subst v. rewrite length_firstn. lia.
Qed.

Lemma graph_needs_usable_embeddings_witness :
  Forall (fun f => usable f = true) triangle_table
  /\ exists g, Network.buildGraph triangle_table 0.25 10 = Returned g.
Proof.
  assert (H : Forall (fun f => usable f = true) triangle_table) by (repeat constructor).
  split; [exact H|].
  apply (proj1 (graph_needs_usable_embeddings triangle_table 0.25 10%Z)). exact H.
Defined.

Lemma cosine_scores_complete (t : list float) embs (data : list Advanced.FacultyData) :
  List.length t = 384%nat ->
  Forall (fun v => List.length v = 384%nat) embs ->
  exists scored,
    cosine_scores fst t (combine embs data) = Returned scored
    /\ map fst scored = combine embs data.
Proof.
  intros Ht Hall. apply cosine_scores_total.
  intros [v d] Hin. apply in_combine_l in Hin. simpl.
  rewrite Forall_forall in Hall. rewrite (Hall v Hin). now symmetry.
Qed.

Lemma findSimilarFaculty_complete t embs data topK thr :
  List.length t = 384%nat ->
  Forall (fun v => List.length v = 384%nat) embs ->
  List.length data = List.length embs ->
  exists scored,
    cosine_scores fst t (combine embs data) = Returned scored
    /\ map fst scored = combine embs data
    /\ Advanced.findSimilarFaculty t embs data topK thr
       = map result_of_item
           (slice0 (Array_sort (fun a b => snd b - snd a)
                      (filter (fun item => thr <=? snd item) scored)) topK).
Proof.
  intros Ht Hall Hlen.
  destruct (cosine_scores_complete t embs data Ht Hall) as [scored [Hs Hf]].
  exists scored. split; [exact Hs|]. split; [exact Hf|].
  unfold Advanced.findSimilarFaculty.
  destruct (Nat.ltb_spec (List.length data) (List.length embs)) as [Hlt|_]; [lia|].
  cbv zeta. rewrite findSimilar_scores, Hs. reflexivity.
Qed.

(** X13: in record mode, when the target row carries a stored embedding and
    the dense block returns, no ranking error was swallowed: the target's
    and every candidate's vector has 384 entries, every candidate that
    carries an embedding (other than the target, within the filters) was
    given its cosine similarity to the target, and the result is these
    candidates filtered by minSimilarity, sorted descending and cut at
    maxResults. *)
Theorem dense_ranking_complete :
  forall w targetFacultyId maxRes minSim (options : Advanced.AdvancedOptions)
         targetFaculty rows r,
    select_single w targetFacultyId = Some targetFaculty ->
    has_embedding targetFaculty = true ->
    select_faculty w (filterSchool options) (filterDepartment options) = Some rows ->
    Advanced.calculate_dense w targetFacultyId maxRes minSim options = Returned r ->
    let candidates :=
      filter has_embedding
        (filter (fun f => negb (String.eqb (faculty_id f) targetFacultyId)) rows) in
    exists stored t padded embs scored,
      parse_embedding targetFaculty = Returned stored
      /\ Advanced.real_embedding stored = Returned t
      /\ mapM parse_embedding candidates = Returned padded
      /\ mapM Advanced.real_embedding padded = Returned embs
      /\ List.length t = 384%nat
      /\ Forall (fun v => List.length v = 384%nat) embs
      /\ cosine_scores fst t (combine embs (map Advanced.data_of candidates))
         = Returned scored
      /\ map fst scored = combine embs (map Advanced.data_of candidates)
      /\ r = map result_of_item
               (slice0 (Array_sort (fun a b => snd b - snd a)
                          (filter (fun item => minSim <=? snd item) scored)) maxRes).
Proof.
  intros w targetFacultyId maxRes minSim options targetFaculty rows r
    Hsingle Hemb Hsel Hr candidates.
  unfold Advanced.calculate_dense in Hr. rewrite Hsingle, Hsel in Hr.
  cbv zeta in Hr. fold candidates in Hr.
  destruct (List.length candidates =? 0)%nat; [discriminate|].
  rewrite Hemb in Hr.
  destruct (parse_embedding targetFaculty) as [stored|] eqn:Hstored; [|discriminate].
  cbn [bind] in Hr.
  change (if (List.length stored =? 1536)%nat
          then Advanced.extractReal384Embedding stored
          else if (List.length stored =? 384)%nat then Returned stored
               else Thrown (UnexpectedEmbeddingSize (List.length stored)))
    with (Advanced.real_embedding stored) in Hr.
  destruct (Advanced.real_embedding stored) as [t|] eqn:Ht; [|discriminate].
  cbn [bind] in Hr.
  destruct (mapM parse_embedding candidates) as [padded|] eqn:Hpadded; [|discriminate].
  cbn [bind] in Hr.
  destruct (mapM Advanced.real_embedding padded) as [embs|] eqn:Hembs; [|discriminate].
  cbn [bind] in Hr. apply Returned_inj in Hr. subst r.
  pose proof (real_embedding_length _ _ Ht) as Hlt.
  pose proof (mapM_Forall _ (fun v => List.length v = 384%nat) _ _
                real_embedding_length Hembs) as Hall.
  assert (Hlen : List.length (map Advanced.data_of candidates) = List.length embs).
  { rewrite length_map. apply mapM_length in Hpadded. apply mapM_length in Hembs. lia. }
  destruct (findSimilarFaculty_complete t embs (map Advanced.data_of candidates)
              maxRes minSim Hlt Hall Hlen) as [scored [Hs [Hf Hres]]].
  exists stored, t, padded, embs, scored. repeat split; assumption.
Qed.

Lemma dense_ranking_complete_witness :
  exists r,
    Advanced.calculate_dense triangle_world "A" 10 0.1 (advanced None) = Returned r
    /\ map r_faculty_id r = ["C"; "B"]%string
    /\ exists stored t padded embs scored,
         parse_embedding (sample_row "A" "Robotics" "Mechanical"
                            (Some (JsonArray (planar 1 0)))) = Returned stored
         /\ Advanced.real_embedding stored = Returned t
         /\ mapM parse_embedding (tl triangle_table) = Returned padded
         /\ mapM Advanced.real_embedding padded = Returned embs
         /\ List.length t = 384%nat
         /\ Forall (fun v => List.length v = 384%nat) embs
         /\ cosine_scores fst t (combine embs (map Advanced.data_of (tl triangle_table)))
            = Returned scored
         /\ map fst scored = combine embs (map Advanced.data_of (tl triangle_table))
         /\ r = map result_of_item
                  (slice0 (Array_sort (fun a b => snd b - snd a)
                             (filter (fun item => 0.1 <=? snd item) scored)) 10).
Proof.
  eexists. split; [vm_compute; reflexivity|]. split; [reflexivity|].
  apply (dense_ranking_complete triangle_world "A"%string 10%Z 0.1 (advanced None)
           (sample_row "A" "Robotics" "Mechanical" (Some (JsonArray (planar 1 0))))
           triangle_table);
    reflexivity.
Defined.

(* ================================================================== *)
(** * Storing embeddings, blank queries, link weights *)





Lemma search_dense_query w query maxRes minSim (options : Advanced.AdvancedOptions) r :
  Advanced.search_dense w query maxRes minSim options = Returned r ->
  exists rows t embs,
    select_faculty w (filterSchool options) (filterDepartment options) = Some rows
    /\ Embedding.generateEmbedding w query = Returned t
    /\ r = Advanced.findSimilarFaculty t embs
             (map Advanced.data_of (filter has_embedding rows)) maxRes minSim.
Proof.
  unfold Advanced.search_dense.
  destruct (select_faculty w _ _) as [rows|] eqn:Hsel; [|discriminate].
  cbv zeta. destruct (_ =? 0)%nat; [discriminate|].
  destruct (Embedding.generateEmbedding w query) as [t|]; [|discriminate].
  simpl. destruct (mapM parse_embedding _) as [padded|]; [|discriminate].
  simpl. destruct (mapM Advanced.real_embedding padded) as [embs|]; [|discriminate].
  simpl. intros [= <-]. exists rows, t, embs. repeat split; reflexivity.
Qed.

Lemma findSimilarFaculty_zero_vector embs data topK thr :
  (thr <=? 0) = false ->
  Advanced.findSimilarFaculty Embedding.zero_vector embs data topK thr = [].
Proof.
  intros Hthr.
  destruct (findSimilarFaculty_cases Embedding.zero_vector embs data topK thr)
    as [H|[scored [_ [Hs ->]]]]; [exact H|].
  rewrite (filter_none (fun item => thr <=? snd item) scored).
  - simpl. now rewrite slice0_nil.
  - intros item Hitem. destruct (cosine_scores_In _ _ _ _ _ Hs Hitem) as [_ Hc].
    rewrite Embedding_cosine in Hc.
    destruct (_ =? _)%nat; [|discriminate].
    rewrite sum_squares_zero_vector in Hc. simpl in Hc.
    apply Returned_inj in Hc. now rewrite <- Hc.
Qed.

(** X14: a query without any letter, digit or underscore matches nothing:
    for a minSimilarity above zero (the default), [searchSimilarFaculty] and
    [searchAdvancedSimilarity] return the empty list, on the lexical and on
    the dense path. *)
Theorem blank_query_matches_nothing :
  forall w query (options : Advanced.AdvancedOptions),
    blank query = true ->
    (default 0.1 (minSimilarity options) <=? 0) = false ->
    Lexical.searchSimilarFaculty w query options = Returned []
    /\ Advanced.searchAdvancedSimilarity w query options = Returned [].
Proof.
  intros w query options Hblank Hmin.
  assert (Hlex : Lexical.searchSimilarFaculty w query options = Returned [])
    by (apply searchSimilarFaculty_no_tokens; [now apply tokenize_blank | exact Hmin]).
  split; [exact Hlex|].
  unfold Advanced.searchAdvancedSimilarity. cbv zeta. rewrite search_defaulted.
  destruct (negb _); [exact Hlex|].
  destruct (Advanced.search_dense _ _ _ _ _) as [d|e] eqn:Hd; simpl; [|exact Hlex].
  apply search_dense_query in Hd. destruct Hd as [rows [t [embs [_ [Ht ->]]]]].
  rewrite generateEmbedding_cases, Hblank in Ht. apply Returned_inj in Ht. subst t.
  now rewrite findSimilarFaculty_zero_vector.
Qed.

Lemma blank_query_matches_nothing_witness :
  blank "?! ..." = true
  /\ Advanced.searchAdvancedSimilarity sample_world "?! ..." (advanced None) = Returned [].
Proof.
  split; [reflexivity|].
  apply (blank_query_matches_nothing sample_world "?! ..."%string (advanced None));
    reflexivity.
Defined.

Local Open Scope Z_scope.

Lemma shr_record_of_loc_m m l : shr_m (shr_record_of_loc m l) = m.
Proof. destruct l as [|[]]; reflexivity. Qed.

Lemma shr_fexp_nonneg m e l :
  0 <= m -> 0 <= shr_m (fst (shr_fexp prec emax m e l)).
Proof.
  intros Hm. unfold shr_fexp, shr.
  destruct (fexp prec emax (Zdigits2 m + e) - e) as [|p|p]; simpl fst;
    rewrite ?shr_record_of_loc_m; try assumption.
  rewrite iter_shr_1_m by (rewrite shr_record_of_loc_m; assumption).
  rewrite shr_record_of_loc_m. apply Z.div_pos; lia.
Qed.

Lemma round_nearest_even_nonneg m l : 0 <= m -> 0 <= round_nearest_even m l.
Proof.
  intros Hm. destruct l as [|[]]; simpl; try lia.
  destruct (Z.even m); lia.
Qed.

Lemma binary_round_aux_number s m e l :
  0 <= m -> binary_round_aux prec emax s m e l <> S754_nan.
Proof.
  intros Hm. unfold binary_round_aux.
  pose proof (shr_fexp_nonneg m e l Hm) as H1.
  destruct (shr_fexp prec emax m e l) as [mrs' e']. simpl fst in H1.
  pose proof (round_nearest_even_nonneg (shr_m mrs') (loc_of_shr_record mrs') H1) as Hr.
  pose proof (shr_fexp_nonneg _ e' loc_Exact Hr) as H2.
  destruct (shr_fexp prec emax (round_nearest_even (shr_m mrs') (loc_of_shr_record mrs'))
              e' loc_Exact) as [mrs'' e'']. simpl fst in H2.
  destruct (shr_m mrs'') as [|m3|m3]; try lia; try discriminate.
  destruct (e'' <=? emax - prec); discriminate.
Qed.

Local Close Scope Z_scope.

Lemma number_spec x : (x =? x) = match Prim2SF x with S754_nan => false | _ => true end.
Proof.
  rewrite eqb_spec. unfold SFeqb.
  destruct (Prim2SF x) as [[]|[]| |[] m e]; try reflexivity; simpl;
    now rewrite Pos.compare_cont_refl, Z.compare_refl.
Qed.

(** A number times five is a number. *)
Lemma times_five_number x : (x =? x) = true -> (x * 5 =? x * 5) = true.
Proof.
  rewrite !number_spec, mul_spec. unfold SF64mul.
  change (Prim2SF 5) with (S754_finite false 5629499534213120 (-50)).
  destruct (Prim2SF x) as [s|s| |s m e]; try discriminate; try reflexivity.
  intros _. simpl SFmul.
  pose proof (binary_round_aux_number (xorb s false) (Zpos (m * 5629499534213120))
                (e + -50) loc_Exact ltac:(lia)) as H.
  destruct (binary_round_aux _ _ _ _ _ _); try reflexivity. congruence.
Qed.

Lemma leb_number m x : (m <=? x) = true -> (x =? x) = true.
Proof. float_order. Qed.

Lemma Math_min_le_3 x : (x =? x) = true -> (Network.Math_min x 3 <=? 3) = true.
Proof.
  intros Hx. unfold Network.Math_min. rewrite Hx. simpl.
  destruct (x <? 3) eqn:Hlt; [now apply ltb_leb | reflexivity].
Qed.

(** X17: every link of the graph has weight min(5 * similarity, 3), which is
    at most 3, and a similarity that is a number (not NaN). *)
Theorem link_weight_bounded :
  forall faculty threshold maxConnections g l,
    Network.buildGraph faculty threshold maxConnections = Returned g ->
    In l (Network.links g) ->
    Network.weight l = Network.Math_min (Network.l_similarity l * 5) 3
    /\ (Network.weight l <=? 3) = true
    /\ (Network.l_similarity l =? Network.l_similarity l) = true.
Proof.
  intros faculty threshold maxConnections g l Hg Hl.
  destruct (buildGraph_links _ _ _ _ Hg) as [embeddings [_ [Hlen Hlinks]]].
  rewrite Hlinks in Hl.
  destruct (link_origin _ _ _ _ _ Hl) as [i [p [_ [Hp ->]]]].
  pose proof (forward_partners_In _ _ _ _ (forward_top_In _ _ _ _ _ Hp)) as [_ [Ht _]].
  apply leb_number in Ht. simpl.
  split; [reflexivity|]. split; [|exact Ht].
  apply Math_min_le_3. now apply times_five_number.
Qed.

Lemma link_weight_bounded_witness :
  exists g l,
    Network.buildGraph triangle_table 0.25 10 = Returned g
    /\ In l (Network.links g)
    /\ Network.weight l = 3
    /\ (Network.weight l <=? 3) = true.
Proof.
  eexists. eexists. split; [vm_compute; reflexivity|].
  split; [left; reflexivity|]. split; [vm_compute; reflexivity|].
  eapply (link_weight_bounded triangle_table 0.25 10%Z).
  - vm_compute. reflexivity.
  - left. reflexivity.
Defined.

(* ================================================================== *)
(** * Keyword preparation *)

Lemma trimStart_fixed s : starts_with_space s = false -> trimStart s = s.
Proof. destruct s as [|c s]; [reflexivity|]. simpl. now intros ->. Qed.

Lemma trimEnd_fixed s : ends_with_space s = false -> trimEnd s = s.
Proof.
  induction s as [|c s IH]; [reflexivity|].
  destruct s as [|d s].
  - simpl. now intros ->.
  - intros H. change (ends_with_space (String c (String d s)))
      with (ends_with_space (String d s)) in H.
    specialize (IH H).
    change (trimEnd (String c (String d s)))
      with (match trimEnd (String d s) with
            | EmptyString => if is_space c then EmptyString else String c EmptyString
            | t => String c t
            end).
    now rewrite IH.
Qed.

Lemma trim_trim s : trim (trim s) = trim s.
Proof.
  unfold trim at 1.
  rewrite (trimStart_fixed (trim s)) by (unfold trim; apply trimEnd_start, trimStart_start).
  apply trimEnd_fixed. unfold trim. apply trimEnd_end.
Qed.

Lemma trim_leading_space c s : is_space c = true -> trim (String c s) = trim s.
Proof. intros H. unfold trim. simpl. now rewrite H. Qed.

Lemma split_on_nonempty sep s : exists t ts, split_on sep s = t :: ts.
Proof.
  induction s as [|c s [t [ts IH]]]; [eexists; eexists; reflexivity|].
  simpl. destruct (sep c); [eexists; eexists; reflexivity|].
  rewrite IH. eexists; eexists; reflexivity.
Qed.

Lemma split_on_pieces sep s :
  Forall (fun t => string_forall (fun c => negb (sep c)) t = true) (split_on sep s).
Proof.
  induction s as [|c s IH]; [repeat constructor|].
  simpl. destruct (sep c) eqn:Hc; [constructor; [reflexivity | exact IH]|].
  destruct (split_on sep s) as [|t ts]; [repeat constructor; simpl; now rewrite Hc|].
  inversion IH as [|? ? Ht Hts]; subst. constructor; [|exact Hts].
  simpl. now rewrite Hc, Ht.
Qed.

Lemma split_on_free sep s :
  string_forall (fun c => negb (sep c)) s = true -> split_on sep s = [s].
Proof.
  induction s as [|c s IH]; [reflexivity|].
  simpl. intros H. apply andb_true_iff in H. destruct H as [Hc Hs].
  apply negb_true_iff in Hc. now rewrite Hc, (IH Hs).
Qed.

Lemma split_on_app sep p c s :
  string_forall (fun c => negb (sep c)) p = true -> sep c = true ->
  split_on sep (p ++ String c s) = p :: split_on sep s.
Proof.
  intros Hp Hc. induction p as [|d p IH].
  - simpl. now rewrite Hc.
  - simpl in Hp. apply andb_true_iff in Hp. destruct Hp as [Hd Hp].
    apply negb_true_iff in Hd. simpl. now rewrite Hd, (IH Hp).
Qed.

(** A list of keywords as [prepareKeywordsForEmbedding] leaves them. *)
Lemma normal_pieces_fixed ps :
  Forall (fun p => is_empty p = false /\ trim p = p
                   /\ string_forall (fun c => negb (Keywords.is_separator c)) p = true) ps ->
  filter (fun keyword => (0 <? String.length keyword)%nat)
    (map (fun keyword => trim keyword) (split_on Keywords.is_separator (join ", " ps)))
  = ps.
Proof.
  induction 1 as [|p ps [Hne [Htrim Hfree]] Hps IH]; [reflexivity|].
  destruct ps as [|q rest].
  - simpl join. rewrite (split_on_free _ _ Hfree). simpl.
    now rewrite Htrim, nonempty_length, Hne.
  - change (join ", " (p :: q :: rest))
      with (p ++ String "," (String " " (join ", " (q :: rest))))%string.
    rewrite (split_on_app Keywords.is_separator p ","%char _ Hfree eq_refl).
    change (split_on Keywords.is_separator (String " " (join ", " (q :: rest))))
      with (match split_on Keywords.is_separator (join ", " (q :: rest)) with
            | t :: ts => String " " t :: ts
            | [] => [String " " EmptyString]
            end).
    destruct (split_on_nonempty Keywords.is_separator (join ", " (q :: rest)))
      as [t [ts Hsplit]].
    rewrite Hsplit in IH |- *.
    cbn [map filter] in IH |- *.
    rewrite Htrim, nonempty_length, Hne. cbn [negb]. f_equal.
    rewrite (trim_leading_space " " t eq_refl). exact IH.
Qed.

Lemma prepared_pieces keywords :
  Forall (fun p => is_empty p = false /\ trim p = p
                   /\ string_forall (fun c => negb (Keywords.is_separator c)) p = true)
    (filter (fun keyword => (0 <? String.length keyword)%nat)
       (map (fun keyword => trim keyword) (split_on Keywords.is_separator keywords))).
Proof.
  apply Forall_forall. intros p Hp. apply filter_In in Hp. destruct Hp as [Hp Hlen].
  apply in_map_iff in Hp. destruct Hp as [p0 [<- Hp0]].
  rewrite nonempty_length in Hlen. apply negb_true_iff in Hlen.
  split; [exact Hlen|]. split; [apply trim_trim|].
  pose proof (split_on_pieces Keywords.is_separator keywords) as Hall.
  rewrite Forall_forall in Hall.
  unfold trim. apply trimEnd_forall, trimStart_forall, Hall, Hp0.
Qed.

(** X18: the keyword preparation reaches a normal form. What
    [prepareKeywordsForEmbedding] returns is, joined by a comma and a
    space, a list of keywords that are not empty, carry no white space
    around them and hold no comma or semicolon; preparing it again changes
    nothing. *)
Theorem prepareKeywords_normal_form : forall keywords,
  exists pieces,
    Keywords.prepareKeywordsForEmbedding keywords = join ", " pieces
    /\ Forall (fun p => is_empty p = false /\ trim p = p
                        /\ string_forall (fun c => negb (Keywords.is_separator c)) p = true)
         pieces
    /\ Keywords.prepareKeywordsForEmbedding (Keywords.prepareKeywordsForEmbedding keywords)
       = Keywords.prepareKeywordsForEmbedding keywords.
Proof.
  intros keywords. eexists. split; [reflexivity|].
  split; [apply prepared_pieces|].
  unfold Keywords.prepareKeywordsForEmbedding at 1 2.
  now rewrite (normal_pieces_fixed _ (prepared_pieces keywords)).
Qed.

(* ================================================================== *)
(** * The strict padding functions *)

(** X19: the strict padding functions. The three pairs of utility functions
    that check the length first (the compatibility pair and the earlier
    pair of the similarity service, the one of the network route) agree;
    padding returns exactly for 384 entries and extraction exactly for
    1536; whatever the strict padding returns, the lenient
    [padEmbeddingTo1536] returns too, and extracting it gives the vector
    back; extracting and padding again gives a stored vector back exactly
    when its last 1152 entries are zero. *)
Theorem strict_padding_round_trip : forall v : list float,
  Advanced.padEmbeddingTo1536Compat v = Legacy.padEmbeddingTo1536 v
  /\ Advanced.extractReal384Embedding v = Legacy.extractReal384Embedding v
  /\ Network.extractReal384Embedding v = Legacy.extractReal384Embedding v
  /\ ((exists p, Legacy.padEmbeddingTo1536 v = Returned p) <-> List.length v = 384%nat)
  /\ ((exists e, Legacy.extractReal384Embedding v = Returned e) <-> List.length v = 1536%nat)
  /\ (forall p, Legacy.padEmbeddingTo1536 v = Returned p ->
        Embedding.padEmbeddingTo1536 v = Returned p
        /\ Legacy.extractReal384Embedding p = Returned v)
  /\ (List.length v = 1536%nat ->
      ((e <- Legacy.extractReal384Embedding v ;; Legacy.padEmbeddingTo1536 e) = Returned v
       <-> skipn 384 v = repeat 0 1152)).
Proof.
  intros v. split; [|split; [|split; [|split; [|split; [|split]]]]].
  - unfold Advanced.padEmbeddingTo1536Compat, Legacy.padEmbeddingTo1536,
      Embedding.padEmbeddingTo1536.
    destruct (Nat.eqb_spec (List.length v) 384) as [H|H]; [|reflexivity].
    cbn [negb]. cbv zeta. rewrite H. reflexivity.
  - unfold Advanced.extractReal384Embedding, Legacy.extractReal384Embedding,
      Embedding.extractEmbeddingFrom1536.
    destruct (Nat.eqb_spec (List.length v) 1536) as [H|H]; [|reflexivity].
    cbn [negb]. rewrite H. reflexivity.
  - reflexivity.
  - unfold Legacy.padEmbeddingTo1536.
    destruct (Nat.eqb_spec (List.length v) 384) as [H|H]; cbn [negb]; split.
    + intros _. exact H.
    + intros _. eexists. reflexivity.
    + intros [p Hp]. discriminate.
    + intros H'. contradiction.
  - unfold Legacy.extractReal384Embedding.
    destruct (Nat.eqb_spec (List.length v) 1536) as [H|H]; cbn [negb]; split.
    + intros _. exact H.
    + intros _. eexists. reflexivity.
    + intros [p Hp]. discriminate.
    + intros H'. contradiction.
  - intros p. unfold Legacy.padEmbeddingTo1536, Legacy.extractReal384Embedding,
      Embedding.padEmbeddingTo1536.
    destruct (Nat.eqb_spec (List.length v) 384) as [H|H]; cbn [negb]; [|discriminate].
    cbv zeta. intros E. apply Returned_inj in E. subst p.
    rewrite length_app, repeat_length, H.
    change (384 + (1536 - 384) =? 1536)%nat with true. cbn [negb].
    change (384 =? 1536)%nat with false. change (1536 <? 384)%nat with false.
    cbv iota. split; [reflexivity|]. f_equal.
    rewrite firstn_app, H, Nat.sub_diag, firstn_O, app_nil_r.
    apply firstn_all2. lia.
  - intros H. unfold Legacy.extractReal384Embedding, Legacy.padEmbeddingTo1536.
    rewrite H. change (negb (1536 =? 1536)%nat) with false. cbv iota. cbn [bind].
    rewrite length_firstn, H. change (Nat.min 384 1536) with 384%nat.
    change (negb (384 =? 384)%nat) with false. cbv iota zeta.
    change (1536 - 384)%nat with 1152%nat.
    split; intros E.
    + apply Returned_inj in E.
      rewrite <- E at 1. rewrite skipn_app, length_firstn, H.
      change (384 - Nat.min 384 1536)%nat with 0%nat.
      rewrite skipn_0. rewrite (skipn_all2 (firstn 384 v)); [reflexivity|].
      rewrite length_firstn. lia.
    + f_equal. rewrite <- E. apply firstn_skipn.
Qed.

(* ================================================================== *)
(** * The query builder *)

Lemma render_eq {V} conditions params (cond : Database.Condition V) :
  Database.render (conditions, params) cond
  = if String.eqb (Database.operator cond) "IS NOT NULL"
    then (conditions ++ [(Database.field cond ++ " IS NOT NULL")%string], params)
    else (conditions
            ++ [(Database.field cond ++ " " ++ Database.operator cond ++ " "
                   ++ Database.placeholder (List.length (params ++ [Database.Bound (Database.value cond)])))%string],
          params ++ [Database.Bound (Database.value cond)]).
Proof. reflexivity. Qed.

Lemma render_shape {V} (cs cs' : list (Database.Condition V)) conditions params params' :
  map (fun c => (Database.field c, Database.operator c)) cs
  = map (fun c => (Database.field c, Database.operator c)) cs' ->
  List.length params = List.length params' ->
  fst (fold_left Database.render cs (conditions, params))
  = fst (fold_left Database.render cs' (conditions, params'))
  /\ List.length (snd (fold_left Database.render cs (conditions, params)))
     = List.length (snd (fold_left Database.render cs' (conditions, params'))).
Proof.
  revert cs' conditions params params'.
  induction cs as [|c cs IH]; intros [|c' cs'] conditions params params' Hcs Hlen;
    try discriminate.
  - split; [reflexivity | exact Hlen].
  - cbn [map] in Hcs. injection Hcs as Hf Ho Hcs.
    cbn [fold_left]. rewrite !render_eq, <- Ho, <- Hf.
    destruct (String.eqb (Database.operator c) "IS NOT NULL").
    + now apply IH.
    + rewrite !length_app, Hlen. apply IH; [exact Hcs|].
      rewrite !length_app. cbn [List.length]. lia.
Qed.

Lemma render_params {V} (cs : list (Database.Condition V)) conditions params :
  snd (fold_left Database.render cs (conditions, params))
  = params ++ map (fun c => Database.Bound (Database.value c)) (filter has_placeholder cs).
Proof.
  revert conditions params. induction cs as [|c cs IH]; intros conditions params.
  - simpl. now rewrite app_nil_r.
  - cbn [fold_left filter]. rewrite render_eq. unfold has_placeholder at 1.
    destruct (String.eqb (Database.operator c) "IS NOT NULL"); cbn [negb].
    + apply IH.
    + rewrite IH, <- app_assoc. reflexivity.
Qed.

Lemma map_length_eq {A B C} (f : A -> C) (g : B -> C) l l' :
  map f l = map g l' -> List.length l = List.length l'.
Proof. intros H. now rewrite <- (length_map f l), H, length_map. Qed.

(** X20: no bound value reaches the text of a query. Two builders with the
    same table, fields, order, and field and operator of every condition,
    both with or both without a limit and an offset, build the same SQL
    text, whatever values they bind. *)
Theorem query_text_free_of_values : forall (V : Type) (q q' : Database.QueryBuilder V),
  shape q = shape q' ->
  fst (Database.buildQuery q) = fst (Database.buildQuery q').
Proof.
  intros V q q' H. unfold shape in H.
  injection H as Ht Hs Hc Hob Hod Hl Ho.
  unfold Database.buildQuery. cbv zeta.
  destruct (render_shape (Database.whereConditions q) (Database.whereConditions q')
              [] [] [] Hc eq_refl) as [Hfst Hlen].
  destruct (fold_left Database.render (Database.whereConditions q) ([], []))
    as [conditions params].
  destruct (fold_left Database.render (Database.whereConditions q') ([], []))
    as [conditions' params'].
  cbn [fst snd] in Hfst, Hlen. subst conditions'.
  rewrite <- (map_length_eq _ _ _ _ Hc), <- Ht, <- Hs, <- Hob, <- Hod.
  destruct (Database.limitValue q), (Database.limitValue q'); try discriminate;
    destruct (Database.offsetValue q), (Database.offsetValue q'); try discriminate;
    cbn [fst]; rewrite ?length_app, ?Hlen; reflexivity.
Qed.

Lemma query_text_free_of_values_witness :
  fst (Database.buildQuery
         (Database.limit 5
            (Database.not_ "embedding" "is" (Some None)
               (Database.eq "school" (Some "Engineering"%string)
                  (Database.select (Some "faculty_id, name"%string)
                     (Database.from "faculty"))))))
  = fst (Database.buildQuery
           (Database.limit 20
              (Database.not_ "embedding" "is" (Some None)
                 (Database.eq "school" (Some "x' OR '1'='1"%string)
                    (Database.select (Some "faculty_id, name"%string)
                       (Database.from "faculty")))))).
Proof. apply query_text_free_of_values. reflexivity. Defined.

(** X21: the parameters of a built query are the values of the conditions
    that are rendered with a placeholder, in the order of the conditions,
    followed by the limit and by the offset where they are set. *)
Theorem query_params_in_order : forall (V : Type) (q : Database.QueryBuilder V),
  snd (Database.buildQuery q)
  = map (fun c => Database.Bound (Database.value c))
      (filter has_placeholder (Database.whereConditions q))
    ++ number_param (Database.limitValue q)
    ++ number_param (Database.offsetValue q).
Proof.
  intros V q. unfold Database.buildQuery. cbv zeta.
  pose proof (render_params (Database.whereConditions q) [] []) as Hp.
  destruct (fold_left Database.render (Database.whereConditions q) ([], []))
    as [conditions params].
  cbn [snd app] in Hp. subst params.
  destruct (Database.limitValue q), (Database.offsetValue q); cbn [snd number_param];
    rewrite <- ?app_assoc, ?app_nil_r; reflexivity.
Qed.

(* ================================================================== *)
(** * The embedding script *)

Lemma store_fold w pairs t :
  let t' := fold_left (Script.store w) pairs t in
  Script.processed t' = (Script.processed t + List.length pairs)%nat
  /\ (Script.updated t' + Script.errors t'
      = Script.updated t + Script.errors t + List.length pairs)%nat
  /\ (Script.updated t <= Script.updated t')%nat
  /\ (Script.errors t <= Script.errors t')%nat
  /\ Script.writes t'
     = Script.writes t ++ map (fun p => (faculty_id (fst p), snd p)) pairs
  /\ (Script.errors t' = Script.errors t ->
      Forall (fun p => Script.update w (faculty_id (fst p)) (snd p) = Returned true) pairs).
Proof.
  revert t. induction pairs as [|[faculty embedding] pairs IH]; intros t; cbv zeta.
  - cbn [fold_left List.length map]. rewrite app_nil_r.
    repeat split; try lia. constructor.
  - cbn [fold_left].
    assert (H1 : Script.processed (Script.store w t (faculty, embedding))
                 = (Script.processed t + 1)%nat
                 /\ Script.writes (Script.store w t (faculty, embedding))
                    = Script.writes t ++ [(faculty_id faculty, embedding)]
                 /\ ((Script.update w (faculty_id faculty) embedding = Returned true
                      /\ Script.updated (Script.store w t (faculty, embedding))
                         = (Script.updated t + 1)%nat
                      /\ Script.errors (Script.store w t (faculty, embedding))
                         = Script.errors t)
                     \/ (Script.updated (Script.store w t (faculty, embedding))
                         = Script.updated t
                         /\ Script.errors (Script.store w t (faculty, embedding))
                            = (Script.errors t + 1)%nat))).
    { unfold Script.store.
      cbn [Script.processed Script.updated Script.errors Script.writes].
      destruct (Script.update w (faculty_id faculty) embedding) as [[|]|];
        repeat split; auto. }
    destruct H1 as [H1p [H1w H1u]].
    specialize (IH (Script.store w t (faculty, embedding))).
    cbv zeta in IH. destruct IH as [Hp [Hs [Hu [He [Hw Hok]]]]].
    cbn [List.length map fst snd].
    repeat split; try (destruct H1u as [[_ [? ?]]|[? ?]]; lia).
    + rewrite Hw, H1w, <- app_assoc. reflexivity.
    + intros Heq. destruct H1u as [[Hup [? ?]]|[? ?]]; [|exfalso; lia].
      constructor; [exact Hup | apply Hok; lia].
Qed.

Lemma run_batch_inv w batch t :
  let t' := Script.run_batch w t batch in
  Script.processed t' = (Script.processed t + List.length batch)%nat
  /\ (Script.updated t' + Script.errors t'
      = Script.updated t + Script.errors t + List.length batch)%nat
  /\ (Script.updated t <= Script.updated t')%nat
  /\ (Script.errors t <= Script.errors t')%nat
  /\ (Script.errors t' = Script.errors t -> batch <> [] ->
      exists embeddings,
        Script.generateEmbeddings w (map keywords batch) = Returned embeddings
        /\ List.length embeddings = List.length batch
        /\ Script.writes t'
           = Script.writes t ++ combine (map faculty_id batch) embeddings
        /\ Forall (fun p => Script.update w (fst p) (snd p) = Returned true)
             (combine (map faculty_id batch) embeddings)).
Proof.
  cbv zeta. unfold Script.run_batch. cbv zeta.
  destruct (Script.generateEmbeddings w (map keywords batch)) as [embeddings|e].
  - destruct (Nat.eqb_spec (List.length embeddings) (List.length batch)) as [Hlen|Hlen];
      cbn [negb].
    + destruct (store_fold w (combine batch embeddings) t) as [Hp [Hs [Hu [He [Hw Hok]]]]].
      rewrite length_combine, Hlen, Nat.min_id in Hp, Hs.
      repeat split; try assumption.
      intros Heq _. exists embeddings. repeat split; [exact Hlen | |].
      * rewrite Hw. f_equal. clear. revert embeddings.
        induction batch as [|b batch IH]; intros [|e es]; try reflexivity.
        simpl. now rewrite IH.
      * specialize (Hok Heq). clear - Hok. revert embeddings Hok.
        induction batch as [|b batch IH]; intros [|e es] Hok; try constructor.
        -- inversion Hok; subst. assumption.
        -- inversion Hok; subst. now apply IH.
    + cbn [Script.processed Script.updated Script.errors Script.writes].
      repeat split; try lia.
      intros Heq Hne. destruct batch; [contradiction | simpl in Heq; lia].
  - cbn [Script.processed Script.updated Script.errors Script.writes].
    repeat split; try lia.
    intros Heq Hne. destruct batch; [contradiction | simpl in Heq; lia].
Qed.

Lemma batches_fold w batches t :
  let t' := fold_left (Script.run_batch w) batches t in
  Script.processed t' = (Script.processed t + List.length (List.concat batches))%nat
  /\ (Script.updated t' + Script.errors t'
      = Script.updated t + Script.errors t + List.length (List.concat batches))%nat
  /\ (Script.updated t <= Script.updated t')%nat
  /\ (Script.errors t <= Script.errors t')%nat
  /\ (Script.errors t' = Script.errors t -> Forall (fun batch => batch <> []) batches ->
      exists outputs,
        Forall2 (fun batch embeddings =>
                   Script.generateEmbeddings w (map keywords batch) = Returned embeddings
                   /\ List.length embeddings = List.length batch) batches outputs
        /\ Script.writes t'
           = Script.writes t
               ++ combine (map faculty_id (List.concat batches)) (List.concat outputs)
        /\ Forall (fun p => Script.update w (fst p) (snd p) = Returned true)
             (combine (map faculty_id (List.concat batches)) (List.concat outputs))).
Proof.
  revert t. induction batches as [|batch batches IH]; intros t; cbv zeta.
  - cbn [fold_left List.concat List.length]. repeat split; try lia.
    intros _ _. exists []. repeat split; [constructor | | constructor].
    simpl. now rewrite app_nil_r.
  - cbn [fold_left List.concat]. rewrite length_app.
    destruct (run_batch_inv w batch t) as [Hp [Hs [Hu [He Hok]]]].
    destruct (IH (Script.run_batch w t batch)) as [Hp' [Hs' [Hu' [He' Hok']]]].
    repeat split; try lia.
    intros Heq Hne. inversion Hne as [|? ? Hb Hbs]; subst.
    destruct (Hok ltac:(lia) Hb) as [embeddings [Hg [Hlen [Hw Hall]]]].
    destruct (Hok' ltac:(lia) Hbs) as [outputs [Hf2 [Hw' Hall']]].
    exists (embeddings :: outputs).
    assert (Hcomb : combine (map faculty_id (batch ++ List.concat batches))
                      (List.concat (embeddings :: outputs))
                    = combine (map faculty_id batch) embeddings
                        ++ combine (map faculty_id (List.concat batches))
                             (List.concat outputs)).
    { cbn [List.concat]. rewrite map_app. clear - Hlen. revert embeddings Hlen.
      induction batch as [|b batch IHb]; intros [|e es] Hlen; try discriminate.
      - reflexivity.
      - simpl. f_equal. apply IHb. simpl in Hlen. lia. }
    repeat split.
    + constructor; [split; assumption | exact Hf2].
    + rewrite Hw', Hw, <- app_assoc, Hcomb. reflexivity.
    + rewrite Hcomb. apply Forall_app. split; assumption.
Qed.

Lemma batches_of_nonempty {A} size fuel (l : list A) :
  (0 < size)%nat -> Forall (fun batch => batch <> []) (Embedding.batches_of size fuel l).
Proof.
  intros Hsize. revert l. induction fuel as [|fuel IH]; intros l; [constructor|].
  destruct l as [|x l]; [constructor|].
  change (Embedding.batches_of size (S fuel) (x :: l))
    with (firstn size (x :: l) :: Embedding.batches_of size fuel (skipn size (x :: l))).
  constructor; [|apply IH].
  destruct size; [lia | discriminate].
Qed.

(** X22: the script counts every fetched row once. At the end of the loop
    [processed] is the number of rows and [updated + errors] is that
    number too, whatever the embedding process and the updates do. *)
Theorem script_counts_every_row : forall w facultyData,
  Script.processed (Script.tally w facultyData) = List.length facultyData
  /\ (Script.updated (Script.tally w facultyData)
      + Script.errors (Script.tally w facultyData))%nat = List.length facultyData.
Proof.
  intros w facultyData. unfold Script.tally. cbv zeta.
  destruct (batches_fold w
              (Embedding.batches_of 20 (List.length facultyData) facultyData)
              {| Script.processed := 0; Script.updated := 0; Script.errors := 0;
                 Script.writes := [] |}) as [Hp [Hs _]].
  rewrite batches_of_concat in Hp, Hs by lia.
  cbn [Script.processed Script.updated Script.errors] in Hp, Hs.
  split; [exact Hp | exact Hs].
Qed.

(** X23: the script reports success only when every row is stored. When
    [main] returns true, the embedding process returned for every batch of
    20 rows as many embeddings as the batch has rows, and the updates
    issued are, in row order, one per fetched row with the embedding at
    the row's own position, each of them without error. *)
Theorem script_success_stores_every_row : forall w,
  Script.main w = true ->
  exists facultyData outputs,
    Script.fetch w = Some facultyData
    /\ Forall2 (fun batch embeddings =>
                  Script.generateEmbeddings w (map keywords batch) = Returned embeddings
                  /\ List.length embeddings = List.length batch)
         (Embedding.batches_of 20 (List.length facultyData) facultyData) outputs
    /\ Script.writes (Script.tally w facultyData)
       = combine (map faculty_id facultyData) (List.concat outputs)
    /\ Forall (fun p => Script.update w (fst p) (snd p) = Returned true)
         (combine (map faculty_id facultyData) (List.concat outputs)).
Proof.
  intros w H. unfold Script.main in H.
  destruct (Script.configured w); [|discriminate]. cbn [negb] in H.
  destruct (Script.fetch w) as [facultyData|]; [|discriminate].
  cbv zeta in H. destruct (Script.recount w); [|discriminate]. cbn [negb] in H.
  apply Nat.eqb_eq in H. exists facultyData.
  unfold Script.tally in H |- *. cbv zeta in H |- *.
  destruct (batches_fold w
              (Embedding.batches_of 20 (List.length facultyData) facultyData)
              {| Script.processed := 0; Script.updated := 0; Script.errors := 0;
                 Script.writes := [] |}) as [_ [Hs [_ [_ Hok]]]].
  rewrite batches_of_concat in Hs, Hok by lia.
  cbn [Script.processed Script.updated Script.errors Script.writes app] in Hs, Hok.
  destruct (Hok ltac:(lia) (batches_of_nonempty 20 _ _ ltac:(lia)))
    as [outputs [Hf2 [Hw Hall]]].
  exists outputs. repeat split; assumption.
Qed.

Lemma script_success_stores_every_row_witness :
  exists facultyData outputs,
    Script.fetch script_world = Some facultyData
    /\ Forall2 (fun batch embeddings =>
                  Script.generateEmbeddings script_world (map keywords batch)
                  = Returned embeddings
                  /\ List.length embeddings = List.length batch)
         (Embedding.batches_of 20 (List.length facultyData) facultyData) outputs
    /\ Script.writes (Script.tally script_world facultyData)
       = combine (map faculty_id facultyData) (List.concat outputs)
    /\ Forall (fun p => Script.update script_world (fst p) (snd p) = Returned true)
         (combine (map faculty_id facultyData) (List.concat outputs)).
Proof. apply script_success_stores_every_row. reflexivity. Defined.

(* ================================================================== *)
(** * The ingest route *)

Lemma not_missing_accepted v :
  Ingest.is_missing v = false -> field_accepted v (Ingest.trimmed v).
Proof.
  destruct v as [text|]; [|discriminate]. simpl. intros H.
  apply orb_false_iff in H. destruct H as [_ H].
  exists text. repeat split. exact H.
Qed.

Lemma filter_nil_forallb {A} (f : A -> bool) l :
  (0 <? List.length (filter f l))%nat = negb (forallb (fun x => negb (f x)) l).
Proof.
  induction l as [|x l IH]; [reflexivity|].
  simpl. destruct (f x); [reflexivity|]. exact IH.
Qed.

Lemma validate_cases submitted validatedFaculty :
  match Ingest.validate submitted validatedFaculty with
  | inr validated =>
      exists added, validated = validatedFaculty ++ added
                    /\ Forall2 accepted submitted added
  | inl rejection =>
      exists before faculty after,
        submitted = before ++ faculty :: after
        /\ forallb complete before = true
        /\ complete faculty = false
        /\ Ingest.missingFields rejection
           = filter (fun field => Ingest.is_missing (Ingest.get_field faculty field))
               Ingest.requiredFields
        /\ Ingest.who rejection
           = match Ingest.s_faculty_id faculty with
             | Some s => if is_empty s then "unknown"%string else s
             | None => "unknown"%string
             end
  end.
Proof.
  revert validatedFaculty. induction submitted as [|faculty rest IH]; intros validatedFaculty.
  - simpl. exists []. split; [now rewrite app_nil_r | constructor].
  - cbn [Ingest.validate]. cbv zeta. rewrite filter_nil_forallb.
    fold (complete faculty).
    destruct (complete faculty) eqn:Hc; cbn [negb].
    + match goal with |- context [Ingest.validate rest ?acc] => specialize (IH acc) end.
      destruct (Ingest.validate rest _) as [rejection|validated].
      * destruct IH as [before [f [after [-> [Hb [Hf [Hm Hw]]]]]]].
        exists (faculty :: before), f, after. repeat split; try assumption.
        simpl. now rewrite Hc, Hb.
      * destruct IH as [added [-> H2]]. eexists. split.
        -- rewrite <- app_assoc. reflexivity.
        -- constructor; [|exact H2].
           unfold complete in Hc. cbn [forallb Ingest.requiredFields] in Hc.
           repeat (apply andb_true_iff in Hc; destruct Hc as [?H Hc]).
           repeat match goal with
                  | H : negb _ = true |- _ => apply negb_true_iff in H
                  end.
           unfold accepted. cbn.
           repeat split; apply not_missing_accepted; assumption.
    + exists [], faculty, rest. repeat split. exact Hc.
Qed.

(** X24: validation is all or nothing. Either every submitted record is
    accepted, in order, each stored field being the trimmed text of the
    submitted one and not empty; or the upload is rejected for the first
    record that lacks a field, with the fields that record lacks, every
    record before it being complete. *)
Theorem ingest_validates_all_or_nothing : forall submitted,
  match Ingest.validate submitted [] with
  | inr validated => Forall2 accepted submitted validated
  | inl rejection =>
      exists before faculty after,
        submitted = before ++ faculty :: after
        /\ forallb complete before = true
        /\ complete faculty = false
        /\ Ingest.missingFields rejection
           = filter (fun field => Ingest.is_missing (Ingest.get_field faculty field))
               Ingest.requiredFields
        /\ Ingest.who rejection
           = match Ingest.s_faculty_id faculty with
             | Some s => if is_empty s then "unknown"%string else s
             | None => "unknown"%string
             end
  end.
Proof.
  intros submitted. pose proof (validate_cases submitted []) as H.
  destruct (Ingest.validate submitted []) as [rejection|validated]; [exact H|].
  destruct H as [added [-> H]]. exact H.
Qed.

Lemma pair_by_index {A B} (paddedEmbeddings : list B) (validatedFaculty : list A) :
  map (fun '(index, faculty) => (faculty, nth_error paddedEmbeddings index))
    (combine (seq 0 (List.length validatedFaculty)) validatedFaculty)
  = combine validatedFaculty
      (map Some paddedEmbeddings
         ++ repeat None (List.length validatedFaculty - List.length paddedEmbeddings)).
Proof.
  revert paddedEmbeddings.
  induction validatedFaculty as [|x l IH]; intros paddedEmbeddings; [reflexivity|].
  cbn [List.length seq combine map].
  rewrite <- seq_shift.
  assert (Hshift : forall P : list B,
             map (fun '(index, faculty) => (faculty, nth_error P index))
               (combine (map S (seq 0 (List.length l))) l)
             = map (fun '(index, faculty) => (faculty, nth_error (tl P) index))
                 (combine (seq 0 (List.length l)) l)).
  { intros P. generalize (seq 0 (List.length l)). clear.
    induction l as [|y l IHl]; intros [|i s]; try reflexivity.
    cbn [map combine]. rewrite IHl. f_equal. f_equal.
    destruct P; [now destruct i | reflexivity]. }
  rewrite Hshift, IH.
  destruct paddedEmbeddings as [|p P]; [|reflexivity].
  cbn [tl map List.length app]. rewrite Nat.sub_0_r. reflexivity.
Qed.

Lemma combine_fst {A B} (l : list A) (r : list B) :
  (List.length l <= List.length r)%nat -> map fst (combine l r) = l.
Proof.
  revert r. induction l as [|x l IH]; intros [|y r] H; simpl in *; try reflexivity; try lia.
  f_equal. apply IH. lia.
Qed.

Lemma combine_snd {A B} (l : list A) (r : list B) :
  List.length l = List.length r -> map snd (combine l r) = r.
Proof.
  revert r. induction l as [|x l IH]; intros [|y r] H; simpl in *; try reflexivity; try lia.
  f_equal. apply IH. lia.
Qed.

Lemma cleaned_kept {A} (text : A -> string) l :
  filter (fun t => (0 <? String.length t)%nat)
    (map Embedding.cleanText (map text l))
  = map Embedding.cleanText (map text (filter (fun x => negb (blank (text x))) l)).
Proof.
  induction l as [|x l IH]; [reflexivity|].
  cbn [map filter]. rewrite nonempty_length, cleanText_empty.
  destruct (blank (text x)); cbn [negb map]; now rewrite IH.
Qed.

Lemma filter_split_length {A} (f : A -> bool) l :
  (List.length l - List.length (filter (fun x => negb (f x)) l))%nat
  = List.length (filter f l).
Proof.
  induction l as [|x l IH]; [reflexivity|].
  cbn [filter List.length]. destruct (f x); cbn [negb List.length].
  - pose proof (filter_length_le (fun x => negb (f x)) l). lia.
  - exact IH.
Qed.

Lemma filter_none_forallb {A} (f : A -> bool) l :
  (List.length (filter (fun x => negb (f x)) l) =? 0)%nat = forallb f l.
Proof.
  induction l as [|x l IH]; [reflexivity|].
  cbn [filter forallb]. destruct (f x); cbn [negb]; [exact IH | reflexivity].
Qed.

Lemma pad_returned embedding padded :
  Embedding.padEmbeddingTo1536 embedding = Returned padded ->
  (List.length embedding <= 1536)%nat
  /\ padded = embedding ++ repeat 0 (1536 - List.length embedding).
Proof.
  unfold Embedding.padEmbeddingTo1536.
  destruct (Nat.eqb_spec (List.length embedding) 1536) as [H|H].
  - intros E. apply Returned_inj in E. subst padded.
    rewrite H, Nat.sub_diag. cbn [repeat]. rewrite app_nil_r. split; [lia | reflexivity].
  - destruct (Nat.ltb_spec 1536 (List.length embedding)) as [H'|H']; [discriminate|].
    intros E. apply Returned_inj in E. subst padded. split; [exact H' | reflexivity].
Qed.

Lemma mapM_pad_returned embeddings paddedEmbeddings :
  mapM Embedding.padEmbeddingTo1536 embeddings = Returned paddedEmbeddings ->
  Forall (fun e => (List.length e <= 1536)%nat) embeddings
  /\ paddedEmbeddings
     = map (fun e => e ++ repeat 0 (1536 - List.length e)) embeddings.
Proof.
  revert paddedEmbeddings. induction embeddings as [|e l IH]; intros paddedEmbeddings H.
  - apply Returned_inj in H. subst. split; [constructor | reflexivity].
  - simpl in H. destruct (Embedding.padEmbeddingTo1536 e) as [p|] eqn:Hp; [|discriminate].
    cbn [bind] in H. destruct (mapM Embedding.padEmbeddingTo1536 l) as [ps|]; [|discriminate].
    cbn [bind] in H. apply Returned_inj in H. subst paddedEmbeddings.
    destruct (pad_returned _ _ Hp) as [Hlen ->]. destruct (IH ps eq_refl) as [Hall ->].
    split; [constructor; assumption | reflexivity].
Qed.

(** X25: embeddings are paired with records by position. When
    [facultyWithEmbeddings] is built, it lists the validated records in
    order; if all their keywords are blank each gets the padded zero
    vector; otherwise the provider's vectors for the records whose
    keywords are not blank are handed out, padded, to the first records
    in order, and as many records at the end as there are blank keywords
    get no embedding. *)
Theorem ingest_pairs_by_position : forall w validatedFaculty paired,
  Ingest.facultyWithEmbeddings w validatedFaculty = Returned paired ->
  map fst paired = validatedFaculty
  /\ if forallb (fun faculty => blank (Ingest.v_keywords faculty)) validatedFaculty
     then map snd paired
          = map (fun _ => Some (Embedding.zero_vector ++ repeat 0 1152)) validatedFaculty
     else exists embeddings,
         mapM (fun faculty => pipe w (Embedding.cleanText (Ingest.v_keywords faculty)))
           (filter (fun faculty => negb (blank (Ingest.v_keywords faculty)))
              validatedFaculty)
         = Returned embeddings
         /\ Forall (fun e => (List.length e <= 1536)%nat) embeddings
         /\ map snd paired
            = map (fun e => Some (e ++ repeat 0 (1536 - List.length e))) embeddings
              ++ repeat None
                   (List.length
                      (filter (fun faculty => blank (Ingest.v_keywords faculty))
                         validatedFaculty)).
Proof.
  intros w validatedFaculty paired H.
  unfold Ingest.facultyWithEmbeddings in H. cbv zeta in H.
  destruct (Embedding.generateEmbeddings w (map Ingest.v_keywords validatedFaculty))
    as [embeddings|] eqn:Hg; [|discriminate].
  cbn [bind] in H.
  destruct (mapM Embedding.padEmbeddingTo1536 embeddings) as [paddedEmbeddings|] eqn:Hp;
    [|discriminate].
  cbn [bind] in H. apply Returned_inj in H. subst paired. rewrite pair_by_index.
  destruct (mapM_pad_returned _ _ Hp) as [Hall ->].
  rewrite generateEmbeddings_cases in Hg. cbv zeta in Hg.
  rewrite cleaned_kept, !length_map, filter_none_forallb in Hg.
  rewrite !length_map.
  destruct (forallb (fun faculty => blank (Ingest.v_keywords faculty)) validatedFaculty)
    eqn:Hblank.
  - apply Returned_inj in Hg. subst embeddings.
    rewrite !length_map, Nat.sub_diag. cbn [repeat]. rewrite app_nil_r, !map_map.
    split.
    + apply combine_fst. rewrite length_map. lia.
    + rewrite combine_snd by now rewrite length_map. reflexivity.
  - rewrite !mapM_map in Hg.
    pose proof (mapM_length _ _ _ Hg) as Hlen.
    rewrite Hlen, filter_split_length. split.
    + apply combine_fst. rewrite length_app, !length_map, repeat_length, Hlen.
      rewrite <- (filter_split_length
                    (fun faculty => blank (Ingest.v_keywords faculty)) validatedFaculty).
      lia.
    + exists embeddings. split; [exact Hg|]. split; [exact Hall|].
      rewrite map_map. apply combine_snd.
      rewrite length_app, length_map, repeat_length, Hlen.
      rewrite <- (filter_split_length
                    (fun faculty => blank (Ingest.v_keywords faculty)) validatedFaculty).
      pose proof (filter_length_le
                    (fun faculty => negb (blank (Ingest.v_keywords faculty)))
                    validatedFaculty).
      lia.
Qed.

Lemma ingest_pairs_by_position_witness :
  Ingest.facultyWithEmbeddings sample_world punctuation_upload
  = Returned (combine punctuation_upload [Some (basis 0 ++ repeat 0 1152); None])
  /\ map fst (combine punctuation_upload [Some (basis 0 ++ repeat 0 1152); None])
     = punctuation_upload
  /\ exists embeddings,
      mapM (fun faculty => pipe sample_world (Embedding.cleanText (Ingest.v_keywords faculty)))
        (filter (fun faculty => negb (blank (Ingest.v_keywords faculty))) punctuation_upload)
      = Returned embeddings
      /\ Forall (fun e => (List.length e <= 1536)%nat) embeddings
      /\ map snd (combine punctuation_upload [Some (basis 0 ++ repeat 0 1152); None])
         = map (fun e => Some (e ++ repeat 0 (1536 - List.length e))) embeddings
           ++ repeat None
                (List.length
                   (filter (fun faculty => blank (Ingest.v_keywords faculty))
                      punctuation_upload)).
Proof.
  assert (H : Ingest.facultyWithEmbeddings sample_world punctuation_upload
              = Returned (combine punctuation_upload
                            [Some (basis 0 ++ repeat 0 1152); None]))
    by (vm_compute; reflexivity).
  split; [exact H|].
  exact (ingest_pairs_by_position sample_world punctuation_upload _ H).
Defined.

(* ================================================================== *)
(** * The faculty route *)

Lemma calculateAdvancedSimilarity_results w targetFacultyId
    (options : Advanced.AdvancedOptions) r :
  Advanced.calculateAdvancedSimilarity w targetFacultyId options = Returned r ->
  ((0 <= default 10%Z (maxResults options))%Z ->
   descending_above (default 0.1 (minSimilarity options))
     (default 10%Z (maxResults options)) r)
  /\ (forall x, In x r ->
        exists f, candidate_row w options f /\ row_of f x
                  /\ faculty_id f <> targetFacultyId).
Proof.
  intros Hr. apply calculateAdvancedSimilarity_paths in Hr. destruct Hr as [Hr|Hr]; split.
  - intros Hk.
    destruct (calculateSimilarFaculty_ranked w targetFacultyId options Hk)
      as [r' [Hr' Hranked]].
    rewrite Hr in Hr'. apply Returned_inj in Hr'. subst r'.
    eapply ranked_descending_above; eassumption.
  - intros x Hx. eapply calculateSimilarFaculty_In; eassumption.
  - intros Hk. apply calculate_dense_returned in Hr.
    destruct Hr as [->|[rows [t [embs [_ ->]]]]];
      [now apply descending_above_nil | now apply findSimilarFaculty_descending].
  - intros x Hx. eapply calculate_dense_In; eassumption.
Qed.

(** X26: the answer of the faculty route. It answers 404 exactly when no
    row has the requested id; otherwise it answers with that row and a
    list of similar faculty, even when the similarity calculation throws.
    Every entry of the list describes a row of the table that passes the
    school and department filters and is not the requested one; for a
    count that is not negative (or not a number) the list has at most
    min(count, 8) entries. *)
Theorem faculty_route_answer : forall w id similarityCount school department,
  match FacultyRoute.GET w id similarityCount school department with
  | FacultyRoute.NotFound => select_single w id = None
  | FacultyRoute.Found faculty similar =>
      select_single w id = Some faculty
      /\ Forall (fun s =>
                   FacultyRoute.s_faculty_id s <> id
                   /\ exists f,
                       candidate_row w
                         {| maxResults := None; minSimilarity := None;
                            filterSchool := FacultyRoute.or_undefined school;
                            filterDepartment := FacultyRoute.or_undefined department |} f
                       /\ describes f s) similar
      /\ ((0 <= FacultyRoute.capped similarityCount)%Z ->
          (Z.of_nat (List.length similar) <= FacultyRoute.capped similarityCount)%Z
          /\ (List.length similar <= 8)%nat)
  end.
Proof.
  intros w id similarityCount school department. unfold FacultyRoute.GET.
  destruct (select_single w id) as [faculty|]; [|reflexivity].
  cbv zeta. split; [reflexivity|].
  destruct (Advanced.calculateAdvancedSimilarity w id _) as [r|e] eqn:Hr.
  - apply calculateAdvancedSimilarity_results in Hr. destruct Hr as [Hranked Hin].
    split.
    + apply Forall_forall. intros s Hs. apply in_map_iff in Hs.
      destruct Hs as [x [<- Hx]]. destruct (Hin x Hx) as [f [Hc [Hrow Hne]]].
      cbn [FacultyRoute.s_faculty_id].
      destruct Hrow as [H1 [H2 [H3 [H4 H5]]]].
      split; [now rewrite H1|].
      exists f. split; [exact Hc|]. repeat split; assumption.
    + intros Hk. destruct (Hranked Hk) as [_ [_ Hlen]].
      cbn in Hlen. rewrite length_map.
      split; [exact Hlen|].
      assert (FacultyRoute.capped similarityCount <= 8)%Z
        by (destruct similarityCount; simpl; lia).
      lia.
  - split; [constructor|]. intros Hk. simpl. split; lia.
Qed.
